(** * ice-by-claude: health engine, allocation strategies and epoch executor

    A shallow embedding of the core of the repository:

    - [IceHealthEngine] (src/services/ice-health/engine.ts),
    - [FixedAllocationStrategy], [AdaptiveAllocationStrategy] and
      [Executor] (src/services/executor/index.ts),
    - the swap engines and [createSwapEngine] (src/services/dex/engines),
    - [WalletWatcherFeeSource] (src/services/fee-source),
    - [validateConfig] of [ConfigManager] (src/config/manager.ts),
    - [executeEpoch] and [getHealthMetricsInput] of the orchestrator
      [IceProtocol] (src/index.ts),

    followed by the properties of the specification stated over it.

    Numbers.  A TypeScript [number] is modelled by [num]: a finite value is
    an exact rational, and the three special values of IEEE-754 that the
    code can produce by dividing by zero ([Infinity], [-Infinity], [NaN])
    are kept, with the rules JavaScript gives them.  Rounding of finite
    results to 53 bits, overflow and the sign of zero are not modelled:
    every statement below is about exact arithmetic on finite values.

    Counters and Unix times held by the executor ([epochNumber],
    [consecutiveFailures], [lastExecutionTime]) only ever hold integers
    (they start at 0 and are incremented, reset, or assigned
    [Math.floor(Date.now() / 1000)]), and are modelled in [Z].

    Effects.  The executor is written in a monad of state and exceptions
    over the two objects it assigns to; the clock, the ledger connection
    and the swap engine are answers given from outside.  Calls of the
    logger are left out: the logger is taken to return, and what it
    prints is not part of any statement. *)

From Stdlib Require Import QArith Qround Qminmax Qabs Lqa ZArith Lia Bool List String.
From Stdlib Require Import Setoid Morphisms.
Import ListNotations.

(* ================================================================== *)
(** ** JavaScript numbers *)
(* ================================================================== *)

Module JsNumber.

Inductive num : Type :=
| Fin (q : Q)
| PInf
| NInf
| NaN.

Arguments Fin q%_Q.

(** The integer [z] as a number. *)
Definition ofZ (z : Z) : num := Fin (inject_Z z).

(** [Infinity] with the sign of a non-zero finite factor; [NaN] for zero
    ([0 * Infinity] and [0 / 0]). *)
Definition infBy (c : comparison) : num :=
  match c with
  | Gt => PInf
  | Lt => NInf
  | Eq => NaN
  end.

Definition neg (x : num) : num :=
  match x with
  | Fin q => Fin (- q)
  | PInf => NInf
  | NInf => PInf
  | NaN => NaN
  end.

Definition add (x y : num) : num :=
  match x, y with
  | NaN, _ | _, NaN => NaN
  | Fin a, Fin b => Fin (a + b)
  | PInf, NInf | NInf, PInf => NaN
  | PInf, _ | _, PInf => PInf
  | NInf, _ | _, NInf => NInf
  end.

Definition sub (x y : num) : num := add x (neg y).

Definition mul (x y : num) : num :=
  match x, y with
  | NaN, _ | _, NaN => NaN
  | Fin a, Fin b => Fin (a * b)
  | Fin a, PInf | PInf, Fin a => infBy (a ?= 0)
  | Fin a, NInf | NInf, Fin a => neg (infBy (a ?= 0))
  | PInf, PInf | NInf, NInf => PInf
  | PInf, NInf | NInf, PInf => NInf
  end.

(** Division.  A zero divisor is the positive zero (in the code every
    divisor that can vanish is a difference [100 - x] or a constant). *)
Definition div (x y : num) : num :=
  match x, y with
  | NaN, _ | _, NaN => NaN
  | Fin a, Fin b => if Qeq_bool b 0 then infBy (a ?= 0) else Fin (a / b)
  | Fin _, PInf | Fin _, NInf => Fin 0
  | PInf, Fin b => if Qle_bool 0 b then PInf else NInf
  | NInf, Fin b => if Qle_bool 0 b then NInf else PInf
  | PInf, PInf | PInf, NInf | NInf, PInf | NInf, NInf => NaN
  end.

(** The relational operators: every comparison with [NaN] is false. *)
Definition le (x y : num) : bool :=
  match x, y with
  | NaN, _ | _, NaN => false
  | Fin a, Fin b => Qle_bool a b
  | NInf, _ | _, PInf => true
  | PInf, _ | _, NInf => false
  end.

Definition lt (x y : num) : bool :=
  match x, y with
  | NaN, _ | _, NaN => false
  | Fin a, Fin b => negb (Qle_bool b a)
  | PInf, _ | _, NInf => false
  | NInf, _ | _, PInf => true
  end.

Definition gt (x y : num) : bool := lt y x.
Definition ge (x y : num) : bool := le y x.

(** Same numeric value (finite values up to equality of fractions).  This
    is the equality of the mathematical values, so [NaN] is related to
    itself; it is used to state results, never inside the code. *)
Definition same (x y : num) : Prop :=
  match x, y with
  | Fin a, Fin b => a == b
  | PInf, PInf | NInf, NInf | NaN, NaN => True
  | _, _ => False
  end.

Definition isFinite (x : num) : Prop :=
  match x with
  | Fin _ => True
  | _ => False
  end.

(** A finite, non-negative number. *)
Definition nonNegative (x : num) : Prop :=
  match x with
  | Fin q => 0 <= q
  | _ => False
  end.

End JsNumber.

Export JsNumber.

Declare Scope num_scope.
Delimit Scope num_scope with num.
Bind Scope num_scope with num.
Infix "+" := add : num_scope.
Infix "-" := sub : num_scope.
Infix "*" := mul : num_scope.
Infix "/" := div : num_scope.
Infix "<?" := lt : num_scope.
Infix "<=?" := le : num_scope.
Infix ">?" := gt : num_scope.
Infix ">=?" := ge : num_scope.
Infix "=~" := same (at level 70, no associativity).

(** [Math.min], [Math.max] and [Math.round]. *)
Module Math.

Definition min (x y : num) : num :=
  match x, y with
  | NaN, _ | _, NaN => NaN
  | Fin a, Fin b => Fin (Qmin a b)
  | NInf, _ | _, NInf => NInf
  | PInf, z | z, PInf => z
  end.

Definition max (x y : num) : num :=
  match x, y with
  | NaN, _ | _, NaN => NaN
  | Fin a, Fin b => Fin (Qmax a b)
  | PInf, _ | _, PInf => PInf
  | NInf, z | z, NInf => z
  end.

(** [Math.round] rounds to the nearest integer, halves towards
    [+Infinity]: [floor (x + 1/2)]. *)
Definition round (x : num) : num :=
  match x with
  | Fin q => ofZ (Qfloor (q + (1 # 2)))
  | other => other
  end.

(** [Math.floor], [Math.ceil] and [Math.abs]. *)
Definition floor (x : num) : num :=
  match x with
  | Fin q => ofZ (Qfloor q)
  | other => other
  end.

Definition ceil (x : num) : num :=
  match x with
  | Fin q => ofZ (Qceiling q)
  | other => other
  end.

Definition abs (x : num) : num :=
  match x with
  | Fin q => Fin (Qabs.Qabs q)
  | PInf | NInf => PInf
  | NaN => NaN
  end.

End Math.

(* ================================================================== *)
(** ** Types (src/types) *)
(* ================================================================== *)

Record IceHealthMetrics : Type := {
  buybackFrequency : num;
  buybackCoverage : num;
  liquidityDepth : num;
  volatilityPenalty : num;
  timeDecay : num
}.

Inductive Status : Type := ALIVE | MELTING | DEAD.

Record IceHealthState : Type := {
  timestamp : Z;
  health : num;
  metrics : IceHealthMetrics;
  status : Status;
  lastActionTime : num;
  hs_epochNumber : Z
}.

Record AllocationConfig : Type := {
  buybackPct : num;
  lpPct : num;
  burnPct : num;
  coolingPct : num
}.

(** The [iceHealthWeights] object of the configuration has the field names
    of [IceHealthMetrics]. *)
Module Weights.
Record t : Type := {
  buybackFrequency : num;
  buybackCoverage : num;
  liquidityDepth : num;
  volatilityPenalty : num;
  timeDecay : num
}.
End Weights.

Inductive ExecutorMode : Type := DryRun | Live.
Inductive AllocationMode : Type := Adaptive | Fixed.

Record ExecutorConfig : Type := {
  mode : ExecutorMode;
  epochIntervalSeconds : num;
  maxBudgetPerEpochSol : num;
  minIntervalSeconds : num;
  maxConsecutiveFailures : num;
  minBalanceToOperateSol : num;
  driftToleranceBps : num
}.

Record ProtocolConfig : Type := {
  iceTokenMint : string;
  executor : ExecutorConfig;
  maxSlippageBps : num;
  maxPriceImpactBps : num;
  iceHealthThreshold : num;
  iceHealthWeights : Weights.t;
  allocationMode : AllocationMode;
  allocationConfig : AllocationConfig
}.

Record HealthMetricsInput : Type := {
  buybackCountLast24h : num;
  buybackVolumeSolLast24h : num;
  recentSellPressureSol : num;
  currentLiquidity : num;
  volatilityPercent24h : num;
  lastBuybackTimestampSeconds : num;
  currentTimestampSeconds : num
}.

(* ================================================================== *)
(** ** IceHealthEngine *)
(* ================================================================== *)

Module IceHealthEngine.

Local Open Scope num_scope.

(** The five local constants of [computeMetrics], before rounding. *)

Definition buybackFrequencyScore (input : HealthMetricsInput) : num :=
  Math.min (Fin 100) ((buybackCountLast24h input / Fin 4) * Fin 100).

Definition estimatedBuybackCoverage (input : HealthMetricsInput) : num :=
  if recentSellPressureSol input >? Fin 0
  then (buybackVolumeSolLast24h input / recentSellPressureSol input) * Fin 100
  else Fin 100.

Definition buybackCoverageScore (input : HealthMetricsInput) : num :=
  Math.min (Fin 100) (estimatedBuybackCoverage input).

Definition liquidityDepthScore (input : HealthMetricsInput) : num :=
  Math.min (Fin 100) ((currentLiquidity input / Fin 50) * Fin 100).

Definition volatilityPenaltyScore (input : HealthMetricsInput) : num :=
  Math.min (Fin 100) (volatilityPercent24h input).

Definition secondsSinceLastAction (input : HealthMetricsInput) : num :=
  currentTimestampSeconds input - lastBuybackTimestampSeconds input.

Definition hoursSinceLastAction (input : HealthMetricsInput) : num :=
  secondsSinceLastAction input / Fin 3600.

Definition timeDecayScore (input : HealthMetricsInput) : num :=
  Math.min (Fin 100) (Math.max (Fin 0) ((hoursSinceLastAction input / Fin 72) * Fin 100)).

(** [Math.round(x * 100) / 100]. *)
Definition round2 (x : num) : num := Math.round (x * Fin 100) / Fin 100.

Definition computeMetrics (input : HealthMetricsInput) : IceHealthMetrics :=
  {| buybackFrequency := round2 (buybackFrequencyScore input);
     buybackCoverage := round2 (buybackCoverageScore input);
     liquidityDepth := round2 (liquidityDepthScore input);
     volatilityPenalty := round2 (volatilityPenaltyScore input);
     timeDecay := round2 (timeDecayScore input) |}.

Definition computeHealthScore (config : ProtocolConfig) (metrics : IceHealthMetrics) : num :=
  let weights := iceHealthWeights config in
  let score :=
    Weights.buybackFrequency weights * buybackFrequency metrics
    + Weights.buybackCoverage weights * buybackCoverage metrics
    + Weights.liquidityDepth weights * liquidityDepth metrics
    - Weights.volatilityPenalty weights * volatilityPenalty metrics
    - Weights.timeDecay weights * timeDecay metrics in
  Math.max (Fin 0) (Math.min (Fin 100) score).

Definition computeStatus (config : ProtocolConfig) (health : num) : Status :=
  let threshold := iceHealthThreshold config in
  if health >=? threshold then ALIVE
  else if health >? Fin 0 then MELTING
  else DEAD.

(** [computeHealth].  [dateNow] is the value of [Date.now()] (milliseconds)
    read by the call; logging is not modelled. *)
Definition computeHealth (config : ProtocolConfig) (dateNow : Z)
  (input : HealthMetricsInput) (epochNumber : Z) : IceHealthState :=
  let timestamp := (dateNow / 1000)%Z in
  let metrics := computeMetrics input in
  let health := computeHealthScore config metrics in
  let status := computeStatus config health in
  {| timestamp := timestamp;
     health := round2 health;
     metrics := metrics;
     status := status;
     lastActionTime := lastBuybackTimestampSeconds input;
     hs_epochNumber := epochNumber |}.

Definition isAlive (state : IceHealthState) : bool :=
  match status state with
  | ALIVE => true
  | _ => false
  end.

(** [estimateTimeToThreshold]: minutes until the health reaches the
    threshold at a decay of 0.25 per hour; the declared result type is
    [number | null], and [currentTimestamp] is not used.  The product
    under [Math.ceil] is exact here.  In double arithmetic it can fall
    just on the other side of a whole number (health 50.1 and threshold
    50 give 24.000000000000341, hence 25, where the exact product is 24),
    so what is proved of the result below is what holds for both: its
    sign, its order and its distance from the exact product, not the
    whole number itself. *)
Definition estimateTimeToThreshold (config : ProtocolConfig) (state : IceHealthState)
  (currentTimestamp : num) : option num :=
  match status state with
  | MELTING | DEAD => Some (Fin 0)
  | ALIVE =>
      let decayRatePerHour := Fin 0.25 in
      let healthDropNeeded := health state - iceHealthThreshold config in
      let hoursToThreshold := healthDropNeeded / decayRatePerHour in
      Some (Math.ceil (hoursToThreshold * Fin 60))
  end.

End IceHealthEngine.

(* ================================================================== *)
(** ** Allocation *)
(* ================================================================== *)

(** What a [throw] carries, as far as the core looks at it: the message of
    the [Error] (or [String(error)]).  The price-impact message is a
    template over two numbers and is kept structured. *)
Inductive JsError : Type :=
| ErrorMessage (message : string)
| PriceImpactTooHigh (priceImpactBps ceilingBps : num).

(** How a call ends: it returns, or it throws. *)
Inductive Completion (A : Type) : Type :=
| Normal (a : A)
| Throw (e : JsError).

Arguments Normal {A} a.
Arguments Throw {A} e.

Inductive ActionType : Type := Buyback | AddLp | Burn | CoolingEvent.
Inductive ActionStatus : Type := Pending | Executed | Failed.

Record AllocationAction : Type := {
  action_type : ActionType;
  amountSol : num;
  signature : option string;
  action_status : ActionStatus;
  error : option JsError
}.

Record Allocations : Type := {
  buyback : num;
  lp : num;
  burn : num;
  cooling : num
}.

Record EpochAllocation : Type := {
  totalFeesToAllocate : num;
  allocations : Allocations;
  actions : list AllocationAction
}.

(** The interface [AllocationStrategy].  As any call, an implementation
    may throw. *)
Record AllocationStrategy : Type := {
  allocate : num -> IceHealthState -> AllocationConfig -> Completion EpochAllocation
}.

Module FixedAllocationStrategy.

Local Open Scope num_scope.

Definition allocate (feeAmount : num) (_iceHealth : IceHealthState)
  (config : AllocationConfig) : EpochAllocation :=
  let allocations :=
    {| buyback := (feeAmount * buybackPct config) / Fin 100;
       lp := (feeAmount * lpPct config) / Fin 100;
       burn := (feeAmount * burnPct config) / Fin 100;
       cooling := (feeAmount * coolingPct config) / Fin 100 |} in
  {| totalFeesToAllocate := feeAmount;
     allocations := allocations;
     actions := [] |}.

End FixedAllocationStrategy.

Module AdaptiveAllocationStrategy.

Local Open Scope num_scope.

(** The four percentages [allocate] works with: the local [buybackPct],
    [lpPct], [burnPct] and [coolingPct]. *)
Definition adaptedBuybackPct (iceHealth : IceHealthState)
  (baseConfig : AllocationConfig) : num :=
  let health := health iceHealth in
  if health <? Fin 30 then Fin 85
  else if health <? Fin 50 then Fin 80
  else if health <? Fin 70 then buybackPct baseConfig
  else Fin 50.

Definition adaptedConfig (iceHealth : IceHealthState)
  (baseConfig : AllocationConfig) : AllocationConfig :=
  let buybackPct' := adaptedBuybackPct iceHealth baseConfig in
  let remaining := Fin 100 - buybackPct' in
  {| buybackPct := buybackPct';
     lpPct := (lpPct baseConfig / (Fin 100 - buybackPct baseConfig)) * remaining;
     burnPct := (burnPct baseConfig / (Fin 100 - buybackPct baseConfig)) * remaining;
     coolingPct := (coolingPct baseConfig / (Fin 100 - buybackPct baseConfig)) * remaining |}.

Definition allocate (feeAmount : num) (iceHealth : IceHealthState)
  (baseConfig : AllocationConfig) : EpochAllocation :=
  let pct := adaptedConfig iceHealth baseConfig in
  let allocations :=
    {| buyback := (feeAmount * buybackPct pct) / Fin 100;
       lp := (feeAmount * lpPct pct) / Fin 100;
       burn := (feeAmount * burnPct pct) / Fin 100;
       cooling := (feeAmount * coolingPct pct) / Fin 100 |} in
  {| totalFeesToAllocate := feeAmount;
     allocations := allocations;
     actions := [] |}.

End AdaptiveAllocationStrategy.

(** The two implementations, as values of the interface. *)
Definition fixedStrategy : AllocationStrategy :=
  {| allocate := fun feeAmount iceHealth config =>
       Normal (FixedAllocationStrategy.allocate feeAmount iceHealth config) |}.

Definition adaptiveStrategy : AllocationStrategy :=
  {| allocate := fun feeAmount iceHealth config =>
       Normal (AdaptiveAllocationStrategy.allocate feeAmount iceHealth config) |}.

(** The sum of the four amounts of an allocation. *)
Definition allocatedTotal (a : Allocations) : num :=
  (buyback a + lp a + burn a + cooling a)%num.

(* ================================================================== *)
(** ** Collaborators of the executor *)
(* ================================================================== *)

Module Quote.
Record t : Type := {
  inputAmount : num;
  outputAmount : num;
  priceImpactBps : num;
  feeBps : num;
  routePath : string
}.
End Quote.

Module SwapResult.
Record t : Type := {
  signature : string;
  inputAmount : num;
  outputAmount : num;
  actualPriceImpactBps : num
}.
End SwapResult.

Record FeeEvent : Type := {
  fe_signature : string;
  fe_timestamp : num;
  fe_amountSol : num;
  fe_processed : bool
}.

Record FeeTracker : Type := {
  totalFeesCollected : num;
  lastProcessedSignature : string;
  lastProcessedTimestamp : num;
  events : list FeeEvent
}.

Record ExecutorState : Type := {
  lastExecutionTime : Z;
  consecutiveFailures : Z;
  epochNumber : Z;
  circuitBreakerActive : bool
}.

(** What the outside answers during one epoch: the clock, the balance
    query of the ledger connection and the two calls of the swap engine
    (input mint, output mint, amount, slippage).  Each of the three calls
    is awaited at most once per epoch and may reject. *)
Record World : Type := {
  dateNow : Z;
  getBalance : Completion num;
  dryRun : string -> string -> num -> num -> Completion Quote.t;
  swap : string -> string -> num -> num -> Completion SwapResult.t
}.

(** The mutable objects the executor writes: its own [executorState] and
    the fee tracker it shares with the orchestrator. *)
Record Store : Type := {
  executorState : ExecutorState;
  feeTracker : FeeTracker
}.

(* ================================================================== *)
(** ** A monad of state and exceptions *)
(* ================================================================== *)

(** A computation reads and writes the store and returns or throws.  The
    store survives a throw: what was assigned before it stays assigned. *)
Definition M (A : Type) : Type := Store -> Completion A * Store.

Definition ret {A} (a : A) : M A := fun s => (Normal a, s).

Definition bind {A B} (c : M A) (k : A -> M B) : M B :=
  fun s =>
    match c s with
    | (Normal a, s') => k a s'
    | (Throw e, s') => (Throw e, s')
    end.

Definition throw {A} (e : JsError) : M A := fun s => (Throw e, s).

Definition tryCatch {A} (body : M A) (handler : JsError -> M A) : M A :=
  fun s =>
    match body s with
    | (Normal a, s') => (Normal a, s')
    | (Throw e, s') => handler e s'
    end.

Definition await {A} (c : Completion A) : M A := fun s => (c, s).

Definition getStore : M Store := fun s => (Normal s, s).
Definition putStore (s : Store) : M unit := fun _ => (Normal tt, s).

Declare Scope monad_scope.
Delimit Scope monad_scope with monad.
Notation "x <- c ;; k" := (bind c (fun x => k))
  (at level 61, c at next level, right associativity) : monad_scope.
Notation "c ;; k" := (bind c (fun _ => k))
  (at level 61, right associativity) : monad_scope.

(** The same two operations for calls that touch no store. *)
Definition bindC {A B} (c : Completion A) (k : A -> Completion B) : Completion B :=
  match c with
  | Normal a => k a
  | Throw e => Throw e
  end.

Definition catchC {A} (body : Completion A) (handler : JsError -> Completion A)
  : Completion A :=
  match body with
  | Normal a => Normal a
  | Throw e => handler e
  end.

(* ================================================================== *)
(** ** Executor *)
(* ================================================================== *)

Module Executor.

Local Open Scope num_scope.
Local Open Scope monad_scope.

(** The immutable fields of an [Executor] object. *)
Record t : Type := {
  config : ProtocolConfig;
  allocationStrategy : AllocationStrategy
}.

(** The constructor picks the strategy from [allocationMode]. *)
Definition make (config : ProtocolConfig) : t :=
  {| config := config;
     allocationStrategy :=
       match allocationMode config with
       | Adaptive => adaptiveStrategy
       | Fixed => fixedStrategy
       end |}.

(** The initial values of the fields [executorState] and of the fee
    tracker the orchestrator creates. *)
Definition initialExecutorState : ExecutorState :=
  {| lastExecutionTime := 0;
     consecutiveFailures := 0;
     epochNumber := 0;
     circuitBreakerActive := false |}.

Definition initialFeeTracker : FeeTracker :=
  {| totalFeesCollected := Fin 0;
     lastProcessedSignature := EmptyString;
     lastProcessedTimestamp := Fin 0;
     events := [] |}.

Definition initialStore : Store :=
  {| executorState := initialExecutorState; feeTracker := initialFeeTracker |}.

(** Assignments to single fields. *)
Definition modifyExecutorState (f : ExecutorState -> ExecutorState) : M unit :=
  fun s => (Normal tt, {| executorState := f (executorState s); feeTracker := feeTracker s |}).

Definition setLastExecutionTime (v : Z) : M unit :=
  modifyExecutorState (fun es =>
    {| lastExecutionTime := v;
       consecutiveFailures := consecutiveFailures es;
       epochNumber := epochNumber es;
       circuitBreakerActive := circuitBreakerActive es |}).

Definition setConsecutiveFailures (v : Z) : M unit :=
  modifyExecutorState (fun es =>
    {| lastExecutionTime := lastExecutionTime es;
       consecutiveFailures := v;
       epochNumber := epochNumber es;
       circuitBreakerActive := circuitBreakerActive es |}).

Definition setEpochNumber (v : Z) : M unit :=
  modifyExecutorState (fun es =>
    {| lastExecutionTime := lastExecutionTime es;
       consecutiveFailures := consecutiveFailures es;
       epochNumber := v;
       circuitBreakerActive := circuitBreakerActive es |}).

Definition setCircuitBreakerActive (v : bool) : M unit :=
  modifyExecutorState (fun es =>
    {| lastExecutionTime := lastExecutionTime es;
       consecutiveFailures := consecutiveFailures es;
       epochNumber := epochNumber es;
       circuitBreakerActive := v |}).

Definition setTotalFeesCollected (v : num) : M unit :=
  fun s =>
    (Normal tt,
     {| executorState := executorState s;
        feeTracker :=
          {| totalFeesCollected := v;
             lastProcessedSignature := lastProcessedSignature (feeTracker s);
             lastProcessedTimestamp := lastProcessedTimestamp (feeTracker s);
             events := events (feeTracker s) |} |}).

Definition getExecutorState : M ExecutorState :=
  fun s => (Normal (executorState s), s).

Definition getFeeTracker : M FeeTracker :=
  fun s => (Normal (feeTracker s), s).

Definition setActions (allocation : EpochAllocation) (actions : list AllocationAction)
  : EpochAllocation :=
  {| totalFeesToAllocate := totalFeesToAllocate allocation;
     allocations := allocations allocation;
     actions := actions |}.

Definition getWrappedSolMint : string :=
  "So11111111111111111111111111111111111111112"%string.

Section Methods.

Variable this : t.
Variable world : World.

(** [incrementFailureCount] *)
Definition incrementFailureCount : M unit :=
  es <- getExecutorState ;;
  setConsecutiveFailures (consecutiveFailures es + 1) ;;
  es <- getExecutorState ;;
  if ofZ (consecutiveFailures es) >=? maxConsecutiveFailures (executor (config this))
  then setCircuitBreakerActive true
  else ret tt.

(** [checkBotBalance]: lamports to SOL; a failed query counts as 0. *)
Definition checkBotBalance : Completion num :=
  catchC
    (bindC (getBalance world) (fun balance => Normal (balance / Fin 1000000000)))
    (fun _ => Normal (Fin 0)).

Definition pendingAction (type : ActionType) (amount : num) : AllocationAction :=
  {| action_type := type;
     amountSol := amount;
     signature := None;
     action_status := Pending;
     error := None |}.

Definition executed (action : AllocationAction) (sig : option string) : AllocationAction :=
  {| action_type := action_type action;
     amountSol := amountSol action;
     signature := sig;
     action_status := Executed;
     error := error action |}.

Definition failed (action : AllocationAction) (e : JsError) : AllocationAction :=
  {| action_type := action_type action;
     amountSol := amountSol action;
     signature := signature action;
     action_status := Failed;
     error := Some e |}.

(** [executeBuyback]: quote, refuse above the price-impact ceiling, swap. *)
Definition executeBuyback (solAmount : num) : Completion AllocationAction :=
  let action := pendingAction Buyback solAmount in
  catchC
    (bindC (dryRun world getWrappedSolMint (iceTokenMint (config this)) solAmount
              (maxSlippageBps (config this))) (fun quote =>
     if Quote.priceImpactBps quote >? maxPriceImpactBps (config this)
     then Throw (PriceImpactTooHigh (Quote.priceImpactBps quote)
                   (maxPriceImpactBps (config this)))
     else
       bindC (swap world getWrappedSolMint (iceTokenMint (config this)) solAmount
                (maxSlippageBps (config this))) (fun result =>
       Normal (executed action (Some (SwapResult.signature result))))))
    (fun e => Normal (failed action e)).

(** [executeAddLP] and [executeBurn]: not implemented, recorded as failed. *)
Definition executeAddLP (solAmount : num) : Completion AllocationAction :=
  let action := pendingAction AddLp solAmount in
  catchC
    (Normal (failed action (ErrorMessage "Not yet implemented")))
    (fun e => Normal (failed action e)).

Definition executeBurn (iceAmount : num) : Completion AllocationAction :=
  let action := pendingAction Burn iceAmount in
  catchC
    (Normal (failed action (ErrorMessage "Not yet implemented")))
    (fun e => Normal (failed action e)).

(** [executeCooling]: recorded as executed, no call outside. *)
Definition executeCooling (solAmount : num) : Completion AllocationAction :=
  let action := pendingAction CoolingEvent solAmount in
  catchC
    (Normal (executed action (signature action)))
    (fun e => Normal (failed action e)).

(** One step of [executeActions]: run the action of a category whose
    amount is positive and push it. *)
Definition pushIfPositive (amount : num) (run : num -> Completion AllocationAction)
  (actions : list AllocationAction) : M (list AllocationAction) :=
  if amount >? Fin 0
  then action <- await (run amount) ;; ret (actions ++ [action])
  else ret actions.

(** [executeActions]; the assignment to [allocation.actions] is the
    returned allocation. *)
Definition executeActions (allocation : EpochAllocation) : M EpochAllocation :=
  let a := allocations allocation in
  actions <- pushIfPositive (buyback a) executeBuyback [] ;;
  actions <- pushIfPositive (lp a) executeAddLP actions ;;
  actions <- pushIfPositive (burn a) executeBurn actions ;;
  actions <- pushIfPositive (cooling a) executeCooling actions ;;
  ret (setActions allocation actions).

(** The [try] block of [executeEpoch]. *)
Definition epochBody (iceHealth : IceHealthState) : M (option EpochAllocation) :=
  es <- getExecutorState ;;
  if circuitBreakerActive es then ret None else
  let now := (dateNow world / 1000)%Z in
  if ofZ (now - lastExecutionTime es) <? minIntervalSeconds (executor (config this))
  then ret None else
  botBalance <- await checkBotBalance ;;
  if botBalance <? minBalanceToOperateSol (executor (config this))
  then incrementFailureCount ;; ret None else
  ft <- getFeeTracker ;;
  let feesToProcess := totalFeesCollected ft in
  if feesToProcess <? Fin 0.01 then ret None else
  allocation <- await (allocate (allocationStrategy this) feesToProcess iceHealth
                         (allocationConfig (config this))) ;;
  allocation <- match mode (executor (config this)) with
                | Live => executeActions allocation
                | DryRun => ret allocation
                end ;;
  setLastExecutionTime now ;;
  setConsecutiveFailures 0 ;;
  setTotalFeesCollected (Fin 0) ;;
  ret (Some allocation).

(** [executeEpoch]: [None] is the [null] of the source. *)
Definition executeEpoch (iceHealth : IceHealthState) : M (option EpochAllocation) :=
  es <- getExecutorState ;;
  setEpochNumber (epochNumber es + 1) ;;
  tryCatch (epochBody iceHealth)
    (fun _error => incrementFailureCount ;; ret None).

(** [resetCircuitBreaker] *)
Definition resetCircuitBreaker : M unit :=
  setCircuitBreakerActive false ;;
  setConsecutiveFailures 0.

(** [getState]: a copy of [executorState]. *)
Definition getState : M ExecutorState := getExecutorState.

End Methods.

End Executor.

(* ================================================================== *)
(** ** Reachable stores *)
(* ================================================================== *)

(** What can happen to the store of one executor between start-up and
    any later moment: an epoch (with whatever the outside answers and
    whatever health state the orchestrator passes), a manual reset, a
    state query, or fees added to the tracker from outside. *)
Inductive reachable (this : Executor.t) : Store -> Prop :=
| reach_init : reachable this Executor.initialStore
| reach_epoch : forall world iceHealth s,
    reachable this s ->
    reachable this (snd (Executor.executeEpoch this world iceHealth s))
| reach_reset : forall s,
    reachable this s ->
    reachable this (snd (Executor.resetCircuitBreaker s))
| reach_query : forall s,
    reachable this s ->
    reachable this (snd (Executor.getState s))
| reach_fees : forall s tracker,
    reachable this s ->
    reachable this {| executorState := executorState s; feeTracker := tracker |}.

(* ================================================================== *)
(** ** The specification's reading of rounding *)
(* ================================================================== *)

Module Spec.

(** The specification asks that rounding to two decimals be applied to
    reported values only, and that the weighted sum, the clamp and the
    threshold comparison use the sub-scores as computed.  These are the
    sub-scores, the composite score and the status under that reading. *)
Definition unroundedMetrics (input : HealthMetricsInput) : IceHealthMetrics :=
  {| buybackFrequency := IceHealthEngine.buybackFrequencyScore input;
     buybackCoverage := IceHealthEngine.buybackCoverageScore input;
     liquidityDepth := IceHealthEngine.liquidityDepthScore input;
     volatilityPenalty := IceHealthEngine.volatilityPenaltyScore input;
     timeDecay := IceHealthEngine.timeDecayScore input |}.

Definition unroundedHealthScore (config : ProtocolConfig) (input : HealthMetricsInput) : num :=
  IceHealthEngine.computeHealthScore config (unroundedMetrics input).

Definition unroundedStatus (config : ProtocolConfig) (input : HealthMetricsInput) : Status :=
  IceHealthEngine.computeStatus config (unroundedHealthScore config input).

End Spec.

(* ================================================================== *)
(** ** Configurations and inputs of the examples *)
(* ================================================================== *)

(** [mockConfig] of the health engine test. *)
Definition mockWeights : Weights.t :=
  {| Weights.buybackFrequency := Fin 0.25;
     Weights.buybackCoverage := Fin 0.25;
     Weights.liquidityDepth := Fin 0.25;
     Weights.volatilityPenalty := Fin 0.15;
     Weights.timeDecay := Fin 0.1 |}.

Definition mockAllocationConfig : AllocationConfig :=
  {| buybackPct := Fin 70; lpPct := Fin 20; burnPct := Fin 5; coolingPct := Fin 5 |}.

Definition mockExecutorConfig (m : ExecutorMode) : ExecutorConfig :=
  {| mode := m;
     epochIntervalSeconds := Fin 1800;
     maxBudgetPerEpochSol := Fin 1;
     minIntervalSeconds := Fin 300;
     maxConsecutiveFailures := Fin 5;
     minBalanceToOperateSol := Fin 0.5;
     driftToleranceBps := Fin 50 |}.

Definition mockConfigIn (m : ExecutorMode) : ProtocolConfig :=
  {| iceTokenMint := "11111111111111111111111111111111"%string;
     executor := mockExecutorConfig m;
     maxSlippageBps := Fin 500;
     maxPriceImpactBps := Fin 1000;
     iceHealthThreshold := Fin 50;
     iceHealthWeights := mockWeights;
     allocationMode := Adaptive;
     allocationConfig := mockAllocationConfig |}.

Definition mockConfig : ProtocolConfig := mockConfigIn DryRun.

(** Test 1 of the health engine test ("Healthy Ice"), at the time [now]. *)
Definition healthyInput (now : Q) : HealthMetricsInput :=
  {| buybackCountLast24h := Fin 5;
     buybackVolumeSolLast24h := Fin 10;
     recentSellPressureSol := Fin 5;
     currentLiquidity := Fin 100;
     volatilityPercent24h := Fin 10;
     lastBuybackTimestampSeconds := Fin (now - 3600);
     currentTimestampSeconds := Fin now |}.

(** Four buybacks, nothing else, the last of them one second ago. *)
Definition borderInput : HealthMetricsInput :=
  {| buybackCountLast24h := Fin 4;
     buybackVolumeSolLast24h := Fin 0;
     recentSellPressureSol := Fin 0;
     currentLiquidity := Fin 0;
     volatilityPercent24h := Fin 0;
     lastBuybackTimestampSeconds := Fin 1699999999;
     currentTimestampSeconds := Fin 1700000000 |}.

(** A health state with a given score. *)
Definition healthState (score : num) (st : Status) : IceHealthState :=
  {| timestamp := 1700000000;
     health := score;
     metrics := IceHealthEngine.computeMetrics borderInput;
     status := st;
     lastActionTime := Fin 1699999999;
     hs_epochNumber := 1 |}.

(** All of the fee budget on buybacks: accepted by the configuration check,
    which only asks that the four percentages add up to 100. *)
Definition allBuybackConfig : AllocationConfig :=
  {| buybackPct := Fin 100; lpPct := Fin 0; burnPct := Fin 0; coolingPct := Fin 0 |}.

(** The mock engine: price impact of 100 bps, output 99% of the input. *)
Definition mockQuote (amountIn : num) : Quote.t :=
  {| Quote.inputAmount := amountIn;
     Quote.outputAmount := (amountIn * Fin 0.99)%num;
     Quote.priceImpactBps := Fin 100;
     Quote.feeBps := Fin 50;
     Quote.routePath := "mock-route"%string |}.

Definition mockSwapResult (amountIn : num) : SwapResult.t :=
  {| SwapResult.signature := "mock-signature"%string;
     SwapResult.inputAmount := amountIn;
     SwapResult.outputAmount := (amountIn * Fin 0.99)%num;
     SwapResult.actualPriceImpactBps := Fin 100 |}.

(** A moment at which the bot holds 2 SOL and the mock engine answers. *)
Definition calmWorld : World :=
  {| dateNow := 1700000000000;
     getBalance := Normal (Fin 2000000000);
     dryRun := fun _ _ amountIn _ => Normal (mockQuote amountIn);
     swap := fun _ _ amountIn _ => Normal (mockSwapResult amountIn) |}.

(** The same moment with a swap engine that cannot quote. *)
Definition brokenSwapWorld : World :=
  {| dateNow := 1700000000000;
     getBalance := Normal (Fin 2000000000);
     dryRun := fun _ _ _ _ => Throw (ErrorMessage "Raydium dryRun not yet implemented");
     swap := fun _ _ _ _ => Throw (ErrorMessage "Raydium swap not yet implemented") |}.

(** The same moment with an empty wallet. *)
Definition brokeWorld : World :=
  {| dateNow := 1700000000000;
     getBalance := Normal (Fin 0);
     dryRun := fun _ _ amountIn _ => Normal (mockQuote amountIn);
     swap := fun _ _ amountIn _ => Normal (mockSwapResult amountIn) |}.

(** A store with given failure count, breaker flag and collected fees. *)
Definition storeWith (failures : Z) (breaker : bool) (fees : num) : Store :=
  {| executorState :=
       {| lastExecutionTime := 0;
          consecutiveFailures := failures;
          epochNumber := 7;
          circuitBreakerActive := breaker |};
     feeTracker :=
       {| totalFeesCollected := fees;
          lastProcessedSignature := EmptyString;
          lastProcessedTimestamp := Fin 0;
          events := [] |} |}.

(** The store after [n] epochs run from start-up with an empty wallet. *)
Fixpoint afterFailingEpochs (n : nat) : Store :=
  match n with
  | O => Executor.initialStore
  | S k =>
      snd (Executor.executeEpoch (Executor.make mockConfig) brokeWorld
             (healthState (Fin 60) ALIVE) (afterFailingEpochs k))
  end.

(* ================================================================== *)
(** ** The outcomes of an epoch *)
(* ================================================================== *)

(** The three assignments an epoch makes to the store. *)
Definition bumpEpoch (s : Store) : Store :=
  {| executorState :=
       {| lastExecutionTime := lastExecutionTime (executorState s);
          consecutiveFailures := consecutiveFailures (executorState s);
          epochNumber := epochNumber (executorState s) + 1;
          circuitBreakerActive := circuitBreakerActive (executorState s) |};
     feeTracker := feeTracker s |}.

Definition countFailure (this : Executor.t) (s : Store) : Store :=
  let failures := (consecutiveFailures (executorState s) + 1)%Z in
  {| executorState :=
       {| lastExecutionTime := lastExecutionTime (executorState s);
          consecutiveFailures := failures;
          epochNumber := epochNumber (executorState s);
          circuitBreakerActive :=
            if (ofZ failures >=? maxConsecutiveFailures (executor (Executor.config this)))%num
            then true
            else circuitBreakerActive (executorState s) |};
     feeTracker := feeTracker s |}.

Definition settle (now : Z) (s : Store) : Store :=
  {| executorState :=
       {| lastExecutionTime := now;
          consecutiveFailures := 0;
          epochNumber := epochNumber (executorState s);
          circuitBreakerActive := circuitBreakerActive (executorState s) |};
     feeTracker :=
       {| totalFeesCollected := Fin 0;
          lastProcessedSignature := lastProcessedSignature (feeTracker s);
          lastProcessedTimestamp := lastProcessedTimestamp (feeTracker s);
          events := events (feeTracker s) |} |}.

(** The balance [checkBotBalance] reports. *)
Definition botBalance (world : World) : num :=
  match getBalance world with
  | Normal lamports => (lamports / Fin 1000000000)%num
  | Throw _ => Fin 0
  end.

(** The ways one call of [executeEpoch] on the store [s] can go, in the
    order of the guards of the code, with the value returned and the
    store left behind. *)
Inductive epochOutcome (this : Executor.t) (world : World) (iceHealth : IceHealthState)
  (s : Store) : option EpochAllocation -> Store -> Prop :=
| BreakerOpen :
    circuitBreakerActive (executorState s) = true ->
    epochOutcome this world iceHealth s None (bumpEpoch s)
| RateLimited :
    circuitBreakerActive (executorState s) = false ->
    (ofZ (dateNow world / 1000 - lastExecutionTime (executorState s))
       <? minIntervalSeconds (executor (Executor.config this)))%num = true ->
    epochOutcome this world iceHealth s None (bumpEpoch s)
| LowBalance :
    circuitBreakerActive (executorState s) = false ->
    (ofZ (dateNow world / 1000 - lastExecutionTime (executorState s))
       <? minIntervalSeconds (executor (Executor.config this)))%num = false ->
    (botBalance world <? minBalanceToOperateSol (executor (Executor.config this)))%num
      = true ->
    epochOutcome this world iceHealth s None (countFailure this (bumpEpoch s))
| Dust :
    circuitBreakerActive (executorState s) = false ->
    (ofZ (dateNow world / 1000 - lastExecutionTime (executorState s))
       <? minIntervalSeconds (executor (Executor.config this)))%num = false ->
    (botBalance world <? minBalanceToOperateSol (executor (Executor.config this)))%num
      = false ->
    (totalFeesCollected (feeTracker s) <? Fin 0.01)%num = true ->
    epochOutcome this world iceHealth s None (bumpEpoch s)
| Thrown : forall e,
    circuitBreakerActive (executorState s) = false ->
    (ofZ (dateNow world / 1000 - lastExecutionTime (executorState s))
       <? minIntervalSeconds (executor (Executor.config this)))%num = false ->
    (botBalance world <? minBalanceToOperateSol (executor (Executor.config this)))%num
      = false ->
    (totalFeesCollected (feeTracker s) <? Fin 0.01)%num = false ->
    allocate (Executor.allocationStrategy this) (totalFeesCollected (feeTracker s))
      iceHealth (allocationConfig (Executor.config this)) = Throw e ->
    epochOutcome this world iceHealth s None (countFailure this (bumpEpoch s))
| Settled : forall allocation actions',
    circuitBreakerActive (executorState s) = false ->
    (ofZ (dateNow world / 1000 - lastExecutionTime (executorState s))
       <? minIntervalSeconds (executor (Executor.config this)))%num = false ->
    (botBalance world <? minBalanceToOperateSol (executor (Executor.config this)))%num
      = false ->
    (totalFeesCollected (feeTracker s) <? Fin 0.01)%num = false ->
    allocate (Executor.allocationStrategy this) (totalFeesCollected (feeTracker s))
      iceHealth (allocationConfig (Executor.config this)) = Normal allocation ->
    (mode (executor (Executor.config this)) = DryRun -> actions' = actions allocation) ->
    epochOutcome this world iceHealth s
      (Some (Executor.setActions allocation actions'))
      (settle (dateNow world / 1000) (bumpEpoch s)).

(* ================================================================== *)
(** ** Predicates of the statements *)
(* ================================================================== *)

(** A score between 0 and 100, by the comparisons of the language (so not
    [NaN]). *)
Definition inPercentRange (x : num) : Prop :=
  (x >=? Fin 0)%num = true /\ (x <=? Fin 100)%num = true.

(** The five weights add up to 1. *)
Definition validWeights (w : Weights.t) : Prop :=
  (Weights.buybackFrequency w + Weights.buybackCoverage w + Weights.liquidityDepth w
   + Weights.volatilityPenalty w + Weights.timeDecay w)%num =~ Fin 1.

(** The five measurements are finite and non-negative; the two Unix times
    are finite. *)
Definition validInput (input : HealthMetricsInput) : Prop :=
  nonNegative (buybackCountLast24h input)
  /\ nonNegative (buybackVolumeSolLast24h input)
  /\ nonNegative (recentSellPressureSol input)
  /\ nonNegative (currentLiquidity input)
  /\ nonNegative (volatilityPercent24h input)
  /\ isFinite (lastBuybackTimestampSeconds input)
  /\ isFinite (currentTimestampSeconds input).

(** The four percentages add up to 100, as the configuration check asks. *)
Definition validAllocationConfig (c : AllocationConfig) : Prop :=
  (buybackPct c + lpPct c + burnPct c + coolingPct c)%num =~ Fin 100.

Definition sameMetrics (m1 m2 : IceHealthMetrics) : Prop :=
  buybackFrequency m1 =~ buybackFrequency m2
  /\ buybackCoverage m1 =~ buybackCoverage m2
  /\ liquidityDepth m1 =~ liquidityDepth m2
  /\ volatilityPenalty m1 =~ volatilityPenalty m2
  /\ timeDecay m1 =~ timeDecay m2.

(* ================================================================== *)
(** ** Swap engines (src/services/dex/engines) *)
(* ================================================================== *)

(** The abstract class [SwapEngine]: the two calls the executor awaits. *)
Module SwapEngine.
Record t : Type := {
  swap : string -> string -> num -> num -> Completion SwapResult.t;
  dryRun : string -> string -> num -> num -> Completion Quote.t
}.
End SwapEngine.

Module QuoteInput.
Record t : Type := {
  inputMint : string;
  outputMint : string;
  amountIn : num;
  slippageBps : num
}.
End QuoteInput.

Module MockQuoteProvider.

(** [getQuote]: 1% below the input, a price impact of 100 bps. *)
Definition getQuote (input : QuoteInput.t) : Quote.t :=
  let outputAmount := (QuoteInput.amountIn input * Fin 0.99)%num in
  {| Quote.inputAmount := QuoteInput.amountIn input;
     Quote.outputAmount := outputAmount;
     Quote.priceImpactBps := Fin 100;
     Quote.feeBps := Fin 50;
     Quote.routePath := "mock-route"%string |}.

End MockQuoteProvider.

Module MockSwapEngine.

Definition alphabet : string :=
  "ABCDEFGHIJKLMNOPQRSTUVWXYZabcdefghijklmnopqrstuvwxyz0123456789"%string.

(** One character of a mock signature: [alphabet[Math.floor(r * 62)]],
    where an index outside the alphabet gives [undefined], which [join]
    writes as the empty string. *)
Definition pick (r : Q) : string :=
  let index := Qfloor (r * 62) in
  if (index <? 0)%Z then EmptyString
  else match String.get (Z.to_nat index) alphabet with
       | Some c => String c EmptyString
       | None => EmptyString
       end.

(** [generateMockTx]: 88 draws of [Math.random], here the first 88
    values of [random]. *)
Definition generateMockTx (random : nat -> Q) : string :=
  String.concat EmptyString (map (fun i => pick (random i)) (seq 0 88)).

Definition swap (random : nat -> Q) (inputMint outputMint : string)
  (amountIn slippageBps : num) : Completion SwapResult.t :=
  let outputAmount := (amountIn * Fin 0.99)%num in
  let mockSignature := generateMockTx random in
  Normal {| SwapResult.signature := mockSignature;
            SwapResult.inputAmount := amountIn;
            SwapResult.outputAmount := outputAmount;
            SwapResult.actualPriceImpactBps := Fin 100 |}.

Definition dryRun (_inputMint _outputMint : string) (amountIn _slippageBps : num)
  : Completion Quote.t :=
  Normal (MockQuoteProvider.getQuote
            {| QuoteInput.inputMint := _inputMint;
               QuoteInput.outputMint := _outputMint;
               QuoteInput.amountIn := amountIn;
               QuoteInput.slippageBps := _slippageBps |}).

End MockSwapEngine.

Module RaydiumSwapEngine.

Definition swap (_inputMint _outputMint : string) (_amountIn _slippageBps : num)
  : Completion SwapResult.t :=
  Throw (ErrorMessage "Raydium swap not yet implemented").

Definition dryRun (_inputMint _outputMint : string) (_amountIn _slippageBps : num)
  : Completion Quote.t :=
  Throw (ErrorMessage "Raydium dryRun not yet implemented").

End RaydiumSwapEngine.

Module OrcaSwapEngine.

Definition swap (_inputMint _outputMint : string) (_amountIn _slippageBps : num)
  : Completion SwapResult.t :=
  Throw (ErrorMessage "Orca swap not yet implemented").

Definition dryRun (_inputMint _outputMint : string) (_amountIn _slippageBps : num)
  : Completion Quote.t :=
  Throw (ErrorMessage "Orca dryRun not yet implemented").

End OrcaSwapEngine.

Inductive DexType : Type := MockDex | RaydiumDex | OrcaDex.

(** [createSwapEngine]; [random] is what [Math.random] gives the mock
    engine when it makes up a signature. *)
Definition createSwapEngine (dexType : DexType) (random : nat -> Q) : SwapEngine.t :=
  match dexType with
  | MockDex =>
      {| SwapEngine.swap := MockSwapEngine.swap random;
         SwapEngine.dryRun := MockSwapEngine.dryRun |}
  | RaydiumDex =>
      {| SwapEngine.swap := RaydiumSwapEngine.swap;
         SwapEngine.dryRun := RaydiumSwapEngine.dryRun |}
  | OrcaDex =>
      {| SwapEngine.swap := OrcaSwapEngine.swap;
         SwapEngine.dryRun := OrcaSwapEngine.dryRun |}
  end.

(** What the outside answers during an epoch run against a given engine. *)
Definition worldOf (now : Z) (balance : Completion num) (engine : SwapEngine.t) : World :=
  {| dateNow := now;
     getBalance := balance;
     dryRun := SwapEngine.dryRun engine;
     swap := SwapEngine.swap engine |}.

(* ================================================================== *)
(** ** Configuration check (src/config/manager.ts) *)
(* ================================================================== *)

Module ConfigManager.

Local Open Scope num_scope.

(** What [validateConfig] throws; the two sums appear in the messages. *)
Inductive ConfigError : Type :=
| WeightsMustSumToOne (totalWeight : num)
| AllocationMustSumTo100 (totalAlloc : num)
| ThresholdOutOfRange.

Inductive Validation : Type :=
| Accepted
| Rejected (e : ConfigError).

(** [x !== y] on numbers: [NaN] differs from everything. *)
Definition strictNe (x y : num) : bool :=
  match x, y with
  | Fin a, Fin b => negb (Qeq_bool a b)
  | PInf, PInf | NInf, NInf => false
  | _, _ => true
  end.

Definition validateConfig (config : ProtocolConfig) : Validation :=
  let weights := iceHealthWeights config in
  let totalWeight :=
    Weights.buybackFrequency weights
    + Weights.buybackCoverage weights
    + Weights.liquidityDepth weights
    + Weights.volatilityPenalty weights
    + Weights.timeDecay weights in
  if Math.abs (totalWeight - Fin 1) >? Fin 0.001
  then Rejected (WeightsMustSumToOne totalWeight)
  else
    let alloc := allocationConfig config in
    let totalAlloc := buybackPct alloc + lpPct alloc + burnPct alloc + coolingPct alloc in
    if strictNe totalAlloc (Fin 100)
    then Rejected (AllocationMustSumTo100 totalAlloc)
    else
      if (iceHealthThreshold config <? Fin 0) || (iceHealthThreshold config >? Fin 100)
      then Rejected ThresholdOutOfRange
      else Accepted.

End ConfigManager.

(* ================================================================== *)
(** ** Wallet watcher (src/services/fee-source) *)
(* ================================================================== *)

Module WalletWatcherFeeSource.

Local Open Scope num_scope.

Inductive Source : Type := WalletWatcher | Api | Mock.
Inductive ConfirmationStatus : Type := Processed | Confirmed | Finalized.

(** A [FeeEvent] with all its fields. *)
Record Event : Type := {
  signature : string;
  timestamp : num;
  amountSol : num;
  source : Source;
  confirmationStatus : ConfirmationStatus;
  processed : bool
}.

(** What the watcher reads of a transaction and of a signature status;
    a field that may be missing is an [option]. *)
Record Meta : Type := {
  preBalances : option (list num);
  postBalances : option (list num)
}.

Record Transaction : Type := {
  meta : option Meta;
  blockTime : option num
}.

Record StatusValue : Type := {
  confirmations : option num
}.

Record SignatureStatus : Type := {
  value : option StatusValue
}.

(** The ledger connection as the watcher uses it, and the clock read
    while the [i]-th signature of a batch is processed. *)
Record Ledger : Type := {
  getTransaction : string -> Completion (option Transaction);
  getSignatureStatus : string -> Completion (option SignatureStatus);
  clock : nat -> Z
}.

(** The immutable and the mutable fields of a watcher. *)
Record t : Type := {
  pollIntervalMs : num;
  confirmationDepth : num
}.

Record State : Type := {
  lastProcessedSignature : option string;
  lastPollTime : Z
}.

Definition initialState : State :=
  {| lastProcessedSignature := None; lastPollTime := 0 |}.

(** Truthiness of a number and of a string. *)
Definition truthy (x : num) : bool :=
  match x with
  | Fin q => negb (Qeq_bool q 0)
  | PInf | NInf => true
  | NaN => false
  end.

Definition nonEmpty (s : string) : bool :=
  match s with
  | EmptyString => false
  | String _ _ => true
  end.

(** [x || fallback] for a number that may be missing. *)
Definition orElse (x : option num) (fallback : num) : num :=
  match x with
  | Some v => if truthy v then v else fallback
  | None => fallback
  end.

(** [extractSolInflow] *)
Definition extractSolInflow (m : Meta) : num :=
  match preBalances m, postBalances m with
  | Some pre, Some post =>
      let preBal := orElse (nth_error pre 0) (Fin 0) in
      let postBal := orElse (nth_error post 0) (Fin 0) in
      let inflow := Math.max (Fin 0) (postBal - preBal) in
      inflow / Fin 1000000000
  | _, _ => Fin 0
  end.

Section Methods.

Variable this : t.
Variable ledger : Ledger.

(** [getConfirmationStatus] *)
Definition getConfirmationStatus (sig : string) : ConfirmationStatus :=
  match getSignatureStatus ledger sig with
  | Throw _ => Processed
  | Normal None => Processed
  | Normal (Some st) =>
      match value st with
      | None => Processed
      | Some v =>
          let confirmations := orElse (confirmations v) (Fin 0) in
          if confirmations >=? confirmationDepth this then Finalized
          else if confirmations >=? Fin 16 then Confirmed
          else Processed
      end
  end.

(** [this.lastProcessedSignature && signature === this.lastProcessedSignature] *)
Definition isLastProcessed (last : option string) (sig : string) : bool :=
  match last with
  | Some l => nonEmpty l && String.eqb sig l
  | None => false
  end.

(** The body of the loop of [processSignatures] for the [i]-th signature:
    the events after it. *)
Definition processOne (i : nat) (sig : string) (events : list Event) : list Event :=
  match getTransaction ledger sig with
  | Throw _ => events
  | Normal None => events
  | Normal (Some tx) =>
      match meta tx with
      | None => events
      | Some m =>
          let solInflow := extractSolInflow m in
          if solInflow >? Fin 0
          then
            let status := getConfirmationStatus sig in
            events ++ [ {| signature := sig;
                           timestamp := orElse (blockTime tx) (ofZ (clock ledger i / 1000));
                           amountSol := solInflow;
                           source := WalletWatcher;
                           confirmationStatus := status;
                           processed := false |} ]
          else events
      end
  end.

(** The loop, which stops at the signature processed last. *)
Fixpoint processLoop (last : option string) (i : nat) (signatures : list string)
  (events : list Event) : list Event :=
  match signatures with
  | [] => events
  | sig :: rest =>
      if isLastProcessed last sig then events
      else processLoop last (S i) rest (processOne i sig events)
  end.

(** [processSignatures]: the events and the state afterwards. *)
Definition processSignatures (signatures : list string) (st : State)
  : list Event * State :=
  let events := processLoop (lastProcessedSignature st) 0 signatures [] in
  let st' :=
    match signatures with
    | [] => st
    | first :: _ =>
        {| lastProcessedSignature := Some first; lastPollTime := lastPollTime st |}
    end in
  (events, st').

(** [fetchRecentSignatures] returns no signature. *)
Definition fetchRecentSignatures : list string := [].

(** [detect], at the clock reading [now] (milliseconds). *)
Definition detect (now : Z) (st : State) : list Event * State :=
  if ofZ (now - lastPollTime st) <? pollIntervalMs this then ([], st)
  else
    let st1 := {| lastProcessedSignature := lastProcessedSignature st;
                  lastPollTime := now |} in
    let signatures := fetchRecentSignatures in
    processSignatures signatures st1.

End Methods.

End WalletWatcherFeeSource.

(* ================================================================== *)
(** ** Orchestrator (src/index.ts) *)
(* ================================================================== *)

(** The projections of [EpochAllocation], under names the report's fields
    do not hide. *)
Definition allocationAmounts (a : EpochAllocation) : Allocations := allocations a.
Definition allocationActions (a : EpochAllocation) : list AllocationAction := actions a.

Module IceProtocol.

Local Open Scope num_scope.
Local Open Scope monad_scope.

Record EpochReport : Type := {
  epochNumber : Z;
  timestamp : Z;
  feesDetected : num;
  allocations : Allocations;
  iceHealth : IceHealthState;
  actions : list AllocationAction;
  txSignatures : list string;
  errors : list string
}.

(** What one epoch of the orchestrator reads from outside: five draws of
    [Math.random], the clock at three moments, and what the executor is
    answered. *)
Record Tick : Type := {
  random : nat -> Q;
  clockInput : Z;
  clockHealth : Z;
  world : World;
  clockReport : Z
}.

(** [getHealthMetricsInput] *)
Definition getHealthMetricsInput (tick : Tick) : HealthMetricsInput :=
  let now := (clockInput tick / 1000)%Z in
  let oneDayAgo := (now - 86400)%Z in
  {| buybackCountLast24h := Math.floor (Fin (random tick 0) * Fin 4);
     buybackVolumeSolLast24h := Fin (random tick 1) * Fin 10;
     recentSellPressureSol := Fin (random tick 2) * Fin 5;
     currentLiquidity := Fin (random tick 3) * Fin 100 + Fin 20;
     volatilityPercent24h := Fin (random tick 4) * Fin 30;
     lastBuybackTimestampSeconds := ofZ oneDayAgo;
     currentTimestampSeconds := ofZ now |}.

(** [a.signature] as a condition: present and not empty. *)
Definition hasSignature (a : AllocationAction) : bool :=
  match signature a with
  | Some s => WalletWatcherFeeSource.nonEmpty s
  | None => false
  end.

Definition signatureOf (a : AllocationAction) : string :=
  match signature a with
  | Some s => s
  | None => EmptyString
  end.

(** [executeEpoch] of the orchestrator; the report it hands to the
    report generator is the value returned. *)
Definition executeEpoch (config : ProtocolConfig) (tick : Tick) (epochNumber : Z)
  : M EpochReport :=
  let iceHealth :=
    IceHealthEngine.computeHealth config (clockHealth tick)
      (getHealthMetricsInput tick) epochNumber in
  allocation <- Executor.executeEpoch (Executor.make config) (world tick) iceHealth ;;
  ft <- Executor.getFeeTracker ;;
  ret {| epochNumber := epochNumber;
         timestamp := (clockReport tick / 1000)%Z;
         feesDetected := totalFeesCollected ft;
         allocations :=
           match allocation with
           | Some a => allocationAmounts a
           | None => {| buyback := Fin 0; lp := Fin 0; burn := Fin 0; cooling := Fin 0 |}
           end;
         iceHealth := iceHealth;
         actions :=
           match allocation with
           | Some a => allocationActions a
           | None => []
           end;
         txSignatures :=
           match allocation with
           | Some a => map signatureOf (filter hasSignature (allocationActions a))
           | None => []
           end;
         errors := [] |}.

End IceProtocol.

(* ================================================================== *)
(** ** More predicates and helpers of the statements *)
(* ================================================================== *)

(** The five weights are finite. *)
Definition finiteWeights (w : Weights.t) : Prop :=
  isFinite (Weights.buybackFrequency w) /\ isFinite (Weights.buybackCoverage w)
  /\ isFinite (Weights.liquidityDepth w) /\ isFinite (Weights.volatilityPenalty w)
  /\ isFinite (Weights.timeDecay w).

(** One of the five weights is [NaN]. *)
Definition hasNaNWeight (w : Weights.t) : Prop :=
  Weights.buybackFrequency w = NaN \/ Weights.buybackCoverage w = NaN
  \/ Weights.liquidityDepth w = NaN \/ Weights.volatilityPenalty w = NaN
  \/ Weights.timeDecay w = NaN.

(** An input with another current time, and with another liquidity. *)
Definition atTime (input : HealthMetricsInput) (now : num) : HealthMetricsInput :=
  {| buybackCountLast24h := buybackCountLast24h input;
     buybackVolumeSolLast24h := buybackVolumeSolLast24h input;
     recentSellPressureSol := recentSellPressureSol input;
     currentLiquidity := currentLiquidity input;
     volatilityPercent24h := volatilityPercent24h input;
     lastBuybackTimestampSeconds := lastBuybackTimestampSeconds input;
     currentTimestampSeconds := now |}.

Definition withLiquidity (input : HealthMetricsInput) (liquidity : num)
  : HealthMetricsInput :=
  {| buybackCountLast24h := buybackCountLast24h input;
     buybackVolumeSolLast24h := buybackVolumeSolLast24h input;
     recentSellPressureSol := recentSellPressureSol input;
     currentLiquidity := liquidity;
     volatilityPercent24h := volatilityPercent24h input;
     lastBuybackTimestampSeconds := lastBuybackTimestampSeconds input;
     currentTimestampSeconds := currentTimestampSeconds input |}.

(** The four percentages are finite and not negative. *)
Definition nonNegativeConfig (c : AllocationConfig) : Prop :=
  nonNegative (buybackPct c) /\ nonNegative (lpPct c)
  /\ nonNegative (burnPct c) /\ nonNegative (coolingPct c).

(** The amount of the category an action type belongs to. *)
Definition amountOf (a : Allocations) (t : ActionType) : num :=
  match t with
  | Buyback => buyback a
  | AddLp => lp a
  | Burn => burn a
  | CoolingEvent => cooling a
  end.

Definition actionOrder : list ActionType := [Buyback; AddLp; Burn; CoolingEvent].

Definition zeroAllocations : Allocations :=
  {| buyback := Fin 0; lp := Fin 0; burn := Fin 0; cooling := Fin 0 |}.

(** Epochs run one after the other, each with its own answers from
    outside and its own health state; the store after the last. *)
Fixpoint runEpochs (this : Executor.t) (ticks : list (World * IceHealthState))
  (s : Store) : Store :=
  match ticks with
  | [] => s
  | (world, iceHealth) :: rest =>
      runEpochs this rest (snd (Executor.executeEpoch this world iceHealth s))
  end.

(** An epoch that gets past the minimum interval (counted from
    [lastExecution]) and finds the balance too low. *)
Definition lowBalanceTick (this : Executor.t) (lastExecution : Z)
  (tick : World * IceHealthState) : Prop :=
  (ofZ (dateNow (fst tick) / 1000 - lastExecution)
     <? minIntervalSeconds (executor (Executor.config this)))%num = false
  /\ (botBalance (fst tick)
        <? minBalanceToOperateSol (executor (Executor.config this)))%num = true.

(** [Infinity] or [-Infinity]. *)
Definition infinite (x : num) : bool :=
  match x with
  | PInf | NInf => true
  | Fin _ | NaN => false
  end.

(** The first of the balances a transaction reports is infinite (it is
    not when the balances are missing or empty, or when it is [NaN]). *)
Definition firstInfinite (balances : option (list num)) : bool :=
  match balances with
  | Some (first :: _) => infinite first
  | _ => false
  end.

(** The test configuration with another threshold. *)
Definition configWithThreshold (threshold : num) : ProtocolConfig :=
  {| iceTokenMint := iceTokenMint mockConfig;
     executor := executor mockConfig;
     maxSlippageBps := maxSlippageBps mockConfig;
     maxPriceImpactBps := maxPriceImpactBps mockConfig;
     iceHealthThreshold := threshold;
     iceHealthWeights := iceHealthWeights mockConfig;
     allocationMode := allocationMode mockConfig;
     allocationConfig := allocationConfig mockConfig |}.

(** The test configuration with other weights. *)
Definition configWithWeights (weights : Weights.t) : ProtocolConfig :=
  {| iceTokenMint := iceTokenMint mockConfig;
     executor := executor mockConfig;
     maxSlippageBps := maxSlippageBps mockConfig;
     maxPriceImpactBps := maxPriceImpactBps mockConfig;
     iceHealthThreshold := iceHealthThreshold mockConfig;
     iceHealthWeights := weights;
     allocationMode := allocationMode mockConfig;
     allocationConfig := allocationConfig mockConfig |}.

(** Weights where [Infinity - Infinity] has been added up. *)
Definition brokenWeights : Weights.t :=
  {| Weights.buybackFrequency := Fin 0.25;
     Weights.buybackCoverage := Fin 0.25;
     Weights.liquidityDepth := Fin 0.25;
     Weights.volatilityPenalty := Fin 0.15;
     Weights.timeDecay := (PInf - PInf)%num |}.

(** One epoch of the orchestrator: draws of 0.5, one clock, the mock
    engine and 2 SOL on the wallet. *)
Definition calmTick : IceProtocol.Tick :=
  {| IceProtocol.random := fun _ => 0.5;
     IceProtocol.clockInput := 1700000000000;
     IceProtocol.clockHealth := 1700000000000;
     IceProtocol.world := calmWorld;
     IceProtocol.clockReport := 1700000000000 |}.

(** The test configuration in a given mode and with a given operating
    minimum for the balance. *)
Definition configWithMinBalance (m : ExecutorMode) (minBalance : num) : ProtocolConfig :=
  {| iceTokenMint := iceTokenMint mockConfig;
     executor :=
       {| mode := m;
          epochIntervalSeconds := Fin 1800;
          maxBudgetPerEpochSol := Fin 1;
          minIntervalSeconds := Fin 300;
          maxConsecutiveFailures := Fin 5;
          minBalanceToOperateSol := minBalance;
          driftToleranceBps := Fin 50 |};
     maxSlippageBps := maxSlippageBps mockConfig;
     maxPriceImpactBps := maxPriceImpactBps mockConfig;
     iceHealthThreshold := iceHealthThreshold mockConfig;
     iceHealthWeights := iceHealthWeights mockConfig;
     allocationMode := allocationMode mockConfig;
     allocationConfig := allocationConfig mockConfig |}.

(** A moment at which the ledger does not answer the balance query. *)
Definition silentLedgerWorld : World :=
  {| dateNow := 1700000000000;
     getBalance := Throw (ErrorMessage "failed to get balance");
     dryRun := fun _ _ amountIn _ => Normal (mockQuote amountIn);
     swap := fun _ _ amountIn _ => Normal (mockSwapResult amountIn) |}.

(* ================================================================== *)
(** * Properties *)
(* ================================================================== *)

(** ** Numbers *)

Section NumberFacts.

Local Open Scope num_scope.

Lemma same_refl (x : num) : x =~ x.
Proof. destruct x; simpl; auto. reflexivity. Qed.

Lemma same_sym (x y : num) : x =~ y -> y =~ x.
Proof. destruct x, y; simpl; auto. intros H; now symmetry. Qed.

Lemma same_trans (x y z : num) : x =~ y -> y =~ z -> x =~ z.
Proof.
  destruct x, y, z; simpl; auto; try contradiction.
  intros H1 H2. now rewrite H1.
Qed.

#[export] Instance same_Equivalence : Equivalence same.
Proof.
  split; [exact same_refl | exact same_sym | exact same_trans].
Qed.

Lemma same_Fin_inv (x : num) (q : Q) :
  x =~ Fin q -> exists a, x = Fin a /\ a == q.
Proof. destruct x; simpl; try contradiction. intros H. now exists q0. Qed.

Lemma div_Fin (a b : Q) : ~ b == 0 -> Fin a / Fin b = Fin (a / b).
Proof.
  intros Hb. simpl. destruct (Qeq_bool b 0) eqn:E; [|reflexivity].
  apply Qeq_bool_eq in E. contradiction.
Qed.

Lemma lt_Fin (a b : Q) : (Fin a <? Fin b) = true <-> (a < b)%Q.
Proof.
  simpl. rewrite negb_true_iff. split.
  - intros H. apply Qnot_le_lt. intros Hle. apply Qle_bool_iff in Hle. congruence.
  - intros H. destruct (Qle_bool b a) eqn:E; [|reflexivity].
    apply Qle_bool_iff in E. exfalso. apply (Qlt_not_le _ _ H E).
Qed.

(** Finite numbers are closed under the operations the code uses, as
    long as no divisor is zero. *)
Lemma isFinite_inv (x : num) : isFinite x -> exists q, x = Fin q.
Proof. destruct x; simpl; try contradiction. intros _. now exists q. Qed.

Lemma nonNegative_finite (x : num) : nonNegative x -> isFinite x.
Proof. destruct x; simpl; auto. Qed.

Lemma add_finite (x y : num) : isFinite x -> isFinite y -> isFinite (x + y).
Proof. destruct x, y; simpl; auto. Qed.

Lemma sub_finite (x y : num) : isFinite x -> isFinite y -> isFinite (x - y).
Proof. destruct x, y; simpl; auto. Qed.

Lemma mul_finite (x y : num) : isFinite x -> isFinite y -> isFinite (x * y).
Proof. destruct x, y; simpl; intros; try contradiction; exact I. Qed.

Lemma div_finite (x : num) (b : Q) : isFinite x -> ~ b == 0 -> isFinite (x / Fin b).
Proof.
  destruct x; simpl; try contradiction. intros _ Hb.
  destruct (Qeq_bool b 0) eqn:E; [|exact I].
  apply Qeq_bool_eq in E. contradiction.
Qed.

Lemma min_finite (x y : num) : isFinite x -> isFinite y -> isFinite (Math.min x y).
Proof. destruct x, y; simpl; auto. Qed.

Lemma max_finite (x y : num) : isFinite x -> isFinite y -> isFinite (Math.max x y).
Proof. destruct x, y; simpl; auto. Qed.

Lemma round_finite (x : num) : isFinite x -> isFinite (Math.round x).
Proof. destruct x; simpl; auto. Qed.

Lemma add_finite_inv (x y : num) : isFinite (x + y) -> isFinite x /\ isFinite y.
Proof. destruct x, y; simpl; auto. Qed.

Lemma same_finite (x : num) (q : Q) : x =~ Fin q -> isFinite x.
Proof. destruct x; simpl; auto. Qed.

End NumberFacts.

Create HintDb finite discriminated.
#[export] Hint Resolve add_finite sub_finite mul_finite min_finite max_finite
  round_finite nonNegative_finite : finite.
#[export] Hint Extern 1 (isFinite (Fin _)) => exact I : finite.
#[export] Hint Extern 2 (isFinite (_ / Fin _)%num) =>
  apply div_finite; [ | discriminate ] : finite.

(** ** Health engine *)

Section HealthEngineFacts.

Import IceHealthEngine.
Local Open Scope num_scope.

Lemma round2_Fin (q : Q) :
  round2 (Fin q) = Fin (inject_Z (Qfloor (q * 100 + (1 # 2))) / 100).
Proof. reflexivity. Qed.

Lemma round2_finite (x : num) : isFinite x -> isFinite (round2 x).
Proof. destruct x; simpl; auto. Qed.

Lemma clamp_range (x : num) :
  isFinite x -> inPercentRange (Math.max (Fin 0) (Math.min (Fin 100) x)).
Proof.
  destruct x as [q| | |]; simpl; try contradiction. intros _.
  split; simpl; apply Qle_bool_iff.
  - apply Q.le_max_l.
  - apply Q.max_lub; [discriminate | apply Q.le_min_l].
Qed.

Lemma inPercentRange_inv (x : num) :
  inPercentRange x -> exists q, x = Fin q /\ (0 <= q <= 100)%Q.
Proof.
  destruct x as [q| | |]; intros [H0 H1]; simpl in *; try discriminate.
  exists q. split; [reflexivity|].
  split; now apply Qle_bool_iff.
Qed.

Lemma round_percent_bounds (q : Q) :
  (0 <= q <= 100)%Q ->
  (0 <= inject_Z (Qfloor (q * 100 + (1 # 2))) / 100 <= 100)%Q.
Proof.
  intros [H0 H1].
  assert (L : (0 <= Qfloor (q * 100 + (1 # 2)))%Z).
  { change 0%Z with (Qfloor 0). apply Qfloor_resp_le. lra. }
  assert (U : (Qfloor (q * 100 + (1 # 2)) <= 10000)%Z).
  { change 10000%Z with (Qfloor (10000 + (1 # 2))). apply Qfloor_resp_le. lra. }
  rewrite Zle_Qle in L, U.
  change (inject_Z 0) with 0%Q in L. change (inject_Z 10000) with 10000%Q in U.
  set (z := inject_Z _) in *. clearbody z. split.
  - apply Qle_shift_div_l; [reflexivity | lra].
  - apply Qle_shift_div_r; [reflexivity | lra].
Qed.

Lemma round2_range (x : num) : inPercentRange x -> inPercentRange (round2 x).
Proof.
  intros H. destruct (inPercentRange_inv _ H) as (q & -> & Hq).
  rewrite round2_Fin. destruct (round_percent_bounds _ Hq) as [L U].
  split; simpl; now apply Qle_bool_iff.
Qed.

Lemma coverage_finite (input : HealthMetricsInput) :
  isFinite (buybackVolumeSolLast24h input) ->
  isFinite (recentSellPressureSol input) ->
  isFinite (estimatedBuybackCoverage input).
Proof.
  unfold estimatedBuybackCoverage, gt. intros Hv Hs.
  destruct (isFinite_inv _ Hs) as [s Es]. rewrite Es.
  destruct (Fin 0 <? Fin s) eqn:E; [|exact I].
  apply lt_Fin in E. apply mul_finite; [|exact I].
  apply div_finite; [exact Hv|]. intros Hz. rewrite Hz in E.
  exact (Qlt_irrefl _ E).
Qed.

Lemma computeMetrics_finite (input : HealthMetricsInput) :
  validInput input ->
  let m := computeMetrics input in
  isFinite (buybackFrequency m) /\ isFinite (buybackCoverage m)
  /\ isFinite (liquidityDepth m) /\ isFinite (volatilityPenalty m)
  /\ isFinite (timeDecay m).
Proof.
  intros (Hc & Hv & Hs & Hl & Hp & Ht0 & Ht1). simpl.
  repeat split; apply round2_finite.
  - unfold buybackFrequencyScore. auto with finite.
  - unfold buybackCoverageScore. apply min_finite; [exact I|].
    apply coverage_finite; auto with finite.
  - unfold liquidityDepthScore. auto with finite.
  - unfold volatilityPenaltyScore. auto with finite.
  - unfold timeDecayScore, hoursSinceLastAction, secondsSinceLastAction.
    auto 7 with finite.
Qed.

Lemma validWeights_finite (w : Weights.t) :
  validWeights w ->
  isFinite (Weights.buybackFrequency w) /\ isFinite (Weights.buybackCoverage w)
  /\ isFinite (Weights.liquidityDepth w) /\ isFinite (Weights.volatilityPenalty w)
  /\ isFinite (Weights.timeDecay w).
Proof.
  unfold validWeights. intros H. apply same_finite in H.
  apply add_finite_inv in H. destruct H as [H H5].
  apply add_finite_inv in H. destruct H as [H H4].
  apply add_finite_inv in H. destruct H as [H H3].
  apply add_finite_inv in H. destruct H as [H1 H2].
  auto.
Qed.

Lemma computeHealthScore_range (config : ProtocolConfig) (m : IceHealthMetrics) :
  validWeights (iceHealthWeights config) ->
  isFinite (buybackFrequency m) -> isFinite (buybackCoverage m) ->
  isFinite (liquidityDepth m) -> isFinite (volatilityPenalty m) ->
  isFinite (timeDecay m) ->
  inPercentRange (computeHealthScore config m).
Proof.
  intros Hw H1 H2 H3 H4 H5.
  destruct (validWeights_finite _ Hw) as (W1 & W2 & W3 & W4 & W5).
  unfold computeHealthScore. apply clamp_range. auto 8 with finite.
Qed.

End HealthEngineFacts.

(** C3.  For weights that add up to 1 and an input whose measurements are
    finite and non-negative, the composite health score lies in [0, 100]:
    both the score [computeHealthScore] returns and the rounded [health]
    that [computeHealth] reports.  (Only finiteness of the weights and of
    the input is used.) *)
Theorem health_score_in_range :
  forall (config : ProtocolConfig) (dateNow : Z) (input : HealthMetricsInput)
         (epochNumber : Z),
    validWeights (iceHealthWeights config) ->
    validInput input ->
    inPercentRange
      (IceHealthEngine.computeHealthScore config (IceHealthEngine.computeMetrics input))
    /\ inPercentRange
         (health (IceHealthEngine.computeHealth config dateNow input epochNumber)).
Proof.
  intros config dateNow input epochNumber Hw Hi.
  assert (R : inPercentRange
    (IceHealthEngine.computeHealthScore config (IceHealthEngine.computeMetrics input))).
  { destruct (computeMetrics_finite _ Hi) as (M1 & M2 & M3 & M4 & M5).
    now apply computeHealthScore_range. }
  split; [exact R|]. simpl. now apply round2_range.
Qed.

Lemma validWeights_mock : validWeights mockWeights.
Proof. vm_compute. reflexivity. Qed.

Lemma validInput_healthy : validInput (healthyInput 1700003600).
Proof. unfold validInput; simpl. repeat split; discriminate. Qed.

Lemma health_score_in_range_witness :
  validWeights (iceHealthWeights mockConfig)
  /\ validInput (healthyInput 1700003600)
  /\ inPercentRange
       (health (IceHealthEngine.computeHealth mockConfig 1700003600000
                  (healthyInput 1700003600) 1)).
Proof.
  split; [exact validWeights_mock|].
  split; [exact validInput_healthy|].
  apply (health_score_in_range mockConfig 1700003600000 (healthyInput 1700003600) 1).
  - exact validWeights_mock.
  - exact validInput_healthy.
Defined.

Section HealthExamples.

Import IceHealthEngine.
Local Open Scope num_scope.

Lemma timeDecayScore_healthy (now : Q) :
  timeDecayScore (healthyInput now)
  = Fin (Qmin 100 (Qmax 0 ((now - (now - 3600)) / 3600 / 72 * 100))).
Proof. reflexivity. Qed.

Lemma timeDecay_healthy (now : Q) :
  round2 (timeDecayScore (healthyInput now)) = Fin (inject_Z 139 / 100).
Proof.
  rewrite timeDecayScore_healthy, round2_Fin.
  assert (E : (now - (now - 3600) == 3600)%Q) by ring.
  assert (F : Qfloor (Qmin 100 (Qmax 0 ((now - (now - 3600)) / 3600 / 72 * 100))
                      * 100 + (1 # 2)) = 139%Z).
  { rewrite E. reflexivity. }
  rewrite F. reflexivity.
Qed.

(** The metrics of the test input do not depend on the moment [now]. *)
Lemma computeMetrics_healthy (now : Q) :
  computeMetrics (healthyInput now) = computeMetrics (healthyInput 3600).
Proof.
  unfold computeMetrics. rewrite !timeDecay_healthy. reflexivity.
Qed.

End HealthExamples.

(** C1 (as amended).  With the weights 0.25, 0.25, 0.25, 0.15, 0.10 and
    the threshold 50, for the input of the first test (5 buybacks, volume
    10, sell pressure 5, liquidity 100, volatility 10, last buyback 3600
    seconds before the current time), whatever the current time:
    the sub-scores are 100, 100, 100, 10 and 1.39, the reported health is
    73.36 and the status is ALIVE. *)
Theorem healthy_example :
  forall (config : ProtocolConfig) (dateNow : Z) (now : Q) (epochNumber : Z),
    iceHealthWeights config = mockWeights ->
    iceHealthThreshold config = Fin 50 ->
    let state := IceHealthEngine.computeHealth config dateNow (healthyInput now) epochNumber in
    sameMetrics (metrics state)
      {| buybackFrequency := Fin 100;
         buybackCoverage := Fin 100;
         liquidityDepth := Fin 100;
         volatilityPenalty := Fin 10;
         timeDecay := Fin 1.39 |}
    /\ health state =~ Fin 73.36
    /\ status state = ALIVE.
Proof.
  intros config dateNow now epochNumber Hw Ht state. subst state.
  unfold IceHealthEngine.computeHealth.
  cbn [metrics health status].
  unfold IceHealthEngine.computeStatus, IceHealthEngine.computeHealthScore.
  rewrite Hw, Ht, computeMetrics_healthy.
  vm_compute. repeat split; reflexivity.
Qed.

Lemma healthy_example_witness :
  let state := IceHealthEngine.computeHealth mockConfig 1700003600000
                 (healthyInput 1700003600) 1 in
  health state =~ Fin 73.36 /\ status state = ALIVE.
Proof.
  apply (healthy_example mockConfig 1700003600000 1700003600 1); reflexivity.
Defined.

(** C1, as stated, fails: on the test input the reported health is not
    68.64. *)
Lemma healthy_example_not_6864 :
  let state := IceHealthEngine.computeHealth mockConfig 1700003600000
                 (healthyInput 1700003600) 1 in
  health state =~ Fin 73.36 /\ ~ health state =~ Fin 68.64.
Proof.
  vm_compute. split; [reflexivity | discriminate].
Qed.

(** C2, as stated, fails.  With the test configuration, four buybacks,
    no sell pressure, no liquidity, no volatility and a last buyback one
    second ago, the time decay 0.000386 is rounded to 0.00 before the
    weighted sum: the code computes the score 50 and the status ALIVE,
    where the unrounded sub-scores give a score below 50 and MELTING. *)
Lemma rounding_before_sum_counterexample :
  IceHealthEngine.computeHealthScore mockConfig (IceHealthEngine.computeMetrics borderInput)
    =~ Fin 50
  /\ status (IceHealthEngine.computeHealth mockConfig 1700000000000 borderInput 1) = ALIVE
  /\ (Spec.unroundedHealthScore mockConfig borderInput <? Fin 50)%num = true
  /\ Spec.unroundedStatus mockConfig borderInput = MELTING.
Proof.
  vm_compute. repeat split; reflexivity.
Qed.

(** C2 (as amended).  Each sub-score is rounded to two decimals when the
    metrics are built, and the weighted sum is taken over the rounded
    sub-scores.  The composite score is clamped and compared with the
    threshold unrounded; it is rounded only for the reported [health]. *)
Theorem rounding_placement :
  forall (config : ProtocolConfig) (dateNow : Z) (input : HealthMetricsInput)
         (epochNumber : Z),
    let state := IceHealthEngine.computeHealth config dateNow input epochNumber in
    let score := IceHealthEngine.computeHealthScore config (metrics state) in
    metrics state
    = {| buybackFrequency :=
           IceHealthEngine.round2 (IceHealthEngine.buybackFrequencyScore input);
         buybackCoverage :=
           IceHealthEngine.round2 (IceHealthEngine.buybackCoverageScore input);
         liquidityDepth :=
           IceHealthEngine.round2 (IceHealthEngine.liquidityDepthScore input);
         volatilityPenalty :=
           IceHealthEngine.round2 (IceHealthEngine.volatilityPenaltyScore input);
         timeDecay :=
           IceHealthEngine.round2 (IceHealthEngine.timeDecayScore input) |}
    /\ status state = IceHealthEngine.computeStatus config score
    /\ health state = IceHealthEngine.round2 score.
Proof.
  intros config dateNow input epochNumber state score.
  subst score state. repeat split.
Qed.

(** The comparison is on the unrounded composite score: with a last
    buyback 104 seconds ago the score is 49.996, reported as 50.00, and
    the status is MELTING although the reported health equals the
    threshold. *)
Example status_uses_unrounded_score :
  let input :=
    {| buybackCountLast24h := Fin 4;
       buybackVolumeSolLast24h := Fin 0;
       recentSellPressureSol := Fin 0;
       currentLiquidity := Fin 0;
       volatilityPercent24h := Fin 0;
       lastBuybackTimestampSeconds := Fin 1699999896;
       currentTimestampSeconds := Fin 1700000000 |} in
  let state := IceHealthEngine.computeHealth mockConfig 1700000000000 input 1 in
  health state =~ Fin 50 /\ status state = MELTING.
Proof.
  vm_compute. split; reflexivity.
Qed.

(** ** Allocation strategies *)

Section AllocationFacts.

Local Open Scope num_scope.

Lemma add_Fin (a b : Q) : Fin a + Fin b = Fin (a + b).
Proof. reflexivity. Qed.

Lemma sub_Fin (a b : Q) : Fin a - Fin b = Fin (a - b).
Proof. reflexivity. Qed.

Lemma mul_Fin (a b : Q) : Fin a * Fin b = Fin (a * b).
Proof. reflexivity. Qed.

Lemma div_100 (a : Q) : Fin a / Fin 100 = Fin (a / 100).
Proof. reflexivity. Qed.

Lemma mul_NaN_r (x : num) : x * NaN = NaN.
Proof. destruct x; reflexivity. Qed.

(** A sum that is finite has finite terms. *)
Lemma validAllocationConfig_inv (c : AllocationConfig) :
  validAllocationConfig c ->
  exists b l u k,
    buybackPct c = Fin b /\ lpPct c = Fin l /\ burnPct c = Fin u
    /\ coolingPct c = Fin k /\ (b + l + u + k == 100)%Q.
Proof.
  unfold validAllocationConfig.
  destruct (buybackPct c) as [b| | |], (lpPct c) as [l| | |],
    (burnPct c) as [u| | |], (coolingPct c) as [k| | |];
    simpl; try contradiction.
  intros H. exists b, l, u, k. repeat split; try reflexivity. exact H.
Qed.

Lemma fixed_sum (f b l u k : Q) :
  (b + l + u + k == 100)%Q ->
  (f * b / 100 + f * l / 100 + f * u / 100 + f * k / 100 == f)%Q.
Proof.
  intros H. setoid_replace k with (100 - b - l - u)%Q by lra. field.
Qed.

(** The adapted percentages add up to 100 whatever the buyback
    percentage [p] chosen, provided the base one is not 100. *)
Lemma adaptive_sum (f b l u k p : Q) :
  (b + l + u + k == 100)%Q ->
  ~ (100 - b == 0)%Q ->
  (f * p / 100
   + f * (l / (100 - b) * (100 - p)) / 100
   + f * (u / (100 - b) * (100 - p)) / 100
   + f * (k / (100 - b) * (100 - p)) / 100 == f)%Q.
Proof.
  intros H Hb. setoid_replace k with (100 - b - l - u)%Q by lra.
  field. exact Hb.
Qed.

(** The buyback percentage the adaptive strategy picks is one of 85, 80,
    the base one and 50. *)
Lemma adaptedBuybackPct_cases (iceHealth : IceHealthState) (baseConfig : AllocationConfig) :
  let p := AdaptiveAllocationStrategy.adaptedBuybackPct iceHealth baseConfig in
  p = Fin 85 \/ p = Fin 80 \/ p = buybackPct baseConfig \/ p = Fin 50.
Proof.
  unfold AdaptiveAllocationStrategy.adaptedBuybackPct.
  destruct (health iceHealth <? Fin 30); [now left|].
  destruct (health iceHealth <? Fin 50); [now right; left|].
  destruct (health iceHealth <? Fin 70); [now right; right; left|].
  now right; right; right.
Qed.

Lemma adaptive_total (f : Q) (iceHealth : IceHealthState) (config : AllocationConfig) :
  validAllocationConfig config ->
  (buybackPct config <? Fin 100) = true ->
  allocatedTotal
    (allocations (AdaptiveAllocationStrategy.allocate (Fin f) iceHealth config))
  =~ Fin f.
Proof.
  intros Hv Hlt.
  destruct (validAllocationConfig_inv _ Hv) as (b & l & u & k & Eb & El & Eu & Ek & Hsum).
  rewrite Eb in Hlt. apply lt_Fin in Hlt.
  assert (Hnz : ~ (100 - b == 0)%Q) by (intros Hz; lra).
  assert (Hp : exists p, AdaptiveAllocationStrategy.adaptedBuybackPct iceHealth config = Fin p).
  { destruct (adaptedBuybackPct_cases iceHealth config) as [E|[E|[E|E]]];
      simpl in E; rewrite E; rewrite ?Eb; eauto. }
  destruct Hp as [p Ep].
  unfold allocatedTotal, AdaptiveAllocationStrategy.allocate,
    AdaptiveAllocationStrategy.adaptedConfig.
  cbn [allocations buyback lp burn cooling buybackPct lpPct burnPct coolingPct].
  rewrite Ep, Eb, El, Eu, Ek.
  rewrite !sub_Fin, !(div_Fin _ _ Hnz), !mul_Fin, !div_100, !add_Fin.
  simpl. now apply adaptive_sum.
Qed.

Lemma fixed_total (f : Q) (iceHealth : IceHealthState) (config : AllocationConfig) :
  validAllocationConfig config ->
  allocatedTotal
    (allocations (FixedAllocationStrategy.allocate (Fin f) iceHealth config))
  =~ Fin f.
Proof.
  intros Hv.
  destruct (validAllocationConfig_inv _ Hv) as (b & l & u & k & Eb & El & Eu & Ek & Hsum).
  unfold allocatedTotal, FixedAllocationStrategy.allocate.
  cbn [allocations buyback lp burn cooling].
  rewrite Eb, El, Eu, Ek.
  rewrite !mul_Fin, !div_100, !add_Fin.
  simpl. now apply fixed_sum.
Qed.

End AllocationFacts.

(** C4.  For every fee amount and every health state whose score is 25,
    the adaptive strategy on the base percentages 70, 20, 5, 5 works with
    the percentages 85, 10, 2.5 and 2.5 (the last three in the base ratio
    20 : 5 : 5) and returns the amounts 0.85, 0.10, 0.025 and 0.025 times
    the fee amount. *)
Theorem adaptive_critical_allocation :
  forall (feeAmount : num) (iceHealth : IceHealthState),
    health iceHealth =~ Fin 25 ->
    let pct := AdaptiveAllocationStrategy.adaptedConfig iceHealth mockAllocationConfig in
    let a := allocations
               (AdaptiveAllocationStrategy.allocate feeAmount iceHealth
                  mockAllocationConfig) in
    (buybackPct pct =~ Fin 85 /\ lpPct pct =~ Fin 10
     /\ burnPct pct =~ Fin 2.5 /\ coolingPct pct =~ Fin 2.5)
    /\ (lpPct pct * Fin 5 =~ burnPct pct * Fin 20
        /\ lpPct pct * Fin 5 =~ coolingPct pct * Fin 20)%num
    /\ (buyback a =~ feeAmount * Fin 0.85 /\ lp a =~ feeAmount * Fin 0.10
        /\ burn a =~ feeAmount * Fin 0.025
        /\ cooling a =~ feeAmount * Fin 0.025)%num.
Proof.
  intros feeAmount iceHealth H pct a. subst a pct.
  destruct (same_Fin_inv _ _ H) as (h & Eh & Hh).
  assert (Ep : AdaptiveAllocationStrategy.adaptedBuybackPct iceHealth mockAllocationConfig
               = Fin 85).
  { unfold AdaptiveAllocationStrategy.adaptedBuybackPct.
    rewrite Eh. simpl. rewrite Hh. reflexivity. }
  unfold AdaptiveAllocationStrategy.allocate, AdaptiveAllocationStrategy.adaptedConfig.
  cbn [allocations buyback lp burn cooling buybackPct lpPct burnPct coolingPct].
  rewrite Ep.
  split; [|split].
  - vm_compute. repeat split; reflexivity.
  - vm_compute. repeat split; reflexivity.
  - destruct feeAmount as [f| | |].
    + repeat split; simpl; field.
    + vm_compute. repeat split; exact I.
    + vm_compute. repeat split; exact I.
    + vm_compute. repeat split; exact I.
Qed.

Lemma adaptive_critical_allocation_witness :
  health (healthState (Fin 25) MELTING) =~ Fin 25
  /\ (let a := allocations
                (AdaptiveAllocationStrategy.allocate (Fin 2) (healthState (Fin 25) MELTING)
                   mockAllocationConfig) in
      buyback a =~ Fin 2 * Fin 0.85 /\ lp a =~ Fin 2 * Fin 0.10
      /\ burn a =~ Fin 2 * Fin 0.025 /\ cooling a =~ Fin 2 * Fin 0.025)%num.
Proof.
  assert (H25 : health (healthState (Fin 25) MELTING) =~ Fin 25) by reflexivity.
  split; [exact H25|].
  pose proof (adaptive_critical_allocation (Fin 2) (healthState (Fin 25) MELTING) H25) as H.
  cbv zeta in H. destruct H as (_ & _ & H). exact H.
Defined.

(** C5 fails on the code.  With a base buyback percentage of 100 (and so
    0 for the three others) the division by [100 - buybackPct] is a
    division of zero by zero: for every fee amount and every health state
    the lp, burn and cooling amounts are [NaN], not 0. *)
Theorem adaptive_all_buyback_gives_NaN :
  forall (feeAmount : num) (iceHealth : IceHealthState),
    let a := allocations
               (AdaptiveAllocationStrategy.allocate feeAmount iceHealth allBuybackConfig) in
    lp a = NaN /\ burn a = NaN /\ cooling a = NaN
    /\ validAllocationConfig allBuybackConfig.
Proof.
  intros feeAmount iceHealth a. subst a.
  unfold AdaptiveAllocationStrategy.allocate, AdaptiveAllocationStrategy.adaptedConfig.
  cbn [allocations lp burn cooling buybackPct lpPct burnPct coolingPct allBuybackConfig].
  change (Fin 0 / (Fin 100 - Fin 100))%num with NaN.
  change (mul NaN ?x) with NaN.
  rewrite !mul_NaN_r. repeat split.
Qed.

(** The same on one input: fee 1, health score 60. *)
Example adaptive_all_buyback_example :
  allocations
    (AdaptiveAllocationStrategy.allocate (Fin 1) (healthState (Fin 60) ALIVE)
       allBuybackConfig)
  = {| buyback := Fin (1 * 100 / 100); lp := NaN; burn := NaN; cooling := NaN |}.
Proof. reflexivity. Qed.

(** C6.  For a non-negative fee amount and percentages that add up to
    100, the four amounts of the fixed strategy add up to the fee amount,
    and so do those of the adaptive strategy when the base buyback
    percentage is below 100 (exact arithmetic). *)
Theorem allocations_sum_to_fee :
  forall (feeAmount : num) (iceHealth : IceHealthState) (config : AllocationConfig),
    nonNegative feeAmount ->
    validAllocationConfig config ->
    allocatedTotal
      (allocations (FixedAllocationStrategy.allocate feeAmount iceHealth config))
    =~ feeAmount
    /\ ((buybackPct config <? Fin 100)%num = true ->
        allocatedTotal
          (allocations (AdaptiveAllocationStrategy.allocate feeAmount iceHealth config))
        =~ feeAmount).
Proof.
  intros feeAmount iceHealth config Hf Hv.
  destruct feeAmount as [f| | |]; simpl in Hf; try contradiction.
  split.
  - now apply fixed_total.
  - intros Hlt. now apply adaptive_total.
Qed.

Lemma allocations_sum_to_fee_witness :
  allocatedTotal
    (allocations
       (FixedAllocationStrategy.allocate (Fin 3) (healthState (Fin 60) ALIVE)
          mockAllocationConfig))
  =~ Fin 3
  /\ allocatedTotal
       (allocations
          (AdaptiveAllocationStrategy.allocate (Fin 3) (healthState (Fin 20) MELTING)
             mockAllocationConfig))
     =~ Fin 3.
Proof.
  split.
  - apply (allocations_sum_to_fee (Fin 3) (healthState (Fin 60) ALIVE) mockAllocationConfig).
    + discriminate.
    + reflexivity.
  - apply (allocations_sum_to_fee (Fin 3) (healthState (Fin 20) MELTING) mockAllocationConfig).
    + discriminate.
    + reflexivity.
    + reflexivity.
Defined.

(** ** Executor *)

Section ExecutorFacts.

Variable this : Executor.t.

Local Open Scope num_scope.

Lemma checkBotBalance_run (world : World) :
  Executor.checkBotBalance world = Normal (botBalance world).
Proof.
  unfold Executor.checkBotBalance, botBalance, catchC, bindC.
  destruct (getBalance world); reflexivity.
Qed.

Lemma incrementFailureCount_run (s : Store) :
  Executor.incrementFailureCount this s = (Normal tt, countFailure this s).
Proof.
  unfold Executor.incrementFailureCount, countFailure, bind,
    Executor.getExecutorState, Executor.setConsecutiveFailures,
    Executor.setCircuitBreakerActive, Executor.modifyExecutorState, ret.
  cbn [executorState consecutiveFailures feeTracker lastExecutionTime epochNumber
       circuitBreakerActive].
  destruct (ofZ (consecutiveFailures (executorState s) + 1)
            >=? maxConsecutiveFailures (executor (Executor.config this)));
    reflexivity.
Qed.

(** No action throws: what goes wrong inside one is recorded on it. *)
Lemma executeBuyback_run (world : World) (solAmount : num) :
  exists action,
    Executor.executeBuyback this world solAmount = Normal action
    /\ action_type action = Buyback /\ amountSol action = solAmount
    /\ action_status action <> Pending.
Proof.
  unfold Executor.executeBuyback, catchC, bindC.
  destruct (dryRun world _ _ _ _) as [quote|e].
  - destruct (Quote.priceImpactBps quote >? maxPriceImpactBps (Executor.config this)).
    + eexists; repeat split; discriminate.
    + destruct (swap world _ _ _ _) as [result|e];
        eexists; repeat split; discriminate.
  - eexists; repeat split; discriminate.
Qed.

Lemma pushIfPositive_run (amount : num) (run : num -> Completion AllocationAction)
  (actions : list AllocationAction) (s : Store) :
  (exists action, run amount = Normal action) ->
  exists actions', Executor.pushIfPositive amount run actions s = (Normal actions', s).
Proof.
  intros [action E]. unfold Executor.pushIfPositive.
  destruct (amount >? Fin 0).
  - unfold bind, await, ret. rewrite E. eauto.
  - unfold ret. eauto.
Qed.

Lemma executeActions_run (world : World) (allocation : EpochAllocation) (s : Store) :
  exists actions',
    Executor.executeActions this world allocation s
    = (Normal (Executor.setActions allocation actions'), s).
Proof.
  unfold Executor.executeActions.
  destruct (pushIfPositive_run (buyback (allocations allocation))
              (Executor.executeBuyback this world) [] s) as [l1 E1].
  { destruct (executeBuyback_run world (buyback (allocations allocation)))
      as (a & E & _). eauto. }
  destruct (pushIfPositive_run (lp (allocations allocation))
              Executor.executeAddLP l1 s) as [l2 E2].
  { eexists. reflexivity. }
  destruct (pushIfPositive_run (burn (allocations allocation))
              Executor.executeBurn l2 s) as [l3 E3].
  { eexists. reflexivity. }
  destruct (pushIfPositive_run (cooling (allocations allocation))
              Executor.executeCooling l3 s) as [l4 E4].
  { eexists. reflexivity. }
  exists l4. unfold bind at 1. rewrite E1.
  unfold bind at 1. rewrite E2.
  unfold bind at 1. rewrite E3.
  unfold bind at 1. rewrite E4.
  reflexivity.
Qed.

(** Every call of [executeEpoch] returns, and goes one of the six ways. *)
Lemma executeEpoch_outcome (world : World) (iceHealth : IceHealthState) (s : Store) :
  exists r s',
    Executor.executeEpoch this world iceHealth s = (Normal r, s')
    /\ epochOutcome this world iceHealth s r s'.
Proof.
  unfold Executor.executeEpoch.
  unfold bind at 1. unfold Executor.getExecutorState at 1.
  unfold bind at 1. unfold Executor.setEpochNumber, Executor.modifyExecutorState.
  fold (bumpEpoch s).
  unfold tryCatch, Executor.epochBody.
  unfold bind at 1. unfold Executor.getExecutorState at 1.
  change (circuitBreakerActive (executorState (bumpEpoch s)))
    with (circuitBreakerActive (executorState s)).
  change (lastExecutionTime (executorState (bumpEpoch s)))
    with (lastExecutionTime (executorState s)).
  destruct (circuitBreakerActive (executorState s)) eqn:Hb.
  { exists None, (bumpEpoch s). split; [reflexivity | now apply BreakerOpen]. }
  destruct (ofZ (dateNow world / 1000 - lastExecutionTime (executorState s))
            <? minIntervalSeconds (executor (Executor.config this))) eqn:Hr.
  { exists None, (bumpEpoch s). split; [reflexivity | now apply RateLimited]. }
  unfold bind at 1. unfold await at 1. rewrite checkBotBalance_run.
  destruct (botBalance world <? minBalanceToOperateSol (executor (Executor.config this)))
    eqn:Hl.
  { exists None, (countFailure this (bumpEpoch s)). split.
    - unfold bind. rewrite incrementFailureCount_run. reflexivity.
    - now apply LowBalance. }
  unfold bind at 1. unfold Executor.getFeeTracker at 1.
  change (totalFeesCollected (feeTracker (bumpEpoch s)))
    with (totalFeesCollected (feeTracker s)).
  destruct (totalFeesCollected (feeTracker s) <? Fin 0.01) eqn:Hd.
  { exists None, (bumpEpoch s). split; [reflexivity | now apply Dust]. }
  unfold bind at 1. unfold await at 1.
  destruct (allocate (Executor.allocationStrategy this) (totalFeesCollected (feeTracker s))
              iceHealth (allocationConfig (Executor.config this))) as [allocation|e] eqn:Ha.
  2:{ exists None, (countFailure this (bumpEpoch s)). split.
      - unfold bind. rewrite incrementFailureCount_run. reflexivity.
      - now apply Thrown with (e := e). }
  unfold bind at 1.
  destruct (mode (executor (Executor.config this))) eqn:Hm.
  - exists (Some (Executor.setActions allocation (actions allocation))),
      (settle (dateNow world / 1000) (bumpEpoch s)).
    split.
    + destruct allocation. reflexivity.
    + now apply Settled.
  - destruct (executeActions_run world allocation (bumpEpoch s)) as [actions' E].
    rewrite E.
    exists (Some (Executor.setActions allocation actions')),
      (settle (dateNow world / 1000) (bumpEpoch s)).
    split.
    + destruct allocation. reflexivity.
    + apply Settled; auto. intros Hm'. congruence.
Qed.

End ExecutorFacts.

Section EpochFacts.

Variable this : Executor.t.

Local Open Scope num_scope.

Let maxFailures := maxConsecutiveFailures (executor (Executor.config this)).

(** An exception leaves the [try] block of [executeEpoch] only from the
    allocation strategy, before anything of the store was assigned. *)
Lemma epochBody_throw (world : World) (iceHealth : IceHealthState) (s0 s1 : Store)
  (e : JsError) :
  Executor.epochBody this world iceHealth s0 = (Throw e, s1) ->
  s1 = s0
  /\ allocate (Executor.allocationStrategy this) (totalFeesCollected (feeTracker s0))
       iceHealth (allocationConfig (Executor.config this)) = Throw e.
Proof.
  unfold Executor.epochBody.
  unfold bind at 1. unfold Executor.getExecutorState at 1.
  destruct (circuitBreakerActive (executorState s0)); [discriminate|].
  destruct (ofZ (dateNow world / 1000 - lastExecutionTime (executorState s0))
            <? minIntervalSeconds (executor (Executor.config this))); [discriminate|].
  unfold bind at 1. unfold await at 1. rewrite checkBotBalance_run.
  destruct (botBalance world <? minBalanceToOperateSol (executor (Executor.config this))).
  { unfold bind. rewrite incrementFailureCount_run. discriminate. }
  unfold bind at 1. unfold Executor.getFeeTracker at 1.
  destruct (totalFeesCollected (feeTracker s0) <? Fin 0.01); [discriminate|].
  unfold bind at 1. unfold await at 1.
  destruct (allocate (Executor.allocationStrategy this) (totalFeesCollected (feeTracker s0))
              iceHealth (allocationConfig (Executor.config this))) as [allocation|e'].
  2:{ intros H. inversion H. auto. }
  unfold bind at 1.
  destruct (mode (executor (Executor.config this))).
  - discriminate.
  - destruct (executeActions_run this world allocation s0) as [actions' E].
    rewrite E. discriminate.
Qed.

Lemma executeEpoch_unfold (world : World) (iceHealth : IceHealthState) (s : Store) :
  Executor.executeEpoch this world iceHealth s
  = tryCatch (Executor.epochBody this world iceHealth)
      (fun _ => bind (Executor.incrementFailureCount this) (fun _ => ret None))
      (bumpEpoch s).
Proof. reflexivity. Qed.

(** What holds of every store the executor can be in. *)
Lemma reachable_invariant (s : Store) :
  reachable this s ->
  (0 <= consecutiveFailures (executorState s))%Z
  /\ ((maxFailures <=? Fin 0) = false ->
      (circuitBreakerActive (executorState s) = true
       <-> (ofZ (consecutiveFailures (executorState s)) >=? maxFailures) = true)).
Proof.
  assert (Z0 : forall b : bool, (maxFailures <=? Fin 0) = false ->
            b = false -> (b = true <-> (ofZ 0 >=? maxFailures) = true)).
  { intros b Hm ->. unfold ge. change (ofZ 0) with (Fin 0). rewrite Hm.
    split; discriminate. }
  induction 1 as [|world iceHealth s R IH|s R IH|s R IH|s tracker R IH].
  - split; [simpl; lia|]. intros Hm. now apply Z0.
  - destruct IH as [IH0 IH1].
    destruct (executeEpoch_outcome this world iceHealth s) as (r & s' & E & O).
    rewrite E. cbn [snd]. clear E.
    destruct O as [Hb|Hb Hr|Hb Hr Hl|Hb Hr Hl Hd|e Hb Hr Hl Hd Ha
                  |allocation actions' Hb Hr Hl Hd Ha Hm];
      cbn [bumpEpoch countFailure settle executorState
           consecutiveFailures circuitBreakerActive];
      (split; [lia|]); intros Hmax;
      try (now apply IH1); try (now apply Z0).
    + unfold maxFailures. rewrite Hb.
      match goal with |- context [if ?c then _ else _] => destruct c end;
        split; auto.
    + unfold maxFailures. rewrite Hb.
      match goal with |- context [if ?c then _ else _] => destruct c end;
        split; auto.
  - split; [simpl; lia|]. intros Hm. now apply Z0.
  - exact IH.
  - exact IH.
Qed.

End EpochFacts.

(** C7.  An epoch that stops at the circuit breaker, at the minimum
    interval, or (the balance being sufficient) at the dust threshold
    returns [null] and leaves the failure counter, the breaker flag, the
    last execution time and the collected fees as they were. *)
Theorem silent_abort_frame :
  forall (this : Executor.t) (world : World) (iceHealth : IceHealthState) (s : Store),
    circuitBreakerActive (executorState s) = true
    \/ (ofZ (dateNow world / 1000 - lastExecutionTime (executorState s))
          <? minIntervalSeconds (executor (Executor.config this)))%num = true
    \/ (exists balance,
          Executor.checkBotBalance world = Normal balance
          /\ (balance <? minBalanceToOperateSol (executor (Executor.config this)))%num
             = false
          /\ (totalFeesCollected (feeTracker s) <? Fin 0.01)%num = true) ->
    exists s',
      Executor.executeEpoch this world iceHealth s = (Normal None, s')
      /\ consecutiveFailures (executorState s') = consecutiveFailures (executorState s)
      /\ circuitBreakerActive (executorState s') = circuitBreakerActive (executorState s)
      /\ lastExecutionTime (executorState s') = lastExecutionTime (executorState s)
      /\ totalFeesCollected (feeTracker s') = totalFeesCollected (feeTracker s).
Proof.
  intros this world iceHealth s H.
  assert (H' : circuitBreakerActive (executorState s) = true
    \/ (ofZ (dateNow world / 1000 - lastExecutionTime (executorState s))
          <? minIntervalSeconds (executor (Executor.config this)))%num = true
    \/ ((botBalance world <? minBalanceToOperateSol (executor (Executor.config this)))%num
          = false
        /\ (totalFeesCollected (feeTracker s) <? Fin 0.01)%num = true)).
  { destruct H as [H|[H|(balance & Hb & Hl & Hd)]]; auto.
    rewrite checkBotBalance_run in Hb. inversion Hb; subst. auto. }
  clear H.
  destruct (executeEpoch_outcome this world iceHealth s) as (r & s' & E & O).
  inversion O; subst;
    try (exists (bumpEpoch s); split; [exact E | repeat split]);
    exfalso; destruct H' as [H'|[H'|[H' H'']]]; congruence.
Qed.

Lemma silent_abort_frame_witness :
  circuitBreakerActive (executorState (storeWith 5 true (Fin 3))) = true
  /\ exists s',
       Executor.executeEpoch (Executor.make mockConfig) calmWorld
         (healthState (Fin 60) ALIVE) (storeWith 5 true (Fin 3)) = (Normal None, s')
       /\ consecutiveFailures (executorState s') = 5%Z
       /\ circuitBreakerActive (executorState s') = true
       /\ lastExecutionTime (executorState s') = 0%Z
       /\ totalFeesCollected (feeTracker s') = Fin 3.
Proof.
  split; [reflexivity|].
  apply (silent_abort_frame (Executor.make mockConfig) calmWorld
           (healthState (Fin 60) ALIVE) (storeWith 5 true (Fin 3))).
  left. reflexivity.
Defined.

(** The dust threshold, on the test configuration: fees of 0.009 stop the
    epoch silently, fees of 0.01 are allocated. *)
Example dust_abort_example :
  Executor.executeEpoch (Executor.make mockConfig) calmWorld
    (healthState (Fin 60) ALIVE) (storeWith 2 false (Fin 0.009))
  = (Normal None, bumpEpoch (storeWith 2 false (Fin 0.009)))
  /\ exists allocation s',
       Executor.executeEpoch (Executor.make mockConfig) calmWorld
         (healthState (Fin 60) ALIVE) (storeWith 2 false (Fin 0.01))
       = (Normal (Some allocation), s')
       /\ totalFeesToAllocate allocation = Fin 0.01
       /\ totalFeesCollected (feeTracker s') = Fin 0.
Proof.
  split; [reflexivity|]. vm_compute. do 2 eexists. repeat split.
Qed.

(** C8.  In every store the executor can be in:
    - an epoch started with the breaker off turns it on exactly when that
      epoch counts a failure (the counter goes up by 1) and the counter
      thereby reaches the configured maximum;
    - an epoch started with the breaker on returns [null] and leaves the
      breaker on and the counter as it was;
    - a balance below the operating minimum and an exception leaving the
      [try] block each add exactly 1 to the counter;
    - [resetCircuitBreaker] turns the breaker off and sets the counter to
      0, and [getState] changes nothing;
    - for a positive maximum, the breaker is on exactly when the counter
      has reached the maximum. *)
Theorem circuit_breaker_discipline :
  forall (this : Executor.t) (s : Store),
    reachable this s ->
    let maxFailures := maxConsecutiveFailures (executor (Executor.config this)) in
    (forall (world : World) (iceHealth : IceHealthState),
        let r := fst (Executor.executeEpoch this world iceHealth s) in
        let s' := snd (Executor.executeEpoch this world iceHealth s) in
        (circuitBreakerActive (executorState s) = false ->
         (circuitBreakerActive (executorState s') = true
          <-> consecutiveFailures (executorState s')
              = (consecutiveFailures (executorState s) + 1)%Z
              /\ (ofZ (consecutiveFailures (executorState s')) >=? maxFailures)%num = true))
        /\ (circuitBreakerActive (executorState s) = true ->
            r = Normal None
            /\ circuitBreakerActive (executorState s') = true
            /\ consecutiveFailures (executorState s')
               = consecutiveFailures (executorState s))
        /\ (circuitBreakerActive (executorState s) = false ->
            (ofZ (dateNow world / 1000 - lastExecutionTime (executorState s))
               <? minIntervalSeconds (executor (Executor.config this)))%num = false ->
            (exists balance,
                Executor.checkBotBalance world = Normal balance
                /\ (balance <? minBalanceToOperateSol (executor (Executor.config this)))%num
                   = true) ->
            r = Normal None
            /\ consecutiveFailures (executorState s')
               = (consecutiveFailures (executorState s) + 1)%Z)
        /\ (forall e s1,
              Executor.epochBody this world iceHealth (bumpEpoch s) = (Throw e, s1) ->
              r = Normal None
              /\ consecutiveFailures (executorState s')
                 = (consecutiveFailures (executorState s) + 1)%Z))
    /\ (circuitBreakerActive (executorState (snd (Executor.resetCircuitBreaker s))) = false
        /\ consecutiveFailures (executorState (snd (Executor.resetCircuitBreaker s))) = 0%Z)
    /\ snd (Executor.getState s) = s
    /\ ((maxFailures <=? Fin 0)%num = false ->
        (circuitBreakerActive (executorState s) = true
         <-> (ofZ (consecutiveFailures (executorState s)) >=? maxFailures)%num = true)).
Proof.
  intros this s R maxFailures.
  destruct (reachable_invariant this s R) as [I0 I1].
  split; [|split; [|split]].
  - intros world iceHealth r s'. subst r s'.
    split; [|split; [|split]]; [| |intros Hoff Hrate Hlow|intros e s1 Hbody].
    3:{ destruct Hlow as (balance & Hbal & Hlow).
        rewrite checkBotBalance_run in Hbal. inversion Hbal; subst balance.
        destruct (executeEpoch_outcome this world iceHealth s) as (r & s' & E & O).
        rewrite E. cbn [fst snd]. clear E.
        destruct O; try congruence; split; reflexivity. }
    3:{ destruct (epochBody_throw this world iceHealth _ _ _ Hbody) as [-> _].
        rewrite executeEpoch_unfold. unfold tryCatch. rewrite Hbody.
        unfold bind. rewrite incrementFailureCount_run. split; reflexivity. }
    all: destruct (executeEpoch_outcome this world iceHealth s) as (r & s' & E & O).
    all: rewrite E; cbn [fst snd]; clear E.
    all: destruct O as [Hb|Hb Hr|Hb Hr Hl|Hb Hr Hl Hd|e Hb Hr Hl Hd Ha
                  |allocation actions' Hb Hr Hl Hd Ha Hm];
      cbn [bumpEpoch countFailure settle executorState
           consecutiveFailures circuitBreakerActive];
      intros Hflag; try congruence.
    + rewrite Hb. split; [discriminate | intros [F _]; lia].
    + rewrite Hb. fold maxFailures.
      destruct (ofZ (consecutiveFailures (executorState s) + 1) >=? maxFailures)%num;
        split; auto. intros [_ F]. discriminate F.
    + rewrite Hb. split; [discriminate | intros [F _]; lia].
    + rewrite Hb. fold maxFailures.
      destruct (ofZ (consecutiveFailures (executorState s) + 1) >=? maxFailures)%num;
        split; auto. intros [_ F]. discriminate F.
    + rewrite Hb. split; [discriminate | intros [F _]; lia].
    + repeat split; auto.
  - split; reflexivity.
  - reflexivity.
  - exact I1.
Qed.

Lemma reachable_afterFailingEpochs (n : nat) :
  reachable (Executor.make mockConfig) (afterFailingEpochs n).
Proof.
  induction n as [|k IH]; simpl.
  - apply reach_init.
  - now apply reach_epoch.
Defined.

Lemma circuit_breaker_discipline_witness :
  let this := Executor.make mockConfig in
  let s := afterFailingEpochs 5 in
  reachable this s
  /\ (circuitBreakerActive (executorState s) = true
      <-> (ofZ (consecutiveFailures (executorState s))
             >=? maxConsecutiveFailures (executor (Executor.config this)))%num = true)
  /\ circuitBreakerActive (executorState (snd (Executor.resetCircuitBreaker s))) = false.
Proof.
  intros this s.
  assert (R : reachable this s) by apply reachable_afterFailingEpochs.
  split; [exact R|].
  pose proof (circuit_breaker_discipline this s R) as H.
  cbv zeta in H. destruct H as (_ & (Hreset & _) & _ & Hinv).
  split; [apply Hinv; reflexivity | exact Hreset].
Defined.

(** With the maximum 5 of the test configuration: four failed epochs
    leave the breaker off, the fifth turns it on, and later epochs change
    neither the flag nor the counter. *)
Example breaker_trips_at_five :
  (consecutiveFailures (executorState (afterFailingEpochs 4)) = 4%Z
   /\ circuitBreakerActive (executorState (afterFailingEpochs 4)) = false)
  /\ (consecutiveFailures (executorState (afterFailingEpochs 5)) = 5%Z
      /\ circuitBreakerActive (executorState (afterFailingEpochs 5)) = true)
  /\ (consecutiveFailures (executorState (afterFailingEpochs 8)) = 5%Z
      /\ circuitBreakerActive (executorState (afterFailingEpochs 8)) = true
      /\ epochNumber (executorState (afterFailingEpochs 8)) = 8%Z).
Proof.
  vm_compute. repeat split.
Qed.

(** C9, as stated, fails, in two ways.  In live mode, with a swap engine
    that throws on [dryRun], the exception is caught inside
    [executeBuyback] and recorded on the action: the epoch returns its
    allocation, not [null], and the failure counter, 2 before the epoch,
    is reset to 0 instead of going to 3.  And with an operating minimum
    of 0 for the balance, a balance query that throws is read as a
    balance of 0, which is not below the minimum: the epoch again returns
    its allocation and resets the counter. *)
Lemma swap_exception_does_not_abort :
  (exists allocation buybackAction others s',
      Executor.executeEpoch (Executor.make (mockConfigIn Live)) brokenSwapWorld
        (healthState (Fin 60) ALIVE) (storeWith 2 false (Fin 1))
      = (Normal (Some allocation), s')
      /\ actions allocation = buybackAction :: others
      /\ action_type buybackAction = Buyback
      /\ action_status buybackAction = Failed
      /\ error buybackAction = Some (ErrorMessage "Raydium dryRun not yet implemented")
      /\ consecutiveFailures (executorState s') = 0%Z)
  /\ (exists allocation s',
        getBalance silentLedgerWorld = Throw (ErrorMessage "failed to get balance")
        /\ Executor.executeEpoch (Executor.make (configWithMinBalance DryRun (Fin 0)))
             silentLedgerWorld (healthState (Fin 60) ALIVE) (storeWith 2 false (Fin 1))
           = (Normal (Some allocation), s')
        /\ consecutiveFailures (executorState s') = 0%Z).
Proof.
  split.
  - vm_compute. do 4 eexists. repeat split.
  - vm_compute. do 2 eexists. repeat split.
Qed.

(** C9 (as amended).  [executeEpoch] always returns to its caller.
    - An exception of the balance query is caught in [checkBotBalance]
      and read as a balance of 0: when the operating minimum is above 0,
      the epoch returns [null] and the failure counter is one more than
      before the call.
    - An exception of the allocation strategy is caught by the handler
      of [executeEpoch], as is every exception that leaves its [try]
      block: the epoch returns [null] and the failure counter is one
      more than before the call.  (The two strategies the constructor
      picks from never throw.)
    - An exception of the swap engine, thrown by the quote or by the
      swap, is caught in [executeBuyback], which returns the buyback
      action marked failed with that exception as its error; whatever
      the swap engine does, an epoch whose guards pass and whose
      strategy returns gives back its allocation and leaves the failure
      counter at 0. *)
Theorem epoch_exceptions_are_contained :
  forall (this : Executor.t) (world : World) (iceHealth : IceHealthState) (s : Store),
    let minBalance := minBalanceToOperateSol (executor (Executor.config this)) in
    let fees := totalFeesCollected (feeTracker s) in
    let queried :=
      circuitBreakerActive (executorState s) = false
      /\ (ofZ (dateNow world / 1000 - lastExecutionTime (executorState s))
            <? minIntervalSeconds (executor (Executor.config this)))%num = false in
    let allocated :=
      allocate (Executor.allocationStrategy this) fees iceHealth
        (allocationConfig (Executor.config this)) in
    let quoted solAmount :=
      dryRun world Executor.getWrappedSolMint (iceTokenMint (Executor.config this))
        solAmount (maxSlippageBps (Executor.config this)) in
    let swapped solAmount :=
      swap world Executor.getWrappedSolMint (iceTokenMint (Executor.config this))
        solAmount (maxSlippageBps (Executor.config this)) in
    (exists r s', Executor.executeEpoch this world iceHealth s = (Normal r, s'))
    /\ (forall e,
          queried ->
          getBalance world = Throw e ->
          Executor.checkBotBalance world = Normal (Fin 0)
          /\ ((Fin 0 <? minBalance)%num = true ->
              exists s',
                Executor.executeEpoch this world iceHealth s = (Normal None, s')
                /\ consecutiveFailures (executorState s')
                   = (consecutiveFailures (executorState s) + 1)%Z))
    /\ (forall e balance,
          queried ->
          Executor.checkBotBalance world = Normal balance ->
          (balance <? minBalance)%num = false ->
          (fees <? Fin 0.01)%num = false ->
          allocated = Throw e ->
          exists s',
            Executor.executeEpoch this world iceHealth s = (Normal None, s')
            /\ consecutiveFailures (executorState s')
               = (consecutiveFailures (executorState s) + 1)%Z)
    /\ (forall e s1,
          Executor.epochBody this world iceHealth (bumpEpoch s) = (Throw e, s1) ->
          exists s',
            Executor.executeEpoch this world iceHealth s = (Normal None, s')
            /\ consecutiveFailures (executorState s')
               = (consecutiveFailures (executorState s) + 1)%Z)
    /\ (forall config feeAmount health,
          exists made,
            allocate (Executor.allocationStrategy (Executor.make config)) feeAmount health
              (allocationConfig config) = Normal made)
    /\ (forall solAmount e,
          quoted solAmount = Throw e
          \/ (exists quote,
                quoted solAmount = Normal quote
                /\ (Quote.priceImpactBps quote
                      >? maxPriceImpactBps (Executor.config this))%num = false
                /\ swapped solAmount = Throw e) ->
          Executor.executeBuyback this world solAmount
          = Normal (Executor.failed (Executor.pendingAction Buyback solAmount) e))
    /\ (forall balance made,
          queried ->
          Executor.checkBotBalance world = Normal balance ->
          (balance <? minBalance)%num = false ->
          (fees <? Fin 0.01)%num = false ->
          allocated = Normal made ->
          exists settled s',
            Executor.executeEpoch this world iceHealth s = (Normal (Some settled), s')
            /\ totalFeesToAllocate settled = totalFeesToAllocate made
            /\ allocations settled = allocations made
            /\ consecutiveFailures (executorState s') = 0%Z).
Proof.
  intros this world iceHealth s minBalance fees queried allocated quoted swapped.
  split; [|split; [|split; [|split; [|split; [|split]]]]].
  - destruct (executeEpoch_outcome this world iceHealth s) as (r & s' & E & _).
    eauto.
  - intros e [Hoff Hrate] He.
    assert (B : botBalance world = Fin 0) by (unfold botBalance; now rewrite He).
    split; [rewrite checkBotBalance_run; now rewrite B|].
    intros Hmin.
    destruct (executeEpoch_outcome this world iceHealth s) as (r & s' & E & O).
    rewrite E. unfold minBalance in Hmin.
    destruct O; try congruence;
      try (match goal with
           | H : (botBalance world <? _)%num = false |- _ => rewrite B in H; congruence
           end).
    eexists. split; reflexivity.
  - intros e balance [Hoff Hrate] Hbal Hlow Hdust Hthrow.
    rewrite checkBotBalance_run in Hbal. inversion Hbal; subst balance.
    destruct (executeEpoch_outcome this world iceHealth s) as (r & s' & E & O).
    rewrite E. subst allocated fees minBalance.
    destruct O; try congruence.
    eexists. split; reflexivity.
  - intros e s1 Hbody.
    destruct (epochBody_throw this world iceHealth _ _ _ Hbody) as [-> _].
    exists (countFailure this (bumpEpoch s)). split; [|reflexivity].
    rewrite executeEpoch_unfold. unfold tryCatch. rewrite Hbody.
    unfold bind. rewrite incrementFailureCount_run. reflexivity.
  - intros config feeAmount health. cbn [Executor.make Executor.allocationStrategy].
    destruct (allocationMode config); eexists; reflexivity.
  - intros solAmount e H. unfold Executor.executeBuyback, catchC, bindC.
    fold (quoted solAmount). fold (swapped solAmount).
    destruct H as [Hq|(quote & Hq & Hi & Hs)]; rewrite Hq; [reflexivity|].
    rewrite Hi, Hs. reflexivity.
  - intros balance made [Hoff Hrate] Hbal Hlow Hdust Hmade.
    rewrite checkBotBalance_run in Hbal. inversion Hbal; subst balance.
    destruct (executeEpoch_outcome this world iceHealth s) as (r & s' & E & O).
    rewrite E. subst allocated fees minBalance.
    destruct O as [Hb|Hb Hr|Hb Hr Hl|Hb Hr Hl Hd|e Hb Hr Hl Hd Ha
                  |allocation actions' Hb Hr Hl Hd Ha Hm]; try congruence.
    rewrite Hmade in Ha. inversion Ha; subst allocation.
    do 2 eexists. split; [reflexivity|]. repeat split.
Qed.

(** An unanswered balance query under the test configuration (operating
    minimum 0.5), and a strategy that throws. *)
Lemma epoch_exceptions_are_contained_witness :
  (getBalance silentLedgerWorld = Throw (ErrorMessage "failed to get balance")
   /\ exists s',
        Executor.executeEpoch (Executor.make mockConfig) silentLedgerWorld
          (healthState (Fin 60) ALIVE) (storeWith 2 false (Fin 1))
        = (Normal None, s')
        /\ consecutiveFailures (executorState s') = 3%Z)
  /\ (let this :=
        {| Executor.config := mockConfig;
           Executor.allocationStrategy :=
             {| allocate := fun _ _ _ => Throw (ErrorMessage "allocation failed") |} |} in
      let s := storeWith 2 false (Fin 1) in
      Executor.epochBody this calmWorld (healthState (Fin 60) ALIVE) (bumpEpoch s)
      = (Throw (ErrorMessage "allocation failed"), bumpEpoch s)
      /\ exists s',
           Executor.executeEpoch this calmWorld (healthState (Fin 60) ALIVE) s
           = (Normal None, s')
           /\ consecutiveFailures (executorState s') = 3%Z).
Proof.
  split.
  - split; [reflexivity|].
    destruct (epoch_exceptions_are_contained (Executor.make mockConfig) silentLedgerWorld
                (healthState (Fin 60) ALIVE) (storeWith 2 false (Fin 1)))
      as (_ & H & _).
    destruct (H (ErrorMessage "failed to get balance")) as [_ H'].
    + split; reflexivity.
    + reflexivity.
    + apply H'. reflexivity.
  - intros this s.
    assert (B : Executor.epochBody this calmWorld (healthState (Fin 60) ALIVE) (bumpEpoch s)
                = (Throw (ErrorMessage "allocation failed"), bumpEpoch s)) by reflexivity.
    split; [exact B|].
    destruct (epoch_exceptions_are_contained this calmWorld (healthState (Fin 60) ALIVE) s)
      as (_ & _ & _ & H & _).
    exact (H _ _ B).
Defined.

(** C10.  Whatever the outcome, a call of [executeEpoch] adds exactly 1
    to [epochNumber], and [getState] on the resulting store shows it. *)
Theorem epoch_number_counts_attempts :
  forall (this : Executor.t) (world : World) (iceHealth : IceHealthState) (s : Store),
    let s' := snd (Executor.executeEpoch this world iceHealth s) in
    epochNumber (executorState s') = (epochNumber (executorState s) + 1)%Z
    /\ exists snapshot,
         Executor.getState s' = (Normal snapshot, s')
         /\ epochNumber snapshot = (epochNumber (executorState s) + 1)%Z.
Proof.
  intros this world iceHealth s s'. subst s'.
  destruct (executeEpoch_outcome this world iceHealth s) as (r & s' & E & O).
  rewrite E. cbn [snd]. clear E.
  assert (N : epochNumber (executorState s') = (epochNumber (executorState s) + 1)%Z).
  { destruct O; reflexivity. }
  split; [exact N|].
  exists (executorState s'). split; [reflexivity | exact N].
Qed.

(** Epochs stopped by the breaker are counted too: see
    [breaker_trips_at_five], where eight epochs were attempted, five
    counted as failures and three were stopped by the breaker. *)
Example silent_aborts_are_counted :
  epochNumber
    (executorState
       (snd (Executor.executeEpoch (Executor.make mockConfig) calmWorld
               (healthState (Fin 60) ALIVE) (storeWith 5 true (Fin 3)))))
  = 8%Z.
Proof. reflexivity. Qed.

(* ================================================================== *)
(** * Further properties of the code *)
(* ================================================================== *)

(** ** Health engine: sub-scores, status, estimate *)

Section MoreHealthFacts.

Import IceHealthEngine.
Local Open Scope num_scope.

Lemma nonNegative_inv (x : num) : nonNegative x -> exists q, x = Fin q /\ (0 <= q)%Q.
Proof. destruct x as [q| | |]; simpl; try contradiction. eauto. Qed.

Lemma mul_nonNegative (x y : num) : nonNegative x -> nonNegative y -> nonNegative (x * y).
Proof.
  destruct x, y; simpl; try contradiction. apply Qmult_le_0_compat.
Qed.

Lemma add_nonNegative (x y : num) : nonNegative x -> nonNegative y -> nonNegative (x + y).
Proof.
  destruct x, y; simpl; try contradiction. intros. lra.
Qed.

Lemma div_nonNegative (x : num) (b : Q) :
  nonNegative x -> (0 < b)%Q -> nonNegative (x / Fin b).
Proof.
  intros Hx Hb. destruct (nonNegative_inv _ Hx) as (a & -> & Ha).
  rewrite div_Fin by (intros E; rewrite E in Hb; exact (Qlt_irrefl _ Hb)).
  simpl. apply Qle_shift_div_l; [exact Hb | lra].
Qed.

Lemma min100_range (x : num) :
  nonNegative x -> inPercentRange (Math.min (Fin 100) x).
Proof.
  intros Hx. destruct (nonNegative_inv _ Hx) as (q & -> & Hq).
  split; simpl; apply Qle_bool_iff.
  - apply Q.min_glb; [discriminate | exact Hq].
  - apply Q.le_min_l.
Qed.

Lemma min_max_range (x : num) :
  isFinite x -> inPercentRange (Math.min (Fin 100) (Math.max (Fin 0) x)).
Proof.
  destruct x as [q| | |]; simpl; try contradiction. intros _.
  split; simpl; apply Qle_bool_iff.
  - apply Q.min_glb; [discriminate | apply Q.le_max_l].
  - apply Q.le_min_l.
Qed.

Lemma coverage_nonNegative (input : HealthMetricsInput) :
  nonNegative (buybackVolumeSolLast24h input) ->
  nonNegative (recentSellPressureSol input) ->
  nonNegative (estimatedBuybackCoverage input).
Proof.
  unfold estimatedBuybackCoverage, gt. intros Hv Hs.
  destruct (nonNegative_inv _ Hs) as (s & Es & _). rewrite Es.
  destruct (Fin 0 <? Fin s) eqn:E; [|discriminate].
  apply lt_Fin in E. apply mul_nonNegative; [|discriminate].
  now apply div_nonNegative.
Qed.

Lemma computeHealthScore_range_finite (config : ProtocolConfig) (m : IceHealthMetrics) :
  finiteWeights (iceHealthWeights config) ->
  isFinite (buybackFrequency m) -> isFinite (buybackCoverage m) ->
  isFinite (liquidityDepth m) -> isFinite (volatilityPenalty m) ->
  isFinite (timeDecay m) ->
  inPercentRange (computeHealthScore config m).
Proof.
  intros (W1 & W2 & W3 & W4 & W5) H1 H2 H3 H4 H5.
  unfold computeHealthScore. apply clamp_range. auto 8 with finite.
Qed.

Lemma score_of_valid_input (config : ProtocolConfig) (input : HealthMetricsInput) :
  finiteWeights (iceHealthWeights config) ->
  validInput input ->
  exists q, computeHealthScore config (computeMetrics input) = Fin q
            /\ (0 <= q <= 100)%Q.
Proof.
  intros Hw Hi. apply inPercentRange_inv.
  destruct (computeMetrics_finite _ Hi) as (M1 & M2 & M3 & M4 & M5).
  now apply computeHealthScore_range_finite.
Qed.

End MoreHealthFacts.

(** X1.  For an input whose measurements are finite and non-negative,
    each of the five sub-scores [computeMetrics] returns lies in
    [0, 100]. *)
Theorem sub_scores_in_range :
  forall input : HealthMetricsInput,
    validInput input ->
    let m := IceHealthEngine.computeMetrics input in
    inPercentRange (buybackFrequency m)
    /\ inPercentRange (buybackCoverage m)
    /\ inPercentRange (liquidityDepth m)
    /\ inPercentRange (volatilityPenalty m)
    /\ inPercentRange (timeDecay m).
Proof.
  intros input (Hc & Hv & Hs & Hl & Hp & Ht0 & Ht1) m. subst m.
  cbn [IceHealthEngine.computeMetrics buybackFrequency buybackCoverage liquidityDepth
       volatilityPenalty timeDecay].
  split; [|split; [|split; [|split]]]; apply round2_range.
  - apply min100_range. apply mul_nonNegative; [|discriminate].
    apply div_nonNegative; [exact Hc | reflexivity].
  - apply min100_range. now apply coverage_nonNegative.
  - apply min100_range. apply mul_nonNegative; [|discriminate].
    apply div_nonNegative; [exact Hl | reflexivity].
  - now apply min100_range.
  - apply min_max_range.
    unfold IceHealthEngine.hoursSinceLastAction, IceHealthEngine.secondsSinceLastAction.
    auto 7 with finite.
Qed.

Lemma sub_scores_in_range_witness :
  validInput borderInput
  /\ inPercentRange (timeDecay (IceHealthEngine.computeMetrics borderInput)).
Proof.
  assert (V : validInput borderInput).
  { unfold validInput; simpl. repeat split; discriminate. }
  split; [exact V|].
  exact (proj2 (proj2 (proj2 (proj2 (sub_scores_in_range borderInput V))))).
Defined.

(** X2.  For finite weights, a valid input and a finite threshold [t]:
    a threshold of 0 or less makes every status ALIVE, a threshold above
    100 makes none ALIVE, and a status DEAD comes with a reported health
    of 0. *)
Theorem status_edges :
  forall (config : ProtocolConfig) (dateNow : Z) (input : HealthMetricsInput)
         (epochNumber : Z) (t : Q),
    finiteWeights (iceHealthWeights config) ->
    validInput input ->
    iceHealthThreshold config = Fin t ->
    let state := IceHealthEngine.computeHealth config dateNow input epochNumber in
    ((t <= 0)%Q -> status state = ALIVE)
    /\ ((100 < t)%Q -> status state <> ALIVE)
    /\ (status state = DEAD -> health state =~ Fin 0).
Proof.
  intros config dateNow input epochNumber t Hw Hi Ht state. subst state.
  destruct (score_of_valid_input config input Hw Hi) as (q & Eq & Hq0 & Hq1).
  unfold IceHealthEngine.computeHealth. cbn [status health].
  unfold IceHealthEngine.computeStatus. rewrite Eq, Ht.
  unfold ge, gt. cbn [le lt].
  repeat split.
  - intros Hle. assert (E : Qle_bool t q = true) by (apply Qle_bool_iff; lra).
    rewrite E. reflexivity.
  - intros Hgt. destruct (Qle_bool t q) eqn:E; [|destruct (negb _); discriminate].
    apply Qle_bool_iff in E. lra.
  - destruct (Qle_bool t q); [discriminate|].
    destruct (Qle_bool q 0) eqn:E; cbn [negb]; [|discriminate].
    intros _. apply Qle_bool_iff in E.
    assert (Z : (q == 0)%Q) by lra.
    rewrite round2_Fin. cbn [same]. rewrite Z. reflexivity.
Qed.

Lemma finiteWeights_mock : finiteWeights mockWeights.
Proof. repeat split. Qed.

Lemma status_edges_witness :
  status (IceHealthEngine.computeHealth (configWithThreshold (Fin 0)) 1700000000000
            borderInput 1) = ALIVE.
Proof.
  apply (status_edges (configWithThreshold (Fin 0)) 1700000000000 borderInput 1 0).
  - exact finiteWeights_mock.
  - unfold validInput; simpl. repeat split; discriminate.
  - reflexivity.
  - discriminate.
Defined.

Section ScoreMonotone.

Import IceHealthEngine.
Local Open Scope num_scope.

Lemma round2_mono (a b : Q) :
  (a <= b)%Q ->
  (inject_Z (Qfloor (a * 100 + (1 # 2))) / 100
   <= inject_Z (Qfloor (b * 100 + (1 # 2))) / 100)%Q.
Proof.
  intros H.
  assert (F : (Qfloor (a * 100 + (1 # 2)) <= Qfloor (b * 100 + (1 # 2)))%Z).
  { apply Qfloor_resp_le. lra. }
  rewrite Zle_Qle in F.
  apply Qle_shift_div_l; [reflexivity|].
  set (x := inject_Z (Qfloor (a * 100 + (1 # 2)))) in *.
  set (y := inject_Z (Qfloor (b * 100 + (1 # 2)))) in *.
  field_simplify (x / 100 * 100)%Q. lra.
Qed.

(** The score as a function of five finite sub-scores. *)
Lemma computeHealthScore_Fin (config : ProtocolConfig) (w1 w2 w3 w4 w5 m1 m2 m3 m4 m5 : Q) :
  iceHealthWeights config
  = {| Weights.buybackFrequency := Fin w1;
       Weights.buybackCoverage := Fin w2;
       Weights.liquidityDepth := Fin w3;
       Weights.volatilityPenalty := Fin w4;
       Weights.timeDecay := Fin w5 |} ->
  computeHealthScore config
    {| buybackFrequency := Fin m1;
       buybackCoverage := Fin m2;
       liquidityDepth := Fin m3;
       volatilityPenalty := Fin m4;
       timeDecay := Fin m5 |}
  = Fin (Qmax 0 (Qmin 100 (w1 * m1 + w2 * m2 + w3 * m3 - w4 * m4 - w5 * m5))).
Proof.
  intros Hw. unfold computeHealthScore. rewrite Hw. reflexivity.
Qed.

Lemma finiteWeights_inv (config : ProtocolConfig) :
  finiteWeights (iceHealthWeights config) ->
  exists w1 w2 w3 w4 w5,
    iceHealthWeights config
    = {| Weights.buybackFrequency := Fin w1;
         Weights.buybackCoverage := Fin w2;
         Weights.liquidityDepth := Fin w3;
         Weights.volatilityPenalty := Fin w4;
         Weights.timeDecay := Fin w5 |}.
Proof.
  destruct (iceHealthWeights config) as [a b c d e].
  intros (H1 & H2 & H3 & H4 & H5). simpl in *.
  destruct a, b, c, d, e; try contradiction. now do 5 eexists.
Qed.

Lemma clamp_mono (x y : Q) :
  (x <= y)%Q -> (Qmax 0 (Qmin 100 x) <= Qmax 0 (Qmin 100 y))%Q.
Proof.
  intros H. apply Q.max_le_compat_l. now apply Q.min_le_compat_l.
Qed.

End ScoreMonotone.

(** X3.  With finite weights and a valid input: if the weight of the time
    decay is not negative, a later current time never gives a higher
    score; if the weight of the liquidity depth is not negative, more
    liquidity never gives a lower score. *)
Theorem score_monotone :
  forall (config : ProtocolConfig) (input : HealthMetricsInput),
    finiteWeights (iceHealthWeights config) ->
    validInput input ->
    (nonNegative (Weights.timeDecay (iceHealthWeights config)) ->
     forall now1 now2 : Q,
       (now1 <= now2)%Q ->
       (IceHealthEngine.computeHealthScore config
          (IceHealthEngine.computeMetrics (atTime input (Fin now2)))
        <=? IceHealthEngine.computeHealthScore config
              (IceHealthEngine.computeMetrics (atTime input (Fin now1))))%num = true)
    /\ (nonNegative (Weights.liquidityDepth (iceHealthWeights config)) ->
        forall l1 l2 : Q,
          (l1 <= l2)%Q ->
          (IceHealthEngine.computeHealthScore config
             (IceHealthEngine.computeMetrics (withLiquidity input (Fin l1)))
           <=? IceHealthEngine.computeHealthScore config
                 (IceHealthEngine.computeMetrics (withLiquidity input (Fin l2))))%num
          = true).
Proof.
  intros config input Hw Hi.
  destruct (finiteWeights_inv config Hw) as (w1 & w2 & w3 & w4 & w5 & Ew).
  destruct (computeMetrics_finite _ Hi) as (M1 & M2 & M3 & M4 & M5).
  destruct (isFinite_inv _ M1) as [m1 E1]. destruct (isFinite_inv _ M2) as [m2 E2].
  destruct (isFinite_inv _ M3) as [m3 E3]. destruct (isFinite_inv _ M4) as [m4 E4].
  destruct (isFinite_inv _ M5) as [m5 E5].
  destruct Hi as (_ & _ & _ & _ & _ & Ht0 & _).
  destruct (isFinite_inv _ Ht0) as [l El].
  cbn [IceHealthEngine.computeMetrics buybackFrequency buybackCoverage liquidityDepth
       volatilityPenalty timeDecay] in E1, E2, E3, E4, E5.
  split.
  - intros Hn now1 now2 Hle. rewrite Ew in Hn. cbn in Hn.
    unfold IceHealthEngine.computeMetrics.
    change (IceHealthEngine.buybackFrequencyScore (atTime input ?x))
      with (IceHealthEngine.buybackFrequencyScore input).
    change (IceHealthEngine.buybackCoverageScore (atTime input ?x))
      with (IceHealthEngine.buybackCoverageScore input).
    change (IceHealthEngine.liquidityDepthScore (atTime input ?x))
      with (IceHealthEngine.liquidityDepthScore input).
    change (IceHealthEngine.volatilityPenaltyScore (atTime input ?x))
      with (IceHealthEngine.volatilityPenaltyScore input).
    rewrite E1, E2, E3, E4.
    unfold IceHealthEngine.timeDecayScore, IceHealthEngine.hoursSinceLastAction,
      IceHealthEngine.secondsSinceLastAction.
    cbn [atTime currentTimestampSeconds lastBuybackTimestampSeconds].
    rewrite El.
    change (Fin ?c - Fin l)%num with (Fin (c - l)).
    change (Fin ?c / Fin 3600)%num with (Fin (c / 3600)).
    change (Fin ?c / Fin 72)%num with (Fin (c / 72)).
    change (Fin ?c * Fin 100)%num with (Fin (c * 100)).
    cbn [Math.max Math.min]. rewrite !round2_Fin.
    rewrite !(computeHealthScore_Fin config w1 w2 w3 w4 w5) by exact Ew.
    cbn [le]. apply Qle_bool_iff. apply clamp_mono.
    assert (D : (Qmin 100 (Qmax 0 ((now1 - l) / 3600 / 72 * 100))
                 <= Qmin 100 (Qmax 0 ((now2 - l) / 3600 / 72 * 100)))%Q).
    { apply Q.min_le_compat_l, Q.max_le_compat_l.
      apply Qmult_le_compat_r; [|discriminate].
      apply Qmult_le_compat_r; [|discriminate].
      apply Qmult_le_compat_r; [|discriminate]. lra. }
    apply round2_mono in D.
    set (d1 := (inject_Z _ / 100)%Q) in *. set (d2 := (inject_Z _ / 100)%Q) in *.
    clearbody d1 d2. nra.
  - intros Hn l1 l2 Hle. rewrite Ew in Hn. cbn in Hn.
    unfold IceHealthEngine.computeMetrics.
    change (IceHealthEngine.buybackFrequencyScore (withLiquidity input ?x))
      with (IceHealthEngine.buybackFrequencyScore input).
    change (IceHealthEngine.buybackCoverageScore (withLiquidity input ?x))
      with (IceHealthEngine.buybackCoverageScore input).
    change (IceHealthEngine.timeDecayScore (withLiquidity input ?x))
      with (IceHealthEngine.timeDecayScore input).
    change (IceHealthEngine.volatilityPenaltyScore (withLiquidity input ?x))
      with (IceHealthEngine.volatilityPenaltyScore input).
    rewrite E1, E2, E4, E5.
    unfold IceHealthEngine.liquidityDepthScore.
    cbn [withLiquidity currentLiquidity].
    change (Fin ?c / Fin 50)%num with (Fin (c / 50)).
    change (Fin ?c * Fin 100)%num with (Fin (c * 100)).
    cbn [Math.min]. rewrite !round2_Fin.
    rewrite !(computeHealthScore_Fin config w1 w2 w3 w4 w5) by exact Ew.
    cbn [le]. apply Qle_bool_iff. apply clamp_mono.
    assert (D : (Qmin 100 (l1 / 50 * 100) <= Qmin 100 (l2 / 50 * 100))%Q).
    { apply Q.min_le_compat_l.
      apply Qmult_le_compat_r; [|discriminate].
      apply Qmult_le_compat_r; [|discriminate]. exact Hle. }
    apply round2_mono in D.
    set (d1 := (inject_Z _ / 100)%Q) in *. set (d2 := (inject_Z _ / 100)%Q) in *.
    clearbody d1 d2. nra.
Qed.

Lemma validInput_border : validInput borderInput.
Proof. unfold validInput; simpl. repeat split; discriminate. Qed.

Lemma score_monotone_witness :
  (IceHealthEngine.computeHealthScore mockConfig
     (IceHealthEngine.computeMetrics (atTime borderInput (Fin 1700090000)))
   <=? IceHealthEngine.computeHealthScore mockConfig
         (IceHealthEngine.computeMetrics (atTime borderInput (Fin 1700000000))))%num = true
  /\ (IceHealthEngine.computeHealthScore mockConfig
        (IceHealthEngine.computeMetrics (withLiquidity borderInput (Fin 1)))
      <=? IceHealthEngine.computeHealthScore mockConfig
            (IceHealthEngine.computeMetrics (withLiquidity borderInput (Fin 30))))%num = true.
Proof.
  destruct (score_monotone mockConfig borderInput finiteWeights_mock validInput_border)
    as [T L].
  split.
  - apply T; [simpl | ]; discriminate.
  - apply L; [simpl | ]; discriminate.
Defined.

(** X4.  [estimateTimeToThreshold] answers 0 for a state that is MELTING
    or DEAD (never [null]).  For an ALIVE state with finite health [h] and
    threshold [t] it answers a whole number [m] of minutes less than two
    away from [(h - t) * 240], with [m - 2 < (h - t) * 240 < m + 1]; [m]
    is not negative when [t <= h], not positive when [h <= t] (so 0 at
    the threshold), and a higher health never gives a shorter estimate. *)
Theorem estimate_minutes :
  forall (config : ProtocolConfig) (state : IceHealthState) (currentTimestamp : num),
    (status state <> ALIVE ->
     IceHealthEngine.estimateTimeToThreshold config state currentTimestamp
     = Some (Fin 0))
    /\ (forall h t : Q,
          status state = ALIVE ->
          health state = Fin h ->
          iceHealthThreshold config = Fin t ->
          exists m : Z,
            IceHealthEngine.estimateTimeToThreshold config state currentTimestamp
            = Some (ofZ m)
            /\ (inject_Z m - 2 < (h - t) * 240 < inject_Z m + 1)%Q
            /\ ((t <= h)%Q -> (0 <= m)%Z)
            /\ ((h <= t)%Q -> (m <= 0)%Z)
            /\ (forall (higher : IceHealthState) (otherTimestamp : num) (h' : Q),
                  status higher = ALIVE ->
                  health higher = Fin h' ->
                  (h <= h')%Q ->
                  exists m' : Z,
                    IceHealthEngine.estimateTimeToThreshold config higher otherTimestamp
                    = Some (ofZ m')
                    /\ (m <= m')%Z)).
Proof.
  intros config state currentTimestamp. split.
  - unfold IceHealthEngine.estimateTimeToThreshold.
    destruct (status state); [congruence | reflexivity | reflexivity].
  - intros h t Hs Hh Ht.
    unfold IceHealthEngine.estimateTimeToThreshold. rewrite Hs, Hh, Ht.
    exists (Qceiling ((h - t) / 0.25 * 60)). split; [reflexivity|].
    assert (E : ((h - t) / 0.25 * 60 == (h - t) * 240)%Q) by field.
    pose proof (Qle_ceiling ((h - t) / 0.25 * 60)) as U.
    pose proof (Qceiling_lt ((h - t) / 0.25 * 60)) as L.
    assert (S1 : (inject_Z (Qceiling ((h - t) / 0.25 * 60) - 1)
                  == inject_Z (Qceiling ((h - t) / 0.25 * 60)) - 1)%Q).
    { unfold Z.sub. rewrite inject_Z_plus. reflexivity. }
    split; [|split; [|split]].
    + set (x := ((h - t) / 0.25 * 60)%Q) in *.
      set (c := inject_Z (Qceiling x)) in *.
      set (c1 := inject_Z (Qceiling x - 1)) in *. clearbody c c1 x. lra.
    + intros Hle. change 0%Z with (Qceiling 0). apply Qceiling_resp_le. lra.
    + intros Hle. change 0%Z with (Qceiling 0). apply Qceiling_resp_le. lra.
    + intros higher otherTimestamp h' Hs' Hh' Hle. rewrite Hs', Hh'.
      exists (Qceiling ((h' - t) / 0.25 * 60)). split; [reflexivity|].
      apply Qceiling_resp_le.
      assert (E' : ((h' - t) / 0.25 * 60 == (h' - t) * 240)%Q) by field.
      lra.
Qed.

(** The test configuration (threshold 50) at a health of 60, and 72.5
    for the higher health. *)
Lemma estimate_minutes_witness :
  IceHealthEngine.estimateTimeToThreshold mockConfig (healthState (Fin 40) MELTING) (Fin 0)
  = Some (Fin 0)
  /\ exists m : Z,
       IceHealthEngine.estimateTimeToThreshold mockConfig (healthState (Fin 60) ALIVE) (Fin 0)
       = Some (ofZ m)
       /\ (inject_Z m - 2 < (60 - 50) * 240 < inject_Z m + 1)%Q
       /\ (0 <= m)%Z
       /\ exists m' : Z,
            IceHealthEngine.estimateTimeToThreshold mockConfig
              (healthState (Fin 72.5) ALIVE) (Fin 1)
            = Some (ofZ m')
            /\ (m <= m')%Z.
Proof.
  split.
  - apply (estimate_minutes mockConfig (healthState (Fin 40) MELTING) (Fin 0)).
    discriminate.
  - destruct (proj2 (estimate_minutes mockConfig (healthState (Fin 60) ALIVE) (Fin 0))
                60 50 eq_refl eq_refl eq_refl)%Q
      as (m & E & B & P & _ & M).
    exists m. split; [exact E|]. split; [exact B|]. split.
    + apply P. discriminate.
    + apply (M (healthState (Fin 72.5) ALIVE) (Fin 1) 72.5%Q); try reflexivity.
      discriminate.
Defined.

Section EstimateOfComputed.

Import IceHealthEngine.
Local Open Scope num_scope.

(** Rounding to two decimals takes away at most 0.005. *)
Lemma round2_lower (q : Q) :
  (q - (1 # 200) <= inject_Z (Qfloor (q * 100 + (1 # 2))) / 100)%Q.
Proof.
  pose proof (Qlt_floor (q * 100 + (1 # 2))) as L.
  assert (S1 : (inject_Z (Qfloor (q * 100 + (1 # 2)) + 1)
                == inject_Z (Qfloor (q * 100 + (1 # 2))) + 1)%Q).
  { rewrite inject_Z_plus. reflexivity. }
  rewrite S1 in L.
  set (z := inject_Z (Qfloor (q * 100 + (1 # 2)))) in *. clearbody z.
  apply Qle_shift_div_l; [reflexivity | lra].
Qed.

End EstimateOfComputed.

(** X5.  For a state [computeHealth] built (finite weights, valid input,
    finite threshold) that is ALIVE, the estimate is a whole number of
    minutes not below -1: the reported health is the rounded score, and
    rounding can put it up to 0.005 under the threshold the unrounded
    score has met. *)
Theorem estimate_of_computed_state :
  forall (config : ProtocolConfig) (dateNow : Z) (input : HealthMetricsInput)
         (epochNumber : Z) (t : Q) (currentTimestamp : num),
    finiteWeights (iceHealthWeights config) ->
    validInput input ->
    iceHealthThreshold config = Fin t ->
    let state := IceHealthEngine.computeHealth config dateNow input epochNumber in
    status state = ALIVE ->
    exists m : Z,
      IceHealthEngine.estimateTimeToThreshold config state currentTimestamp = Some (ofZ m)
      /\ (-1 <= m)%Z.
Proof.
  intros config dateNow input epochNumber t currentTimestamp Hw Hi Ht state Hs.
  destruct (score_of_valid_input config input Hw Hi) as (q & Eq & Hq0 & Hq1).
  assert (Hh : health state = Fin (inject_Z (Qfloor (q * 100 + (1 # 2))) / 100)).
  { subst state. unfold IceHealthEngine.computeHealth. cbn [health].
    rewrite Eq. apply round2_Fin. }
  assert (Hge : (t <= q)%Q).
  { subst state. unfold IceHealthEngine.computeHealth in Hs. cbn [status] in Hs.
    unfold IceHealthEngine.computeStatus in Hs. rewrite Eq, Ht in Hs.
    unfold ge, gt in Hs. cbn [le lt] in Hs.
    destruct (Qle_bool t q) eqn:E.
    - now apply Qle_bool_iff.
    - destruct (negb (Qle_bool q 0)); discriminate Hs. }
  pose proof (round2_lower q) as R.
  set (h := (inject_Z (Qfloor (q * 100 + (1 # 2))) / 100)%Q) in *.
  exists (Qceiling ((h - t) / 0.25 * 60)). split.
  - unfold IceHealthEngine.estimateTimeToThreshold. rewrite Hs, Hh, Ht. reflexivity.
  - pose proof (Qle_ceiling ((h - t) / 0.25 * 60)) as U.
    assert (E : ((h - t) / 0.25 * 60 == (h - t) * 240)%Q) by field.
    set (m := Qceiling ((h - t) / 0.25 * 60)) in *.
    assert (B : (inject_Z (-2) < inject_Z m)%Q).
    { change (inject_Z (-2)) with (-2)%Q.
      set (x := ((h - t) / 0.25 * 60)%Q) in *. clearbody m x h. lra. }
    rewrite <- Zlt_Qlt in B. lia.
Qed.

Lemma estimate_of_computed_state_witness :
  exists m : Z,
    IceHealthEngine.estimateTimeToThreshold mockConfig
      (IceHealthEngine.computeHealth mockConfig 1700000000000 borderInput 1) (Fin 0)
    = Some (ofZ m)
    /\ (-1 <= m)%Z.
Proof.
  apply (estimate_of_computed_state mockConfig 1700000000000 borderInput 1 50 (Fin 0)).
  - exact finiteWeights_mock.
  - exact validInput_border.
  - reflexivity.
  - reflexivity.
Defined.

(** ** Allocation strategies: bands, signs, ratios *)

Section MoreAllocationFacts.

Local Open Scope num_scope.

Lemma adaptedBuybackPct_finite (iceHealth : IceHealthState) (config : AllocationConfig)
  (b : Q) :
  buybackPct config = Fin b ->
  exists p,
    AdaptiveAllocationStrategy.adaptedBuybackPct iceHealth config = Fin p
    /\ (p == 85 \/ p == 80 \/ p == b \/ p == 50)%Q.
Proof.
  intros Eb.
  destruct (adaptedBuybackPct_cases iceHealth config) as [E|[E|[E|E]]];
    simpl in E; rewrite E; rewrite ?Eb; eexists; split; try reflexivity.
  - left. reflexivity.
  - right; left. reflexivity.
  - right; right; left. reflexivity.
  - right; right; right. reflexivity.
Qed.

Lemma nonNegativeConfig_inv (c : AllocationConfig) :
  nonNegativeConfig c ->
  exists b l u k,
    buybackPct c = Fin b /\ lpPct c = Fin l /\ burnPct c = Fin u /\ coolingPct c = Fin k
    /\ (0 <= b /\ 0 <= l /\ 0 <= u /\ 0 <= k)%Q.
Proof.
  intros (Hb & Hl & Hu & Hk).
  destruct (nonNegative_inv _ Hb) as (b & Eb & Pb).
  destruct (nonNegative_inv _ Hl) as (l & El & Pl).
  destruct (nonNegative_inv _ Hu) as (u & Eu & Pu).
  destruct (nonNegative_inv _ Hk) as (k & Ek & Pk).
  exists b, l, u, k. auto 10.
Qed.

(** One adapted amount is not negative. *)
Lemma adapted_amount_nonNegative (f x b p : Q) :
  (0 <= f)%Q -> (0 <= x)%Q -> (b < 100)%Q -> (p <= 100)%Q ->
  (0 <= f * (x / (100 - b) * (100 - p)) / 100)%Q.
Proof.
  intros Hf Hx Hb Hp.
  apply Qle_shift_div_l; [reflexivity|].
  setoid_replace (0 * 100)%Q with 0%Q by ring.
  apply Qmult_le_0_compat; [exact Hf|].
  apply Qmult_le_0_compat; [|lra].
  apply Qle_shift_div_l; lra.
Qed.

Lemma amount_nonNegative (f x : Q) :
  (0 <= f)%Q -> (0 <= x)%Q -> (0 <= f * x / 100)%Q.
Proof.
  intros Hf Hx. apply Qle_shift_div_l; [reflexivity|].
  setoid_replace (0 * 100)%Q with 0%Q by ring.
  now apply Qmult_le_0_compat.
Qed.

End MoreAllocationFacts.

(** X6.  For a health score in the band from 50 (included) to 70
    (excluded) and base percentages that add up to 100 with a buyback
    percentage other than 100, the adaptive strategy allocates what the
    fixed strategy allocates. *)
Theorem adaptive_medium_is_fixed :
  forall (f h : Q) (iceHealth : IceHealthState) (config : AllocationConfig),
    validAllocationConfig config ->
    ~ buybackPct config =~ Fin 100 ->
    health iceHealth = Fin h ->
    (50 <= h < 70)%Q ->
    let a := allocations (AdaptiveAllocationStrategy.allocate (Fin f) iceHealth config) in
    let b := allocations (FixedAllocationStrategy.allocate (Fin f) iceHealth config) in
    buyback a =~ buyback b /\ lp a =~ lp b /\ burn a =~ burn b /\ cooling a =~ cooling b.
Proof.
  intros f h iceHealth config Hv Hn Hh [H50 H70] a b. subst a b.
  destruct (validAllocationConfig_inv _ Hv) as (pb & l & u & k & Eb & El & Eu & Ek & Hsum).
  rewrite Eb in Hn. simpl in Hn.
  assert (Hnz : ~ (100 - pb == 0)%Q) by (intros Hz; apply Hn; lra).
  assert (Ep : AdaptiveAllocationStrategy.adaptedBuybackPct iceHealth config = Fin pb).
  { unfold AdaptiveAllocationStrategy.adaptedBuybackPct. rewrite Hh, Eb.
    assert (L30 : (Fin h <? Fin 30)%num = false).
    { destruct (Fin h <? Fin 30)%num eqn:E; [|reflexivity]. apply lt_Fin in E. lra. }
    assert (L50 : (Fin h <? Fin 50)%num = false).
    { destruct (Fin h <? Fin 50)%num eqn:E; [|reflexivity]. apply lt_Fin in E. lra. }
    assert (L70 : (Fin h <? Fin 70)%num = true) by (apply lt_Fin; lra).
    cbv zeta. rewrite L30, L50, L70. reflexivity. }
  unfold AdaptiveAllocationStrategy.allocate, AdaptiveAllocationStrategy.adaptedConfig,
    FixedAllocationStrategy.allocate.
  cbn [allocations buyback lp burn cooling buybackPct lpPct burnPct coolingPct].
  rewrite Ep, Eb, El, Eu, Ek.
  rewrite !sub_Fin, !(div_Fin _ _ Hnz), !mul_Fin, !div_100.
  cbn [same]. repeat split; try reflexivity; field; exact Hnz.
Qed.

Lemma adaptive_medium_is_fixed_witness :
  let a := allocations
             (AdaptiveAllocationStrategy.allocate (Fin 3) (healthState (Fin 60) ALIVE)
                mockAllocationConfig) in
  let b := allocations
             (FixedAllocationStrategy.allocate (Fin 3) (healthState (Fin 60) ALIVE)
                mockAllocationConfig) in
  buyback a =~ buyback b /\ lp a =~ lp b /\ burn a =~ burn b /\ cooling a =~ cooling b.
Proof.
  apply (adaptive_medium_is_fixed 3 60 (healthState (Fin 60) ALIVE) mockAllocationConfig).
  - reflexivity.
  - intros E. vm_compute in E. discriminate E.
  - reflexivity.
  - split; [discriminate | reflexivity].
Defined.

(** X7.  For a non-negative fee amount and percentages that are not
    negative, the four amounts of the fixed strategy are not negative;
    with a base buyback percentage below 100 neither are those of the
    adaptive strategy, whatever the health. *)
Theorem allocations_non_negative :
  forall (feeAmount : num) (iceHealth : IceHealthState) (config : AllocationConfig),
    nonNegative feeAmount ->
    nonNegativeConfig config ->
    (let a := allocations (FixedAllocationStrategy.allocate feeAmount iceHealth config) in
     nonNegative (buyback a) /\ nonNegative (lp a) /\ nonNegative (burn a)
     /\ nonNegative (cooling a))
    /\ ((buybackPct config <? Fin 100)%num = true ->
        let a := allocations
                   (AdaptiveAllocationStrategy.allocate feeAmount iceHealth config) in
        nonNegative (buyback a) /\ nonNegative (lp a) /\ nonNegative (burn a)
        /\ nonNegative (cooling a)).
Proof.
  intros feeAmount iceHealth config Hf Hc.
  destruct (nonNegative_inv _ Hf) as (f & -> & Pf).
  destruct (nonNegativeConfig_inv _ Hc) as (b & l & u & k & Eb & El & Eu & Ek & Pb & Pl & Pu & Pk).
  split.
  - unfold FixedAllocationStrategy.allocate.
    cbn [allocations buyback lp burn cooling].
    rewrite Eb, El, Eu, Ek. rewrite !mul_Fin, !div_100. cbn [nonNegative].
    repeat split; now apply amount_nonNegative.
  - intros Hlt. rewrite Eb in Hlt. apply lt_Fin in Hlt.
    assert (Hnz : ~ (100 - b == 0)%Q) by (intros Hz; lra).
    destruct (adaptedBuybackPct_finite iceHealth config b Eb) as (p & Ep & Hp).
    assert (P0 : (0 <= p <= 100)%Q) by (destruct Hp as [E|[E|[E|E]]]; rewrite E; lra).
    unfold AdaptiveAllocationStrategy.allocate, AdaptiveAllocationStrategy.adaptedConfig.
    cbn [allocations buyback lp burn cooling buybackPct lpPct burnPct coolingPct].
    rewrite Ep, Eb, El, Eu, Ek.
    rewrite !sub_Fin, !(div_Fin _ _ Hnz), !mul_Fin, !div_100. cbn [nonNegative].
    destruct P0 as [P0 P1].
    repeat split;
      first [ now apply amount_nonNegative | now apply adapted_amount_nonNegative ].
Qed.

Lemma nonNegativeConfig_mock : nonNegativeConfig mockAllocationConfig.
Proof. unfold nonNegativeConfig; simpl. repeat split; discriminate. Qed.

Lemma allocations_non_negative_witness :
  let a := allocations
             (AdaptiveAllocationStrategy.allocate (Fin 3) (healthState (Fin 20) MELTING)
                mockAllocationConfig) in
  nonNegative (buyback a) /\ nonNegative (lp a) /\ nonNegative (burn a)
  /\ nonNegative (cooling a).
Proof.
  destruct (allocations_non_negative (Fin 3) (healthState (Fin 20) MELTING)
              mockAllocationConfig) as [_ H].
  - simpl. discriminate.
  - exact nonNegativeConfig_mock.
  - apply H. reflexivity.
Defined.

(** X8.  Whatever the health and the finite fee amount, the adaptive
    strategy keeps the base proportions among lp, burn and cooling (for
    finite base percentages with a buyback percentage other than 100). *)
Theorem adaptive_keeps_proportions :
  forall (f b l u k : Q) (iceHealth : IceHealthState) (config : AllocationConfig),
    buybackPct config = Fin b -> lpPct config = Fin l ->
    burnPct config = Fin u -> coolingPct config = Fin k ->
    ~ (b == 100)%Q ->
    let a := allocations (AdaptiveAllocationStrategy.allocate (Fin f) iceHealth config) in
    (lp a * Fin u =~ burn a * Fin l)%num
    /\ (lp a * Fin k =~ cooling a * Fin l)%num
    /\ (burn a * Fin k =~ cooling a * Fin u)%num.
Proof.
  intros f b l u k iceHealth config Eb El Eu Ek Hb a. subst a.
  assert (Hnz : ~ (100 - b == 0)%Q) by (intros Hz; apply Hb; lra).
  destruct (adaptedBuybackPct_finite iceHealth config b Eb) as (p & Ep & _).
  unfold AdaptiveAllocationStrategy.allocate, AdaptiveAllocationStrategy.adaptedConfig.
  cbn [allocations buyback lp burn cooling buybackPct lpPct burnPct coolingPct].
  rewrite Ep, Eb, El, Eu, Ek.
  rewrite !sub_Fin, !(div_Fin _ _ Hnz), !mul_Fin, !div_100, !mul_Fin.
  cbn [same]. repeat split; field; exact Hnz.
Qed.

Lemma adaptive_keeps_proportions_witness :
  let a := allocations
             (AdaptiveAllocationStrategy.allocate (Fin 3) (healthState (Fin 80) ALIVE)
                mockAllocationConfig) in
  (lp a * Fin 5 =~ burn a * Fin 20)%num.
Proof.
  apply (adaptive_keeps_proportions 3 70 20 5 5 (healthState (Fin 80) ALIVE)
           mockAllocationConfig); try reflexivity.
  intros E. vm_compute in E. discriminate E.
Defined.

(** ** Executor: actions *)

(** X9.  [executeBuyback] always returns an action of type buyback for
    the amount asked, executed or failed.  It is executed exactly when
    the quote came, its price impact was not above the ceiling and the
    swap came back, and then it carries the signature of the swap.  A
    quote above the ceiling gives a failed action with the price-impact
    error, whatever the swap would have done. *)
Theorem buyback_outcome :
  forall (this : Executor.t) (world : World) (solAmount : num),
    let quoted := dryRun world Executor.getWrappedSolMint
                    (iceTokenMint (Executor.config this)) solAmount
                    (maxSlippageBps (Executor.config this)) in
    let swapped := swap world Executor.getWrappedSolMint
                     (iceTokenMint (Executor.config this)) solAmount
                     (maxSlippageBps (Executor.config this)) in
    let ceiling := maxPriceImpactBps (Executor.config this) in
    exists action,
      Executor.executeBuyback this world solAmount = Normal action
      /\ action_type action = Buyback
      /\ amountSol action = solAmount
      /\ (action_status action = Executed
          <-> exists quote result,
                quoted = Normal quote
                /\ (Quote.priceImpactBps quote >? ceiling)%num = false
                /\ swapped = Normal result
                /\ signature action = Some (SwapResult.signature result))
      /\ (action_status action <> Executed ->
          action_status action = Failed /\ signature action = None
          /\ error action <> None)
      /\ (forall quote,
            quoted = Normal quote ->
            (Quote.priceImpactBps quote >? ceiling)%num = true ->
            action
            = Executor.failed (Executor.pendingAction Buyback solAmount)
                (PriceImpactTooHigh (Quote.priceImpactBps quote) ceiling)).
Proof.
  intros this world solAmount quoted swapped ceiling.
  unfold Executor.executeBuyback, catchC, bindC.
  fold quoted. fold swapped. fold ceiling.
  destruct quoted as [quote|e1] eqn:Eq;
    [destruct (Quote.priceImpactBps quote >? ceiling)%num eqn:Ei;
       [|destruct swapped as [result|e2] eqn:Es]|];
    (eexists; split; [reflexivity|]);
    cbn [Executor.failed Executor.executed Executor.pendingAction action_type amountSol
         action_status signature error];
    (split; [reflexivity|]); (split; [reflexivity|]);
    (split; [split|split]).
  all: try discriminate.
  all: try (intros (q & r & Hq & Hi & Hr & Hs);
            first [discriminate Hq | discriminate Hr
                  | inversion Hq; subst; congruence]).
  all: try (intros q Hq Hi; inversion Hq; subst; first [reflexivity | congruence]).
  all: try (intros _; exists quote, result; repeat split; assumption).
  all: try (intros _; repeat split; discriminate).
  all: try (intros N; exfalso; apply N; reflexivity).
Qed.

Lemma buyback_outcome_witness :
  exists action,
    Executor.executeBuyback (Executor.make (mockConfigIn Live)) calmWorld (Fin 2)
    = Normal action
    /\ action_status action = Executed
    /\ signature action = Some "mock-signature"%string.
Proof.
  destruct (buyback_outcome (Executor.make (mockConfigIn Live)) calmWorld (Fin 2))
    as (action & E & _ & _ & [_ X] & _).
  exists action. split; [exact E|].
  assert (H : action_status action = Executed).
  { apply X. exists (mockQuote (Fin 2)), (mockSwapResult (Fin 2)).
    repeat split. vm_compute in E. inversion E. reflexivity. }
  split; [exact H|].
  vm_compute in E. inversion E. reflexivity.
Defined.

Section ActionFacts.

Variable this : Executor.t.
Variable world : World.

Local Open Scope num_scope.

Lemma executeBuyback_signed (solAmount : num) :
  exists action,
    Executor.executeBuyback this world solAmount = Normal action
    /\ action_type action = Buyback /\ amountSol action = solAmount
    /\ action_status action <> Pending
    /\ (signature action <> None -> action_status action = Executed).
Proof.
  unfold Executor.executeBuyback, catchC, bindC.
  destruct (dryRun world _ _ _ _) as [quote|e];
    [destruct (Quote.priceImpactBps quote >? maxPriceImpactBps (Executor.config this));
       [|destruct (swap world _ _ _ _) as [result|e]]|];
    eexists; (split; [reflexivity|]); cbn; repeat split; try discriminate;
    intros N; exfalso; apply N; reflexivity.
Qed.

(** What [executeActions] assigns to [allocation.actions], written out. *)
Lemma executeActions_list (allocation : EpochAllocation) (s : Store)
  (buybackAction : AllocationAction) :
  Executor.executeBuyback this world (buyback (allocations allocation))
  = Normal buybackAction ->
  Executor.executeActions this world allocation s
  = (Normal
       (Executor.setActions allocation
          ((((if buyback (allocations allocation) >? Fin 0 then [buybackAction] else [])
             ++ (if lp (allocations allocation) >? Fin 0
                 then [Executor.failed (Executor.pendingAction AddLp
                                          (lp (allocations allocation)))
                         (ErrorMessage "Not yet implemented")]
                 else []))
            ++ (if burn (allocations allocation) >? Fin 0
                then [Executor.failed (Executor.pendingAction Burn
                                         (burn (allocations allocation)))
                        (ErrorMessage "Not yet implemented")]
                else []))
           ++ (if cooling (allocations allocation) >? Fin 0
               then [Executor.executed (Executor.pendingAction CoolingEvent
                                          (cooling (allocations allocation))) None]
               else []))),
     s).
Proof.
  intros Eb.
  unfold Executor.executeActions, Executor.pushIfPositive, bind, await, ret.
  rewrite Eb.
  unfold Executor.executeAddLP, Executor.executeBurn, Executor.executeCooling, catchC.
  destruct (buyback (allocations allocation) >? Fin 0);
    destruct (lp (allocations allocation) >? Fin 0);
    destruct (burn (allocations allocation) >? Fin 0);
    destruct (cooling (allocations allocation) >? Fin 0); reflexivity.
Qed.

End ActionFacts.

(** X10.  [executeActions] leaves the store alone and records one action
    for each category whose amount is above 0, in the order buyback,
    add-lp, burn, cooling.  Each action has the amount of its category
    and is no longer pending; add-lp and burn actions are failed with
    "Not yet implemented", a cooling action is executed, and only an
    executed buyback carries a signature. *)
Theorem actions_follow_amounts :
  forall (this : Executor.t) (world : World) (allocation : EpochAllocation) (s : Store),
    exists recorded,
      Executor.executeActions this world allocation s
      = (Normal (Executor.setActions allocation recorded), s)
      /\ map action_type recorded
         = filter (fun t => (amountOf (allocations allocation) t >? Fin 0)%num) actionOrder
      /\ Forall (fun x =>
           amountSol x = amountOf (allocations allocation) (action_type x)
           /\ action_status x <> Pending
           /\ (action_type x = AddLp \/ action_type x = Burn ->
               action_status x = Failed
               /\ error x = Some (ErrorMessage "Not yet implemented"))
           /\ (action_type x = CoolingEvent -> action_status x = Executed)
           /\ (signature x <> None ->
               action_type x = Buyback /\ action_status x = Executed)) recorded.
Proof.
  intros this world allocation s.
  destruct (executeBuyback_signed this world (buyback (allocations allocation)))
    as (ab & Eb & Tb & Ab & Pb1 & Pb2).
  rewrite (executeActions_list this world allocation s ab Eb).
  eexists. split; [reflexivity|].
  unfold actionOrder. cbn [filter amountOf].
  destruct (buyback (allocations allocation) >? Fin 0)%num;
    destruct (lp (allocations allocation) >? Fin 0)%num;
    destruct (burn (allocations allocation) >? Fin 0)%num;
    destruct (cooling (allocations allocation) >? Fin 0)%num;
    cbn [app map Executor.failed Executor.executed Executor.pendingAction action_type];
    rewrite ?Tb;
    (split; [reflexivity|]);
    repeat (apply Forall_cons; [|]); try apply Forall_nil;
    cbn [Executor.failed Executor.executed Executor.pendingAction action_type amountSol
         action_status signature error amountOf];
    rewrite ?Tb; cbn [amountOf];
    repeat split; try discriminate; try congruence; try tauto;
    try (intros [E|E]; discriminate E);
    try match goal with H : _ \/ _ |- _ => destruct H; discriminate end;
    auto.
Qed.

(** ** Executor: epochs *)

Section MoreEpochFacts.

Variable this : Executor.t.

Local Open Scope num_scope.

(** An epoch that meets the breaker or the minimum interval. *)
Lemma stopped_epoch (world : World) (iceHealth : IceHealthState) (s : Store) :
  circuitBreakerActive (executorState s) = true
  \/ (ofZ (dateNow world / 1000 - lastExecutionTime (executorState s))
        <? minIntervalSeconds (executor (Executor.config this))) = true ->
  Executor.executeEpoch this world iceHealth s = (Normal None, bumpEpoch s).
Proof.
  intros H.
  destruct (executeEpoch_outcome this world iceHealth s) as (r & s' & E & O).
  rewrite E. destruct O; try reflexivity; exfalso; destruct H; congruence.
Qed.

(** An epoch that gets as far as the balance and finds it too low. *)
Lemma low_balance_epoch (world : World) (iceHealth : IceHealthState) (s : Store) :
  circuitBreakerActive (executorState s) = false ->
  lowBalanceTick this (lastExecutionTime (executorState s)) (world, iceHealth) ->
  Executor.executeEpoch this world iceHealth s
  = (Normal None, countFailure this (bumpEpoch s)).
Proof.
  intros Hb [Hr Hl]. cbn [fst] in Hr, Hl.
  destruct (executeEpoch_outcome this world iceHealth s) as (r & s' & E & O).
  rewrite E. destruct O; try reflexivity; exfalso; congruence.
Qed.

Lemma ge_ofZ (a b : Z) : (ofZ a >=? ofZ b) = true <-> (b <= a)%Z.
Proof.
  unfold ge, ofZ. cbn [le]. rewrite Qle_bool_iff, <- Zle_Qle. reflexivity.
Qed.

End MoreEpochFacts.

(** X11.  What an epoch leaves behind follows from what it returns.  If it
    returns an allocation, the collected fees are 0, the last execution
    time is the time of the epoch, the failure counter is 0 and the
    breaker is off, and the fees were at least 0.01 before.  If it
    returns [null], the collected fees and the last execution time are
    what they were.  The other fields of the fee tracker are never
    written. *)
Theorem epoch_settlement :
  forall (this : Executor.t) (world : World) (iceHealth : IceHealthState) (s : Store),
    let r := fst (Executor.executeEpoch this world iceHealth s) in
    let s' := snd (Executor.executeEpoch this world iceHealth s) in
    (forall allocation,
        r = Normal (Some allocation) ->
        totalFeesCollected (feeTracker s') = Fin 0
        /\ lastExecutionTime (executorState s') = (dateNow world / 1000)%Z
        /\ consecutiveFailures (executorState s') = 0%Z
        /\ circuitBreakerActive (executorState s') = false
        /\ (totalFeesCollected (feeTracker s) <? Fin 0.01)%num = false)
    /\ (r = Normal None ->
        totalFeesCollected (feeTracker s') = totalFeesCollected (feeTracker s)
        /\ lastExecutionTime (executorState s') = lastExecutionTime (executorState s))
    /\ (lastProcessedSignature (feeTracker s') = lastProcessedSignature (feeTracker s)
        /\ lastProcessedTimestamp (feeTracker s') = lastProcessedTimestamp (feeTracker s)
        /\ events (feeTracker s') = events (feeTracker s)).
Proof.
  intros this world iceHealth s r s'. subst r s'.
  destruct (executeEpoch_outcome this world iceHealth s) as (r & s' & E & O).
  rewrite E. cbn [fst snd]. clear E.
  destruct O; (split; [intros a Ha | split; [intros Hn|]]);
    try discriminate; repeat split; auto.
Qed.

Lemma epoch_settlement_witness :
  let run := Executor.executeEpoch (Executor.make mockConfig) calmWorld
               (healthState (Fin 60) ALIVE) (storeWith 2 false (Fin 1)) in
  totalFeesCollected (feeTracker (snd run)) = Fin 0
  /\ lastExecutionTime (executorState (snd run)) = 1700000000%Z
  /\ consecutiveFailures (executorState (snd run)) = 0%Z.
Proof.
  intros run.
  destruct (epoch_settlement (Executor.make mockConfig) calmWorld
              (healthState (Fin 60) ALIVE) (storeWith 2 false (Fin 1))) as [H _].
  destruct (H (AdaptiveAllocationStrategy.allocate (Fin 1) (healthState (Fin 60) ALIVE)
                 mockAllocationConfig)) as (F & L & C & _).
  - reflexivity.
  - subst run. auto.
Defined.

(** X12.  With an executor built by the constructor (fixed or adaptive
    strategy), an allocation returned by an epoch is for all the fees
    collected before it, with the amounts the strategy computes; in
    dry-run mode it carries no action. *)
Theorem epoch_claims_all_fees :
  forall (config : ProtocolConfig) (world : World) (iceHealth : IceHealthState)
         (s : Store) (allocation : EpochAllocation),
    fst (Executor.executeEpoch (Executor.make config) world iceHealth s)
    = Normal (Some allocation) ->
    totalFeesToAllocate allocation = totalFeesCollected (feeTracker s)
    /\ allocations allocation
       = match allocationMode config with
         | Adaptive =>
             allocations
               (AdaptiveAllocationStrategy.allocate (totalFeesCollected (feeTracker s))
                  iceHealth (allocationConfig config))
         | Fixed =>
             allocations
               (FixedAllocationStrategy.allocate (totalFeesCollected (feeTracker s))
                  iceHealth (allocationConfig config))
         end
    /\ (mode (executor config) = DryRun -> actions allocation = []).
Proof.
  intros config world iceHealth s allocation.
  destruct (executeEpoch_outcome (Executor.make config) world iceHealth s)
    as (r & s' & E & O).
  rewrite E. cbn [fst]. clear E. intros Hr.
  destruct O as [Hb|Hb Hr'|Hb Hr' Hl|Hb Hr' Hl Hd|e Hb Hr' Hl Hd Ha
                |made actions' Hb Hr' Hl Hd Ha Hm]; try discriminate.
  inversion Hr; subst allocation. clear Hr.
  cbn [Executor.make Executor.allocationStrategy Executor.config] in Ha, Hm.
  destruct (allocationMode config); cbn [allocate adaptiveStrategy fixedStrategy] in Ha;
    inversion Ha; subst made; cbn; repeat split; auto.
Qed.

Lemma epoch_claims_all_fees_witness :
  totalFeesToAllocate
    (AdaptiveAllocationStrategy.allocate (Fin 1) (healthState (Fin 60) ALIVE)
       mockAllocationConfig)
  = totalFeesCollected (feeTracker (storeWith 2 false (Fin 1))).
Proof.
  apply (epoch_claims_all_fees mockConfig calmWorld (healthState (Fin 60) ALIVE)
           (storeWith 2 false (Fin 1))).
  reflexivity.
Defined.

(** X13.  After an epoch that returned an allocation, an epoch that
    starts less than the minimum interval later returns [null] and leaves
    the collected fees, the failure counter, the breaker and the last
    execution time untouched. *)
Theorem no_second_epoch_within_interval :
  forall (this : Executor.t) (world1 world2 : World) (health1 health2 : IceHealthState)
         (s : Store) (allocation : EpochAllocation),
    fst (Executor.executeEpoch this world1 health1 s) = Normal (Some allocation) ->
    (ofZ (dateNow world2 / 1000 - dateNow world1 / 1000)
       <? minIntervalSeconds (executor (Executor.config this)))%num = true ->
    let s1 := snd (Executor.executeEpoch this world1 health1 s) in
    let s2 := snd (Executor.executeEpoch this world2 health2 s1) in
    fst (Executor.executeEpoch this world2 health2 s1) = Normal None
    /\ totalFeesCollected (feeTracker s2) = totalFeesCollected (feeTracker s1)
    /\ consecutiveFailures (executorState s2) = 0%Z
    /\ circuitBreakerActive (executorState s2) = false
    /\ lastExecutionTime (executorState s2) = (dateNow world1 / 1000)%Z.
Proof.
  intros this world1 world2 health1 health2 s allocation Hr Hlt s1 s2.
  destruct (executeEpoch_outcome this world1 health1 s) as (r & s' & E & O).
  assert (Es1 : s1 = s') by (subst s1; rewrite E; reflexivity).
  rewrite E in Hr. cbn [fst] in Hr.
  destruct O as [Hb|Hb Hr'|Hb Hr' Hl|Hb Hr' Hl Hd|e Hb Hr' Hl Hd Ha
                |made actions' Hb Hr' Hl Hd Ha Hm]; try discriminate.
  assert (Stop : Executor.executeEpoch this world2 health2 s1 = (Normal None, bumpEpoch s1)).
  { apply stopped_epoch. right. rewrite Es1. exact Hlt. }
  subst s2. rewrite Stop. cbn [fst snd]. rewrite Es1.
  cbn. repeat split; auto.
Qed.

Lemma no_second_epoch_within_interval_witness :
  let this := Executor.make mockConfig in
  let s1 := snd (Executor.executeEpoch this calmWorld (healthState (Fin 60) ALIVE)
                   (storeWith 2 false (Fin 1))) in
  fst (Executor.executeEpoch this calmWorld (healthState (Fin 60) ALIVE) s1) = Normal None.
Proof.
  intros this s1.
  apply (no_second_epoch_within_interval this calmWorld calmWorld
           (healthState (Fin 60) ALIVE) (healthState (Fin 60) ALIVE)
           (storeWith 2 false (Fin 1))
           (AdaptiveAllocationStrategy.allocate (Fin 1) (healthState (Fin 60) ALIVE)
              mockAllocationConfig)); reflexivity.
Defined.

(** X14.  In dry-run mode an epoch does not depend on the swap engine:
    two worlds with the same clock and the same balance answer give the
    same result and the same store. *)
Theorem dry_run_ignores_swap_engine :
  forall (this : Executor.t) (world1 world2 : World) (iceHealth : IceHealthState)
         (s : Store),
    mode (executor (Executor.config this)) = DryRun ->
    dateNow world1 = dateNow world2 ->
    getBalance world1 = getBalance world2 ->
    Executor.executeEpoch this world1 iceHealth s
    = Executor.executeEpoch this world2 iceHealth s.
Proof.
  intros this world1 world2 iceHealth s Hm Hd Hb.
  unfold Executor.executeEpoch, Executor.epochBody, Executor.checkBotBalance.
  rewrite Hm, Hd, Hb. reflexivity.
Qed.

Lemma dry_run_ignores_swap_engine_witness :
  Executor.executeEpoch (Executor.make mockConfig) calmWorld
    (healthState (Fin 60) ALIVE) (storeWith 2 false (Fin 1))
  = Executor.executeEpoch (Executor.make mockConfig) brokenSwapWorld
      (healthState (Fin 60) ALIVE) (storeWith 2 false (Fin 1)).
Proof.
  apply dry_run_ignores_swap_engine; reflexivity.
Defined.

Section FailureStreak.

Variable this : Executor.t.
Variable n : Z.
Hypothesis max_is_n : maxConsecutiveFailures (executor (Executor.config this)) = ofZ n.

(** The breaker is off below the maximum, on at the maximum. *)
Let inStep (s : Store) : Prop :=
  (circuitBreakerActive (executorState s) = false
   /\ (0 <= consecutiveFailures (executorState s) < n)%Z)
  \/ (circuitBreakerActive (executorState s) = true
      /\ consecutiveFailures (executorState s) = n).

Lemma failure_streak (ticks : list (World * IceHealthState)) :
  forall s : Store,
    inStep s ->
    Forall (lowBalanceTick this (lastExecutionTime (executorState s))) ticks ->
    let s' := runEpochs this ticks s in
    inStep s'
    /\ consecutiveFailures (executorState s')
       = Z.min (consecutiveFailures (executorState s) + Z.of_nat (List.length ticks)) n
    /\ epochNumber (executorState s')
       = (epochNumber (executorState s) + Z.of_nat (List.length ticks))%Z
    /\ lastExecutionTime (executorState s') = lastExecutionTime (executorState s)
    /\ feeTracker s' = feeTracker s.
Proof.
  induction ticks as [|[world iceHealth] rest IH]; intros s Hs Hall.
  - cbn [runEpochs List.length Z.of_nat]. repeat split; auto.
    + destruct Hs as [[_ B]|[_ B]]; lia.
    + lia.
  - inversion Hall as [|x l Htick Hrest]; subst.
    cbn [runEpochs].
    destruct Hs as [[Hoff Hf]|[Hon Hf]].
    + rewrite (low_balance_epoch this world iceHealth s Hoff Htick). cbn [snd].
      set (s1 := countFailure this (bumpEpoch s)).
      assert (F1 : consecutiveFailures (executorState s1)
                   = (consecutiveFailures (executorState s) + 1)%Z) by reflexivity.
      assert (B1 : circuitBreakerActive (executorState s1)
                   = if (ofZ (consecutiveFailures (executorState s) + 1) >=? ofZ n)%num
                     then true else false).
      { subst s1. unfold countFailure. cbn. rewrite max_is_n, Hoff. reflexivity. }
      assert (S1 : inStep s1).
      { unfold inStep. rewrite F1, B1.
        destruct (ofZ (consecutiveFailures (executorState s) + 1) >=? ofZ n)%num eqn:G.
        - apply ge_ofZ in G. right. split; [reflexivity | lia].
        - left. split; [reflexivity|].
          assert (~ (n <= consecutiveFailures (executorState s) + 1)%Z).
          { intros L. apply ge_ofZ in L. congruence. }
          lia. }
      destruct (IH s1 S1) as (I & F & N & L & T); [exact Hrest|].
      cbv zeta in I, F, N, L, T. rewrite F, N, L, T, F1.
      change (List.length ((world, iceHealth) :: rest)) with (S (List.length rest)).
      rewrite Nat2Z.inj_succ.
      repeat split; auto; subst s1; cbn; lia.
    + rewrite (stopped_epoch this world iceHealth s (or_introl Hon)). cbn [snd].
      assert (S1 : inStep (bumpEpoch s)) by (right; cbn; auto).
      destruct (IH (bumpEpoch s) S1) as (I & F & N & L & T); [exact Hrest|].
      cbv zeta in I, F, N, L, T. rewrite F, N, L, T.
      change (List.length ((world, iceHealth) :: rest)) with (S (List.length rest)).
      rewrite Nat2Z.inj_succ.
      repeat split; auto; cbn; lia.
Qed.

End FailureStreak.

(** X15.  With a whole number [n >= 1] as maximum, [k] epochs in a row that
    find the balance too low, started with the breaker off and [f < n]
    failures counted, leave [min (f + k) n] failures counted and the
    breaker on exactly when [f + k >= n]; all [k] epochs are counted in
    [epochNumber], and the fee tracker and the last execution time are
    untouched. *)
Theorem breaker_after_failures :
  forall (this : Executor.t) (n : Z) (ticks : list (World * IceHealthState)) (s : Store),
    maxConsecutiveFailures (executor (Executor.config this)) = ofZ n ->
    circuitBreakerActive (executorState s) = false ->
    (0 <= consecutiveFailures (executorState s) < n)%Z ->
    Forall (lowBalanceTick this (lastExecutionTime (executorState s))) ticks ->
    let s' := runEpochs this ticks s in
    let k := Z.of_nat (List.length ticks) in
    consecutiveFailures (executorState s')
    = Z.min (consecutiveFailures (executorState s) + k) n
    /\ (circuitBreakerActive (executorState s') = true
        <-> (n <= consecutiveFailures (executorState s) + k)%Z)
    /\ epochNumber (executorState s') = (epochNumber (executorState s) + k)%Z
    /\ lastExecutionTime (executorState s') = lastExecutionTime (executorState s)
    /\ feeTracker s' = feeTracker s.
Proof.
  intros this n ticks s Hmax Hoff Hf Hall s' k.
  destruct (failure_streak this n Hmax ticks s) as (I & F & N & L & T);
    [left; auto | exact Hall |].
  fold s' in I, F, N, L, T. fold k in F, N.
  repeat split; auto.
  - intros Hon. destruct I as [[B _]|[_ E]]; [congruence|]. lia.
  - intros Hge. destruct I as [[_ B]|[B _]]; [lia | exact B].
Qed.

Lemma breaker_after_failures_witness :
  let this := Executor.make mockConfig in
  let tick := (brokeWorld, healthState (Fin 60) ALIVE) in
  let s' := runEpochs this [tick; tick; tick] (storeWith 3 false (Fin 1)) in
  consecutiveFailures (executorState s') = 5%Z
  /\ (circuitBreakerActive (executorState s') = true <-> (5 <= 3 + 3)%Z).
Proof.
  intros this tick s'.
  destruct (breaker_after_failures this 5 [tick; tick; tick] (storeWith 3 false (Fin 1)))
    as (F & B & _).
  - reflexivity.
  - reflexivity.
  - cbn. lia.
  - repeat constructor.
  - split; [exact F | exact B].
Defined.

(** ** Swap engines *)

Section MockSignatureFacts.

Lemma append_length (s1 s2 : string) :
  String.length (s1 ++ s2) = (String.length s1 + String.length s2)%nat.
Proof. induction s1 as [|c s1 IH]; simpl; [reflexivity | now rewrite IH]. Qed.

Lemma concat_empty_length (l : list string) :
  Forall (fun x => String.length x = 1%nat) l ->
  String.length (String.concat EmptyString l) = List.length l.
Proof.
  induction l as [|x xs IH]; intros H; [reflexivity|].
  inversion H as [|y ys Hx Hxs]; subst.
  destruct xs as [|x' xs'].
  - simpl. exact Hx.
  - change (String.concat EmptyString (x :: x' :: xs'))
      with (x ++ EmptyString ++ String.concat EmptyString (x' :: xs'))%string.
    rewrite !append_length, (IH Hxs), Hx. reflexivity.
Qed.

Lemma alphabet_get (k : nat) :
  (k < 62)%nat -> exists c, String.get k MockSwapEngine.alphabet = Some c.
Proof.
  intros H.
  do 62 (destruct k as [|k]; [eexists; reflexivity|]). lia.
Qed.

Lemma pick_length (r : Q) :
  (0 <= r < 1)%Q -> String.length (MockSwapEngine.pick r) = 1%nat.
Proof.
  intros [H0 H1]. unfold MockSwapEngine.pick.
  assert (L : (0 <= Qfloor (r * 62))%Z).
  { change 0%Z with (Qfloor 0). apply Qfloor_resp_le. lra. }
  assert (U : (Qfloor (r * 62) < 62)%Z).
  { rewrite Zlt_Qlt. pose proof (Qfloor_le (r * 62)) as F.
    change (inject_Z 62) with 62%Q. lra. }
  cbv zeta.
  destruct (Qfloor (r * 62) <? 0)%Z eqn:E; [apply Z.ltb_lt in E; lia|].
  destruct (alphabet_get (Z.to_nat (Qfloor (r * 62)))) as [c Ec]; [lia|].
  rewrite Ec. reflexivity.
Qed.

End MockSignatureFacts.

(** X16.  When [Math.random] gives values in [0, 1), the signature the
    mock swap engine makes up has exactly 88 characters. *)
Theorem mock_signature_length :
  forall random : nat -> Q,
    (forall i, (i < 88)%nat -> (0 <= random i < 1)%Q) ->
    String.length (MockSwapEngine.generateMockTx random) = 88%nat.
Proof.
  intros random H. unfold MockSwapEngine.generateMockTx.
  rewrite concat_empty_length.
  - rewrite length_map, length_seq. reflexivity.
  - apply Forall_forall. intros x Hx. apply in_map_iff in Hx.
    destruct Hx as (i & <- & Hi). apply in_seq in Hi.
    apply pick_length, H. lia.
Qed.

Lemma mock_signature_length_witness :
  String.length (MockSwapEngine.generateMockTx (fun i => inject_Z (Z.of_nat i) / 100)) = 88%nat.
Proof.
  apply mock_signature_length. intros i Hi. split.
  - apply Qle_shift_div_l; [reflexivity|].
    setoid_replace (0 * 100)%Q with (inject_Z 0) by reflexivity.
    rewrite <- Zle_Qle. lia.
  - apply Qlt_shift_div_r; [reflexivity|].
    setoid_replace (1 * 100)%Q with (inject_Z 100) by reflexivity.
    rewrite <- Zlt_Qlt. lia.
Defined.

(** X17.  Against an engine made by [createSwapEngine], a buyback is
    executed exactly when the engine is the mock one and the configured
    price-impact ceiling is not below the 100 bps the mock quotes; it
    then carries the made-up signature.  With the Raydium and Orca
    engines every buyback is recorded as failed. *)
Theorem buyback_by_engine :
  forall (this : Executor.t) (dexType : DexType) (random : nat -> Q)
         (now : Z) (balance : Completion num) (solAmount : num),
    let world := worldOf now balance (createSwapEngine dexType random) in
    exists action,
      Executor.executeBuyback this world solAmount = Normal action
      /\ (action_status action = Executed
          <-> dexType = MockDex
              /\ (Fin 100 >? maxPriceImpactBps (Executor.config this))%num = false)
      /\ (action_status action = Executed ->
          signature action = Some (MockSwapEngine.generateMockTx random))
      /\ (action_status action <> Executed ->
          action_status action = Failed /\ signature action = None).
Proof.
  intros this dexType random now balance solAmount world. subst world.
  unfold Executor.executeBuyback, catchC, bindC, worldOf, createSwapEngine.
  destruct dexType; cbn [dryRun swap SwapEngine.dryRun SwapEngine.swap
    MockSwapEngine.dryRun MockSwapEngine.swap RaydiumSwapEngine.dryRun
    OrcaSwapEngine.dryRun MockQuoteProvider.getQuote Quote.priceImpactBps].
  - destruct (Fin 100 >? maxPriceImpactBps (Executor.config this))%num;
      eexists; (split; [reflexivity|]); cbn; repeat split;
      try discriminate; try congruence; auto.
    intros [_ F]. discriminate F.
  - eexists; (split; [reflexivity|]); cbn; repeat split; try discriminate; auto.
    intros [F _]. discriminate F.
  - eexists; (split; [reflexivity|]); cbn; repeat split; try discriminate; auto.
    intros [F _]. discriminate F.
Qed.

(** ** Wallet watcher *)

Section WatcherFacts.

Import WalletWatcherFeeSource.
Local Open Scope num_scope.

(** [x || 0] is finite unless [x] is infinite: [NaN] and 0 give 0. *)
Lemma orElse_finite (x : option num) :
  match x with Some v => infinite v = false | None => True end ->
  isFinite (orElse x (Fin 0)).
Proof.
  destruct x as [v|]; simpl; [|auto].
  destruct v; simpl; try discriminate; auto. intros _. now destruct (negb _).
Qed.

Lemma firstInfinite_head (balances : list num) :
  firstInfinite (Some balances) = false ->
  match nth_error balances 0 with Some v => infinite v = false | None => True end.
Proof. destruct balances; simpl; auto. Qed.

(** The positive part of a number, in SOL, is never below 0. *)
Lemma positive_part_not_negative (z : num) :
  (Math.max (Fin 0) z / Fin 1000000000 <? Fin 0) = false.
Proof.
  destruct z as [q| | |]; try reflexivity.
  assert (N : nonNegative (Fin (Qmax 0 q) / Fin 1000000000)).
  { apply div_nonNegative; [|reflexivity]. cbn. apply Q.le_max_l. }
  change (Math.max (Fin 0) (Fin q)) with (Fin (Qmax 0 q)).
  destruct (Fin (Qmax 0 q) / Fin 1000000000) as [r| | |]; try contradiction.
  cbn in N |- *. apply negb_false_iff, Qle_bool_iff. exact N.
Qed.

Variable this : t.
Variable ledger : Ledger.

(** The events of the loop, with those already collected in front. *)
Lemma processLoop_app (last : option string) (signatures : list string) :
  forall (i : nat) (events : list Event),
    processLoop this ledger last i signatures events
    = events ++ processLoop this ledger last i signatures [].
Proof.
  induction signatures as [|sig rest IH]; intros i events; cbn [processLoop].
  - now rewrite app_nil_r.
  - destruct (isLastProcessed last sig); [now rewrite app_nil_r|].
    rewrite (IH (S i) (processOne this ledger i sig events)).
    rewrite (IH (S i) (processOne this ledger i sig [])).
    rewrite app_assoc. f_equal.
    unfold processOne.
    destruct (getTransaction ledger sig) as [[tx|]|]; try now rewrite app_nil_r.
    destruct (meta tx) as [m|]; try now rewrite app_nil_r.
    destruct (extractSolInflow m >? Fin 0); [reflexivity | now rewrite app_nil_r].
Qed.

(** What one signature adds: nothing, or one event for it. *)
Lemma processOne_nil (i : nat) (sig : string) :
  processOne this ledger i sig [] = []
  \/ exists e,
       processOne this ledger i sig [] = [e]
       /\ signature e = sig /\ (amountSol e >? Fin 0) = true
       /\ source e = WalletWatcher /\ processed e = false.
Proof.
  unfold processOne.
  destruct (getTransaction ledger sig) as [[tx|]|]; auto.
  destruct (meta tx) as [m|]; auto.
  destruct (extractSolInflow m >? Fin 0) eqn:E; auto.
  right. eexists. split; [reflexivity|]. cbn. auto.
Qed.

Lemma processLoop_events (last : option string) (signatures : list string) :
  forall i : nat,
    let events := processLoop this ledger last i signatures [] in
    (List.length events <= List.length signatures)%nat
    /\ Forall (fun e =>
         In (signature e) signatures
         /\ isLastProcessed last (signature e) = false
         /\ (amountSol e >? Fin 0) = true
         /\ source e = WalletWatcher /\ processed e = false) events.
Proof.
  induction signatures as [|sig rest IH]; intros i; cbn [processLoop].
  - split; [cbn; lia | constructor].
  - destruct (isLastProcessed last sig) eqn:Em; [split; [cbn; lia | constructor]|].
    rewrite processLoop_app.
    destruct (IH (S i)) as [L F]. cbv zeta in L, F.
    assert (F' : Forall (fun e =>
         In (signature e) (sig :: rest)
         /\ isLastProcessed last (signature e) = false
         /\ (amountSol e >? Fin 0) = true
         /\ source e = WalletWatcher /\ processed e = false)
         (processLoop this ledger last (S i) rest [])).
    { eapply Forall_impl; [|exact F]. cbn. intros e (H1 & H2). split; auto. }
    destruct (processOne_nil i sig) as [E|(e & E & Es & Ea & Eo & Ep)]; rewrite E.
    + cbn [app]. split; [cbn; lia | exact F'].
    + cbn [app List.length]. split; [lia|].
      constructor; [|exact F']. rewrite Es. cbn. auto 6.
Qed.

End WatcherFacts.

(** X18.  [extractSolInflow] answers 0 when the transaction reports no
    balances before or after.  Its answer is never below 0, whatever the
    balances are.  Unless the first balance before or after is infinite,
    the answer is finite and not negative: a first balance that is
    missing, 0 or [NaN] is read as 0. *)
Theorem inflow_not_negative :
  forall m : WalletWatcherFeeSource.Meta,
    (WalletWatcherFeeSource.preBalances m = None
     \/ WalletWatcherFeeSource.postBalances m = None ->
     WalletWatcherFeeSource.extractSolInflow m = Fin 0)
    /\ (WalletWatcherFeeSource.extractSolInflow m <? Fin 0)%num = false
    /\ (firstInfinite (WalletWatcherFeeSource.preBalances m) = false ->
        firstInfinite (WalletWatcherFeeSource.postBalances m) = false ->
        nonNegative (WalletWatcherFeeSource.extractSolInflow m)).
Proof.
  intros m. unfold WalletWatcherFeeSource.extractSolInflow. split; [|split].
  - intros [H|H]; rewrite H; [reflexivity|].
    destruct (WalletWatcherFeeSource.preBalances m); reflexivity.
  - destruct (WalletWatcherFeeSource.preBalances m) as [pre|]; [|reflexivity].
    destruct (WalletWatcherFeeSource.postBalances m) as [post|]; [|reflexivity].
    cbv zeta. apply positive_part_not_negative.
  - intros Hpre Hpost.
    destruct (WalletWatcherFeeSource.preBalances m) as [pre|]; [|exact (Qle_refl 0)].
    destruct (WalletWatcherFeeSource.postBalances m) as [post|]; [|exact (Qle_refl 0)].
    pose proof (orElse_finite _ (firstInfinite_head _ Hpre)) as Fpre.
    pose proof (orElse_finite _ (firstInfinite_head _ Hpost)) as Fpost.
    destruct (isFinite_inv _ Fpre) as [a Ea]. destruct (isFinite_inv _ Fpost) as [b Eb].
    cbv zeta. rewrite Ea, Eb.
    change (nonNegative (Fin (Qmax 0 (b - a)) / Fin 1000000000)%num).
    apply div_nonNegative; [|reflexivity]. cbn. apply Q.le_max_l.
Qed.

(** A first balance that is [NaN] before the transaction, and a
    transaction that reports no balances after it. *)
Lemma inflow_not_negative_witness :
  nonNegative
    (WalletWatcherFeeSource.extractSolInflow
       {| WalletWatcherFeeSource.preBalances := Some [NaN; Fin 1];
          WalletWatcherFeeSource.postBalances := Some [Fin 3000000000; Fin 1] |})
  /\ WalletWatcherFeeSource.extractSolInflow
       {| WalletWatcherFeeSource.preBalances := Some [Fin 5000000000];
          WalletWatcherFeeSource.postBalances := None |} = Fin 0.
Proof.
  split.
  - apply (inflow_not_negative
             {| WalletWatcherFeeSource.preBalances := Some [NaN; Fin 1];
                WalletWatcherFeeSource.postBalances := Some [Fin 3000000000; Fin 1] |});
      reflexivity.
  - apply (inflow_not_negative
             {| WalletWatcherFeeSource.preBalances := Some [Fin 5000000000];
                WalletWatcherFeeSource.postBalances := None |}).
    right. reflexivity.
Defined.

(** X19.  [processSignatures] returns at most one event per signature of
    the batch.  Every event is for a signature of the batch other than
    the one processed last, has an amount above 0, comes from the wallet
    watcher and is not marked processed. *)
Theorem processed_events :
  forall (this : WalletWatcherFeeSource.t) (ledger : WalletWatcherFeeSource.Ledger)
         (signatures : list string) (st : WalletWatcherFeeSource.State),
    let events :=
      fst (WalletWatcherFeeSource.processSignatures this ledger signatures st) in
    (List.length events <= List.length signatures)%nat
    /\ Forall (fun e =>
         In (WalletWatcherFeeSource.signature e) signatures
         /\ WalletWatcherFeeSource.isLastProcessed
              (WalletWatcherFeeSource.lastProcessedSignature st)
              (WalletWatcherFeeSource.signature e) = false
         /\ (WalletWatcherFeeSource.amountSol e >? Fin 0)%num = true
         /\ WalletWatcherFeeSource.source e = WalletWatcherFeeSource.WalletWatcher
         /\ WalletWatcherFeeSource.processed e = false) events.
Proof.
  intros this ledger signatures st events. subst events.
  unfold WalletWatcherFeeSource.processSignatures. cbn [fst].
  apply processLoop_events.
Qed.

(** X20.  A batch whose first signature is not the empty string, once
    processed, gives no event when it is processed again, and the state
    stays as the first pass left it. *)
Theorem batch_is_processed_once :
  forall (this : WalletWatcherFeeSource.t) (ledger1 ledger2 : WalletWatcherFeeSource.Ledger)
         (first : string) (rest : list string) (st : WalletWatcherFeeSource.State),
    WalletWatcherFeeSource.nonEmpty first = true ->
    let st1 :=
      snd (WalletWatcherFeeSource.processSignatures this ledger1 (first :: rest) st) in
    WalletWatcherFeeSource.processSignatures this ledger2 (first :: rest) st1 = ([], st1).
Proof.
  intros this ledger1 ledger2 first rest st Hne st1. subst st1.
  unfold WalletWatcherFeeSource.processSignatures.
  cbn [snd WalletWatcherFeeSource.lastProcessedSignature
       WalletWatcherFeeSource.lastPollTime WalletWatcherFeeSource.processLoop
       WalletWatcherFeeSource.isLastProcessed].
  rewrite Hne, String.eqb_refl. reflexivity.
Qed.

Lemma batch_is_processed_once_witness :
  let ledger :=
    {| WalletWatcherFeeSource.getTransaction := fun _ =>
         Normal (Some {| WalletWatcherFeeSource.meta :=
                           Some {| WalletWatcherFeeSource.preBalances := Some [Fin 1];
                                   WalletWatcherFeeSource.postBalances := Some [Fin 9] |};
                         WalletWatcherFeeSource.blockTime := None |});
       WalletWatcherFeeSource.getSignatureStatus := fun _ => Normal None;
       WalletWatcherFeeSource.clock := fun _ => 1700000000000%Z |} in
  let this := {| WalletWatcherFeeSource.pollIntervalMs := Fin 30000;
                 WalletWatcherFeeSource.confirmationDepth := Fin 32 |} in
  let pass1 := WalletWatcherFeeSource.processSignatures this ledger
                 ["sigB"; "sigA"]%string WalletWatcherFeeSource.initialState in
  List.length (fst pass1) = 2%nat
  /\ WalletWatcherFeeSource.processSignatures this ledger ["sigB"; "sigA"]%string (snd pass1)
     = ([], snd pass1).
Proof.
  intros ledger this pass1. split; [reflexivity|].
  apply (batch_is_processed_once this ledger ledger "sigB"%string ["sigA"%string]
           WalletWatcherFeeSource.initialState).
  reflexivity.
Defined.

(** X21.  [getConfirmationStatus] answers "confirmed" only for a count of
    confirmations that is at least 16 and below the configured depth, so
    never when the depth (finite) is 16 or less; and a status without a
    count of confirmations is "processed" unless the configured depth is
    0 or less. *)
Theorem confirmation_levels :
  forall (this : WalletWatcherFeeSource.t) (ledger : WalletWatcherFeeSource.Ledger)
         (sig : string),
    (forall d : Q,
        WalletWatcherFeeSource.confirmationDepth this = Fin d ->
        (d <= 16)%Q ->
        WalletWatcherFeeSource.getConfirmationStatus this ledger sig
        <> WalletWatcherFeeSource.Confirmed)
    /\ (forall st v,
          WalletWatcherFeeSource.getSignatureStatus ledger sig = Normal (Some st) ->
          WalletWatcherFeeSource.value st = Some v ->
          WalletWatcherFeeSource.confirmations v = None ->
          (Fin 0 >=? WalletWatcherFeeSource.confirmationDepth this)%num = false ->
          WalletWatcherFeeSource.getConfirmationStatus this ledger sig
          = WalletWatcherFeeSource.Processed).
Proof.
  intros this ledger sig. split.
  - intros d Hd Hle. unfold WalletWatcherFeeSource.getConfirmationStatus.
    destruct (WalletWatcherFeeSource.getSignatureStatus ledger sig) as [[st|]|];
      try discriminate.
    destruct (WalletWatcherFeeSource.value st) as [v|]; try discriminate.
    cbv zeta. rewrite Hd.
    destruct (WalletWatcherFeeSource.orElse (WalletWatcherFeeSource.confirmations v) (Fin 0))
      as [c| | |]; unfold ge; cbn [le]; try discriminate.
    destruct (Qle_bool d c) eqn:E1; [discriminate|].
    destruct (Qle_bool 16 c) eqn:E2; [|discriminate].
    apply Qle_bool_iff in E2.
    assert (d <= c)%Q by lra. apply Qle_bool_iff in H. congruence.
  - intros st v Hs Hv Hc Hd. unfold WalletWatcherFeeSource.getConfirmationStatus.
    rewrite Hs, Hv, Hc. cbn [WalletWatcherFeeSource.orElse]. rewrite Hd. reflexivity.
Qed.

Lemma confirmation_levels_witness :
  let this := {| WalletWatcherFeeSource.pollIntervalMs := Fin 30000;
                 WalletWatcherFeeSource.confirmationDepth := Fin 10 |} in
  let ledger :=
    {| WalletWatcherFeeSource.getTransaction := fun _ => Normal None;
       WalletWatcherFeeSource.getSignatureStatus := fun _ =>
         Normal (Some {| WalletWatcherFeeSource.value :=
                           Some {| WalletWatcherFeeSource.confirmations := Some (Fin 20) |} |});
       WalletWatcherFeeSource.clock := fun _ => 0%Z |} in
  WalletWatcherFeeSource.getConfirmationStatus this ledger "sig"%string
  <> WalletWatcherFeeSource.Confirmed.
Proof.
  intros this ledger.
  apply (proj1 (confirmation_levels this ledger "sig"%string) 10).
  - reflexivity.
  - discriminate.
Defined.

(** X22.  [detect] of the wallet watcher never reports an event and
    never moves the marker of the last processed signature: the list of
    recent signatures it works on is always empty.  It records the time
    of the poll unless the poll interval has not elapsed. *)
Theorem detect_reports_nothing :
  forall (this : WalletWatcherFeeSource.t) (ledger : WalletWatcherFeeSource.Ledger)
         (now : Z) (st : WalletWatcherFeeSource.State),
    let result := WalletWatcherFeeSource.detect this ledger now st in
    fst result = []
    /\ WalletWatcherFeeSource.lastProcessedSignature (snd result)
       = WalletWatcherFeeSource.lastProcessedSignature st
    /\ WalletWatcherFeeSource.lastPollTime (snd result)
       = if (ofZ (now - WalletWatcherFeeSource.lastPollTime st)
               <? WalletWatcherFeeSource.pollIntervalMs this)%num
         then WalletWatcherFeeSource.lastPollTime st
         else now.
Proof.
  intros this ledger now st result. subst result.
  unfold WalletWatcherFeeSource.detect.
  destruct (ofZ (now - WalletWatcherFeeSource.lastPollTime st)
            <? WalletWatcherFeeSource.pollIntervalMs this)%num; repeat split.
Qed.

(** ** Configuration check *)

Section ConfigFacts.

Local Open Scope num_scope.

Lemma add_NaN_l (x : num) : NaN + x = NaN.
Proof. reflexivity. Qed.

Lemma add_NaN_r (x : num) : x + NaN = NaN.
Proof. destruct x; reflexivity. Qed.

Lemma sub_NaN_l (x : num) : NaN - x = NaN.
Proof. reflexivity. Qed.

Lemma sub_NaN_r (x : num) : x - NaN = NaN.
Proof. destruct x; reflexivity. Qed.

Lemma mul_NaN_l (x : num) : NaN * x = NaN.
Proof. reflexivity. Qed.

Lemma strictNe_false (x : num) (q : Q) :
  ConfigManager.strictNe x (Fin q) = false <-> x =~ Fin q.
Proof.
  destruct x as [a| | |]; simpl; try (split; [discriminate | contradiction]).
  rewrite negb_false_iff. apply Qeq_bool_iff.
Qed.

(** What an accepted configuration has passed. *)
Lemma validateConfig_accepted (config : ProtocolConfig) :
  ConfigManager.validateConfig config = ConfigManager.Accepted ->
  (Math.abs
     (Weights.buybackFrequency (iceHealthWeights config)
      + Weights.buybackCoverage (iceHealthWeights config)
      + Weights.liquidityDepth (iceHealthWeights config)
      + Weights.volatilityPenalty (iceHealthWeights config)
      + Weights.timeDecay (iceHealthWeights config) - Fin 1) >? Fin 0.001) = false
  /\ validAllocationConfig (allocationConfig config)
  /\ (iceHealthThreshold config <? Fin 0) = false
  /\ (iceHealthThreshold config >? Fin 100) = false.
Proof.
  unfold ConfigManager.validateConfig. cbv zeta.
  destruct (Math.abs _ >? Fin 0.001); [discriminate|].
  destruct (ConfigManager.strictNe _ (Fin 100)) eqn:En; [discriminate|].
  destruct (iceHealthThreshold config <? Fin 0); [discriminate|].
  destruct (iceHealthThreshold config >? Fin 100); [discriminate|].
  intros _. apply strictNe_false in En. auto.
Qed.

(** With a weight that is [NaN], the score is [NaN]. *)
Lemma computeHealthScore_NaN (config : ProtocolConfig) (m : IceHealthMetrics) :
  hasNaNWeight (iceHealthWeights config) ->
  IceHealthEngine.computeHealthScore config m = NaN.
Proof.
  unfold IceHealthEngine.computeHealthScore. cbv zeta.
  intros [H|[H|[H|[H|H]]]]; rewrite H;
    rewrite ?mul_NaN_l, ?add_NaN_l, ?add_NaN_r, ?sub_NaN_l, ?sub_NaN_r,
      ?add_NaN_l, ?add_NaN_r, ?sub_NaN_l, ?sub_NaN_r; reflexivity.
Qed.

End ConfigFacts.

(** X23.  A configuration [validateConfig] accepts has percentages that
    add up to 100 and a threshold that, if finite, lies in [0, 100].  So
    for every finite fee amount the fixed strategy hands out exactly the
    fee, and so does the adaptive strategy when the buyback percentage
    is below 100; and with finite weights the sum of the weights is
    within 0.001 of 1. *)
Theorem accepted_config :
  forall config : ProtocolConfig,
    ConfigManager.validateConfig config = ConfigManager.Accepted ->
    (forall (f : Q) (iceHealth : IceHealthState),
        allocatedTotal
          (allocations (FixedAllocationStrategy.allocate (Fin f) iceHealth
                          (allocationConfig config))) =~ Fin f
        /\ ((buybackPct (allocationConfig config) <? Fin 100)%num = true ->
            allocatedTotal
              (allocations (AdaptiveAllocationStrategy.allocate (Fin f) iceHealth
                              (allocationConfig config))) =~ Fin f))
    /\ (forall t : Q, iceHealthThreshold config = Fin t -> (0 <= t <= 100)%Q)
    /\ (finiteWeights (iceHealthWeights config) ->
        exists total : Q,
          (Weights.buybackFrequency (iceHealthWeights config)
           + Weights.buybackCoverage (iceHealthWeights config)
           + Weights.liquidityDepth (iceHealthWeights config)
           + Weights.volatilityPenalty (iceHealthWeights config)
           + Weights.timeDecay (iceHealthWeights config))%num = Fin total
          /\ (1 - 0.001 <= total <= 1 + 0.001)%Q).
Proof.
  intros config Hacc.
  destruct (validateConfig_accepted config Hacc) as (Hw & Ha & Ht0 & Ht1).
  split; [|split].
  - intros f iceHealth. split.
    + now apply fixed_total.
    + intros Hlt. now apply adaptive_total.
  - intros t Et. rewrite Et in Ht0, Ht1. unfold gt in Ht1. cbn [lt] in Ht0, Ht1.
    rewrite negb_false_iff in Ht0, Ht1. apply Qle_bool_iff in Ht0, Ht1. auto.
  - intros Hfin. destruct (finiteWeights_inv config Hfin) as (w1 & w2 & w3 & w4 & w5 & Ew).
    rewrite Ew in *. cbn [Weights.buybackFrequency Weights.buybackCoverage
      Weights.liquidityDepth Weights.volatilityPenalty Weights.timeDecay] in *.
    exists (w1 + w2 + w3 + w4 + w5)%Q. split; [reflexivity|].
    change (negb (Qle_bool (Qabs (w1 + w2 + w3 + w4 + w5 - 1)) 0.001) = false) in Hw.
    rewrite negb_false_iff in Hw. apply Qle_bool_iff in Hw.
    apply Qabs_Qle_condition in Hw. lra.
Qed.

Lemma accepted_config_witness :
  ConfigManager.validateConfig mockConfig = ConfigManager.Accepted
  /\ allocatedTotal
       (allocations (FixedAllocationStrategy.allocate (Fin 3) (healthState (Fin 60) ALIVE)
                       (allocationConfig mockConfig))) =~ Fin 3.
Proof.
  assert (A : ConfigManager.validateConfig mockConfig = ConfigManager.Accepted)
    by reflexivity.
  split; [exact A|].
  destruct (accepted_config mockConfig A) as [H _].
  apply (H 3 (healthState (Fin 60) ALIVE)).
Defined.

(** X24.  [validateConfig] lets a weight that is [NaN] through: with a
    [NaN] among the weights, percentages that add up to 100 and a finite
    threshold in [0, 100], the configuration is accepted; and then, for
    every input, the reported health is [NaN] and the status is DEAD. *)
Theorem nan_weight_is_accepted :
  forall (config : ProtocolConfig) (t : Q),
    hasNaNWeight (iceHealthWeights config) ->
    validAllocationConfig (allocationConfig config) ->
    iceHealthThreshold config = Fin t ->
    (0 <= t <= 100)%Q ->
    ConfigManager.validateConfig config = ConfigManager.Accepted
    /\ forall (dateNow : Z) (input : HealthMetricsInput) (epochNumber : Z),
         let state := IceHealthEngine.computeHealth config dateNow input epochNumber in
         health state = NaN /\ status state = DEAD.
Proof.
  intros config t Hnan Hv Ht [H0 H1]. split.
  - unfold ConfigManager.validateConfig. cbv zeta.
    assert (Ew : (Weights.buybackFrequency (iceHealthWeights config)
                  + Weights.buybackCoverage (iceHealthWeights config)
                  + Weights.liquidityDepth (iceHealthWeights config)
                  + Weights.volatilityPenalty (iceHealthWeights config)
                  + Weights.timeDecay (iceHealthWeights config))%num = NaN).
    { destruct Hnan as [H|[H|[H|[H|H]]]]; rewrite H;
        rewrite ?add_NaN_l, ?add_NaN_r, ?add_NaN_l, ?add_NaN_r; reflexivity. }
    rewrite Ew. cbn [sub add neg Math.abs gt lt].
    apply strictNe_false in Hv. rewrite Hv, Ht. cbn [lt].
    assert (E0 : Qle_bool 0 t = true) by now apply Qle_bool_iff.
    assert (E1 : Qle_bool t 100 = true) by now apply Qle_bool_iff.
    rewrite E0, E1. reflexivity.
  - intros dateNow input epochNumber state. subst state.
    unfold IceHealthEngine.computeHealth. cbn [health status].
    rewrite (computeHealthScore_NaN config _ Hnan).
    unfold IceHealthEngine.computeStatus. rewrite Ht. split; reflexivity.
Qed.

Lemma nan_weight_is_accepted_witness :
  ConfigManager.validateConfig (configWithWeights brokenWeights) = ConfigManager.Accepted
  /\ status (IceHealthEngine.computeHealth (configWithWeights brokenWeights)
               1700003600000 (healthyInput 1700003600) 1) = DEAD.
Proof.
  destruct (nan_weight_is_accepted (configWithWeights brokenWeights) 50) as [A H].
  - right; right; right; right. reflexivity.
  - reflexivity.
  - reflexivity.
  - split; discriminate.
  - split; [exact A|]. apply H.
Defined.

(** ** Orchestrator *)

(** X25.  The report of an epoch is written after the executor has reset
    the fee tracker.  When the executor allocated, the report shows the
    amounts allocated out of the fees collected before the epoch, and 0
    as fees detected; in dry-run mode it then lists no action and no
    signature.  When the executor returned [null], the report shows the
    fees still collected, zero amounts, no action and no signature.  It
    never lists an error. *)
Theorem report_of_epoch :
  forall (config : ProtocolConfig) (tick : IceProtocol.Tick) (n : Z) (s : Store),
    let iceHealth :=
      IceHealthEngine.computeHealth config (IceProtocol.clockHealth tick)
        (IceProtocol.getHealthMetricsInput tick) n in
    let run := Executor.executeEpoch (Executor.make config) (IceProtocol.world tick)
                 iceHealth s in
    exists report,
      IceProtocol.executeEpoch config tick n s = (Normal report, snd run)
      /\ IceProtocol.epochNumber report = n
      /\ IceProtocol.iceHealth report = iceHealth
      /\ IceProtocol.errors report = []
      /\ (forall allocation,
            fst run = Normal (Some allocation) ->
            IceProtocol.feesDetected report = Fin 0
            /\ IceProtocol.allocations report = allocations allocation
            /\ IceProtocol.actions report = actions allocation
            /\ totalFeesToAllocate allocation = totalFeesCollected (feeTracker s)
            /\ (totalFeesCollected (feeTracker s) <? Fin 0.01)%num = false
            /\ (mode (executor config) = DryRun ->
                IceProtocol.actions report = []
                /\ IceProtocol.txSignatures report = []))
      /\ (fst run = Normal None ->
          IceProtocol.feesDetected report = totalFeesCollected (feeTracker s)
          /\ IceProtocol.allocations report = zeroAllocations
          /\ IceProtocol.actions report = []
          /\ IceProtocol.txSignatures report = []).
Proof.
  intros config tick n s iceHealth run.
  destruct (executeEpoch_outcome (Executor.make config) (IceProtocol.world tick)
              iceHealth s) as (r & s' & E & O).
  unfold IceProtocol.executeEpoch. fold iceHealth. unfold bind at 1. fold run.
  subst run. rewrite E. cbn [fst snd].
  unfold bind, Executor.getFeeTracker, ret.
  eexists. split; [reflexivity|].
  cbn [IceProtocol.epochNumber IceProtocol.iceHealth IceProtocol.errors
       IceProtocol.feesDetected IceProtocol.allocations IceProtocol.actions
       IceProtocol.txSignatures].
  split; [reflexivity|]. split; [reflexivity|]. split; [reflexivity|].
  destruct O as [Hb|Hb Hr|Hb Hr Hl|Hb Hr Hl Hd|e Hb Hr Hl Hd Ha
                |made actions' Hb Hr Hl Hd Ha Hm];
    (split; [intros a Ha'; try discriminate Ha' | intros Hn; try discriminate Hn]);
    try (repeat split; reflexivity).
  inversion Ha'; subst a. clear Ha'.
  cbn [Executor.make Executor.allocationStrategy Executor.config] in Ha, Hm.
  assert (T : totalFeesToAllocate made = totalFeesCollected (feeTracker s)
              /\ actions made = []).
  { destruct (allocationMode config); cbn [allocate adaptiveStrategy fixedStrategy] in Ha;
      inversion Ha; subst made; auto. }
  destruct T as [T1 T2].
  unfold allocationAmounts, allocationActions.
  cbn [Executor.setActions allocations actions totalFeesToAllocate].
  split; [reflexivity|]. split; [reflexivity|]. split; [reflexivity|].
  split; [exact T1|]. split; [exact Hd|].
  intros Hdry. rewrite (Hm Hdry), T2. split; reflexivity.
Qed.

Lemma report_of_epoch_witness :
  exists report s',
    IceProtocol.executeEpoch mockConfig calmTick 1 (storeWith 2 false (Fin 1))
    = (Normal report, s')
    /\ IceProtocol.feesDetected report = Fin 0
    /\ buyback (IceProtocol.allocations report) =~ Fin 0.7.
Proof.
  destruct (report_of_epoch mockConfig calmTick 1 (storeWith 2 false (Fin 1)))
    as (report & E & _ & _ & _ & H & _).
  exists report. eexists. split; [exact E|].
  cbv zeta in H.
  destruct (H (AdaptiveAllocationStrategy.allocate (Fin 1)
                 (IceHealthEngine.computeHealth mockConfig 1700000000000
                    (IceProtocol.getHealthMetricsInput calmTick) 1)
                 mockAllocationConfig)) as (F & A & _).
  - vm_compute. reflexivity.
  - split; [exact F|]. rewrite A. vm_compute. reflexivity.
Defined.

Section OrchestratorInput.

Local Open Scope num_scope.

Lemma floor_of_draw (r : Q) :
  (0 <= r < 1)%Q -> (0 <= Qfloor (r * 4) <= 3)%Z.
Proof.
  intros [H0 H1]. split.
  - change 0%Z with (Qfloor 0). apply Qfloor_resp_le. lra.
  - assert (U : (Qfloor (r * 4) < 4)%Z).
    { rewrite Zlt_Qlt. pose proof (Qfloor_le (r * 4)) as F.
      change (inject_Z 4) with 4%Q. lra. }
    lia.
Qed.

End OrchestratorInput.

(** X26.  When [Math.random] gives values in [0, 1), the health input the
    orchestrator makes up is a valid one (finite, non-negative
    measurements) whatever the clock; its time-decay sub-score is always
    33.33 (the last buyback is put one day back) and its
    buyback-frequency sub-score never exceeds 75. *)
Theorem orchestrator_input :
  forall tick : IceProtocol.Tick,
    (forall i, (i < 5)%nat -> (0 <= IceProtocol.random tick i < 1)%Q) ->
    let input := IceProtocol.getHealthMetricsInput tick in
    validInput input
    /\ timeDecay (IceHealthEngine.computeMetrics input) =~ Fin 33.33
    /\ (buybackFrequency (IceHealthEngine.computeMetrics input) <=? Fin 75)%num = true.
Proof.
  intros tick H input. subst input.
  assert (R0 := H 0%nat ltac:(lia)). assert (R1 := H 1%nat ltac:(lia)).
  assert (R2 := H 2%nat ltac:(lia)). assert (R3 := H 3%nat ltac:(lia)).
  assert (R4 := H 4%nat ltac:(lia)).
  destruct (floor_of_draw _ R0) as [F0 F3].
  split; [|split].
  - unfold validInput, IceProtocol.getHealthMetricsInput.
    cbn [buybackCountLast24h buybackVolumeSolLast24h recentSellPressureSol
         currentLiquidity volatilityPercent24h lastBuybackTimestampSeconds
         currentTimestampSeconds Math.floor mul add nonNegative isFinite ofZ].
    repeat split; try exact I.
    + change 0%Q with (inject_Z 0). rewrite <- Zle_Qle. exact F0.
    + destruct R1. apply Qmult_le_0_compat; [assumption | discriminate].
    + destruct R2. apply Qmult_le_0_compat; [assumption | discriminate].
    + destruct R3. lra.
    + destruct R4. apply Qmult_le_0_compat; [assumption | discriminate].
  - cbn [IceHealthEngine.computeMetrics timeDecay].
    unfold IceHealthEngine.timeDecayScore, IceHealthEngine.hoursSinceLastAction,
      IceHealthEngine.secondsSinceLastAction, IceProtocol.getHealthMetricsInput.
    cbn [currentTimestampSeconds lastBuybackTimestampSeconds ofZ].
    set (now := (IceProtocol.clockInput tick / 1000)%Z). unfold ofZ.
    change (Fin (inject_Z now) - Fin (inject_Z (now - 86400)))%num
      with (Fin (inject_Z now - inject_Z (now - 86400))).
    change (Fin ?c / Fin 3600)%num with (Fin (c / 3600)).
    change (Fin ?c / Fin 72)%num with (Fin (c / 72)).
    change (Fin ?c * Fin 100)%num with (Fin (c * 100)).
    cbn [Math.max Math.min]. rewrite round2_Fin. cbn [same].
    assert (E : (inject_Z now - inject_Z (now - 86400) == 86400)%Q).
    { unfold Z.sub. rewrite inject_Z_plus. change (inject_Z (- (86400))) with (-86400)%Q.
      ring. }
    rewrite E. reflexivity.
  - cbn [IceHealthEngine.computeMetrics buybackFrequency].
    unfold IceHealthEngine.buybackFrequencyScore, IceProtocol.getHealthMetricsInput.
    cbn [buybackCountLast24h Math.floor mul ofZ].
    set (k := Qfloor (IceProtocol.random tick 0 * 4)) in *. unfold ofZ.
    change (Fin (inject_Z k) / Fin 4)%num with (Fin (inject_Z k / 4)).
    change (Fin ?c * Fin 100)%num with (Fin (c * 100)).
    cbn [Math.min]. rewrite round2_Fin. cbn [le]. apply Qle_bool_iff.
    assert (K : (inject_Z k <= 3)%Q).
    { change 3%Q with (inject_Z 3). rewrite <- Zle_Qle. exact F3. }
    assert (D : (Qmin 100 (inject_Z k / 4 * 100) <= 75)%Q).
    { eapply Qle_trans; [apply Q.le_min_r|].
      clearbody k. set (x := inject_Z k) in *. clearbody x.
      setoid_replace (x / 4 * 100)%Q with (x * 25)%Q by field. lra. }
    apply round2_mono in D.
    eapply Qle_trans; [exact D|]. discriminate.
Qed.

Lemma orchestrator_input_witness :
  validInput (IceProtocol.getHealthMetricsInput calmTick)
  /\ timeDecay (IceHealthEngine.computeMetrics (IceProtocol.getHealthMetricsInput calmTick))
     =~ Fin 33.33.
Proof.
  destruct (orchestrator_input calmTick) as (V & T & _).
  - intros i _. split; [discriminate | reflexivity].
  - split; [exact V | exact T].
Defined.
